(** * fvdb grid-batch engine: a shallow embedding and its properties

    The development follows three sources of the repository:
    - [fvdb/src/detail/TorchDeviceBuffer.cpp]  (the device buffer),
    - [fvdb/src/detail/GridBatchImpl.h]        (the grid-batch engine and its accessor),
    - [fvdb/src/GridBatch.cpp]                 (the public wrapper).

    Conventions.  Fixed-width integers are carried as [Z]; where an addition
    can leave the range, the two's-complement wrap is written out ([add_i64],
    [add_i32]).  A null pointer is [None].  A [TORCH_CHECK*] that fails
    raises an exception, modelled by [Throw].  A [double] is an IEEE 754
    binary64 value with the correctly rounded operations of [SpecFloat].  The
    allocator and the CUDA runtime are seen through the calls made to them:
    each call is recorded and returns; an allocation that fails, a copy that
    fails and a release the allocator refuses are outside the model. *)

From Stdlib Require Import ZArith QArith Qcanon SpecFloat Lia.
From stdpp Require Import base option list strings numbers.

Local Open Scope Z_scope.

(** ** Exceptions and results *)

Module Torch.

(** The exception classes behind the three check macros, and the abort of a
    failed [assert].  The text carried is the literal part of the message. *)
Inductive exn : Type :=
| c10_Error (msg : string)        (* TORCH_CHECK *)
| c10_IndexError (msg : string)   (* TORCH_CHECK_INDEX *)
| c10_ValueError (msg : string)   (* TORCH_CHECK_VALUE *)
| assert_failure.                 (* assert(...) *)

Inductive result (A : Type) : Type :=
| Ok (a : A)
| Throw (e : exn).
Arguments Ok {A} a.
Arguments Throw {A} e.

#[export] Instance result_ret : MRet result := fun A a => Ok a.
#[export] Instance result_bind : MBind result := fun A B f m =>
  match m with
  | Ok a => f a
  | Throw e => Throw e
  end.
#[export] Instance result_fmap : FMap result := fun A B f m =>
  match m with
  | Ok a => Ok (f a)
  | Throw e => Throw e
  end.

Definition is_Ok {A} (r : result A) : bool :=
  match r with Ok _ => true | Throw _ => false end.

Definition TORCH_CHECK (cond : bool) (msg : string) : result unit :=
  if cond then Ok tt else Throw (c10_Error msg).
Definition TORCH_CHECK_INDEX (cond : bool) (msg : string) : result unit :=
  if cond then Ok tt else Throw (c10_IndexError msg).
Definition TORCH_CHECK_VALUE (cond : bool) (msg : string) : result unit :=
  if cond then Ok tt else Throw (c10_ValueError msg).
Definition assert (cond : bool) : result unit :=
  if cond then Ok tt else Throw assert_failure.

(** [for (i = start; i < start + n; i += 1) body], threading the loop
    state and stopping at the first exception. *)
Fixpoint for_loop {S : Type} (n : nat) (i : Z) (body : Z -> S -> result S) (s : S)
  : result S :=
  match n with
  | O => Ok s
  | Datatypes.S n' => s' ← body i s; for_loop n' (i + 1) body s'
  end.

(** The device of a tensor or buffer: a device type and an index, the index
    being [-1] when none is given. *)
Inductive DeviceType : Type := kCPU | kCUDA | kOther.

Record Device : Type := mkDevice { dev_type : DeviceType; dev_index : Z }.

#[export] Instance DeviceType_eq_dec : EqDecision DeviceType.
Proof. solve_decision. Defined.
#[export] Instance Device_eq_dec : EqDecision Device.
Proof. solve_decision. Defined.

Definition is_cpu (d : Device) : bool := bool_decide (dev_type d = kCPU).
Definition is_cuda (d : Device) : bool := bool_decide (dev_type d = kCUDA).
Definition has_index (d : Device) : bool := negb (dev_index d =? -1).
Definition cpu : Device := mkDevice kCPU (-1).

End Torch.
Export Torch.

(** ** Fixed-width arithmetic *)

Definition wrap_signed (w : Z) (z : Z) : Z :=
  (z + 2 ^ (w - 1)) mod 2 ^ w - 2 ^ (w - 1).

Definition add_i64 (a b : Z) : Z := wrap_signed 64 (a + b).
Definition add_i32 (a b : Z) : Z := wrap_signed 32 (a + b).

Definition int64_max : Z := 2 ^ 63 - 1.
Definition int32_max : Z := 2 ^ 31 - 1.
Definition int32_min : Z := - 2 ^ 31.

(** The sum a loop accumulates in an [int64_t], starting from [acc]. *)
Definition sum_i64_from (acc : Z) (l : list Z) : Z := foldl add_i64 acc l.
Definition sum_i64 (l : list Z) : Z := sum_i64_from 0 l.

(** The sum over the integers. *)
Definition sumZ (l : list Z) : Z := foldr Z.add 0 l.

(** Every count is non-negative and their sum fits an [int64_t]. *)
Definition fits_int64 (l : list Z) : Prop :=
  Forall (fun x => 0 <= x) l /\ sumZ l <= int64_max.

(** ** The device buffer ([TorchDeviceBuffer.cpp]) *)

Module TorchDeviceBuffer.

Definition bytes : Type := list Byte.byte.

(** Calls into the allocators and the CUDA runtime, in program order.  The
    model records a call and lets it return: the ways a call can fail (no
    memory left, a CUDA error, a release of a region the allocator no longer
    holds) belong to the allocator and the runtime, and are outside it. *)
Inductive event : Type :=
| ev_malloc (size : Z)
| ev_free
| ev_raw_alloc (d : Device) (size : Z)
| ev_raw_delete (d : Device)
| ev_memcpy_device_to_host (size : Z)
| ev_memcpy_host_to_device (size : Z)
| ev_stream_synchronize (d : Device).

(** The members of the class.  A data pointer is [None] when null and
    otherwise carries the contents of the region it points to. *)
Record t : Type := mk {
  mSize : Z;
  mCpuData : option bytes;
  mGpuData : option bytes;
  mDevice : Device
}.

Definition set_mCpuData (p : option bytes) (b : t) : t :=
  mk (mSize b) p (mGpuData b) (mDevice b).
Definition set_mGpuData (p : option bytes) (b : t) : t :=
  mk (mSize b) (mCpuData b) p (mDevice b).
Definition set_mDevice (d : Device) (b : t) : t :=
  mk (mSize b) (mCpuData b) (mGpuData b) d.

(** A buffer together with the trace of runtime calls made so far. *)
Record state : Type := mkState { buf : t; trace : list event }.

Definition on_buf (f : t -> t) (st : state) : state :=
  mkState (f (buf st)) (trace st).
Definition emit (e : event) (st : state) : state :=
  mkState (buf st) (trace st ++ [e]).

(** A method returns normally or throws, and leaves a state in both cases. *)
Definition M (A : Type) : Type := state -> result A * state.

Definition null_both (b : t) : bool :=
  bool_decide (mCpuData b = None) && bool_decide (mGpuData b = None).

(** [memcpy(dst, src, n)] on region contents. *)
Definition memcpy (dst src : bytes) (n : Z) : bytes :=
  take (Z.to_nat n) src ++ drop (Z.to_nat n) dst.

(** A region fresh from the allocator.  The code leaves it uninitialised;
    the zeros stand for contents nothing may rely on, and no statement below
    reads them: every allocation is followed by a copy of the full size, or
    the region is only counted. *)
Definition fresh (n : Z) : bytes := replicate (Z.to_nat n) Byte.x00.

Definition copyDeviceToHostAndFreeDevice (blocking : bool) : M unit := fun st =>
  match mGpuData (buf st) with
  | None => (Throw (c10_Error "uninitialized cpu data, this should never happen"), st)
  | Some gpu =>
    let d := mDevice (buf st) in
    let n := mSize (buf st) in
    let st :=
      match mCpuData (buf st) with
      | None => on_buf (set_mCpuData (Some (fresh n))) (emit (ev_malloc n) st)
      | Some _ => st
      end in
    let host := default [] (mCpuData (buf st)) in
    let st := on_buf (set_mCpuData (Some (memcpy host gpu n)))
                     (emit (ev_memcpy_device_to_host n) st) in
    let st := if blocking then emit (ev_stream_synchronize d) st else st in
    (* the device region is released, the pointer is left as it is *)
    (Ok tt, emit (ev_raw_delete d) st)
  end.

Definition copyHostToDeviceAndFreeHost (toDevice : Device) (blocking : bool) : M unit :=
  fun st =>
  match mCpuData (buf st) with
  | None => (Throw (c10_Error "uninitialized cpu data, this should never happen"), st)
  | Some host =>
    let n := mSize (buf st) in
    let st :=
      match mGpuData (buf st) with
      | None => on_buf (set_mGpuData (Some (fresh n))) (emit (ev_raw_alloc toDevice n) st)
      | Some _ => st
      end in
    let gpu := default [] (mGpuData (buf st)) in
    let st := on_buf (set_mGpuData (Some (memcpy gpu host n)))
                     (emit (ev_memcpy_host_to_device n) st) in
    let st := if blocking then emit (ev_stream_synchronize toDevice) st else st in
    (Ok tt, on_buf (set_mCpuData None) (emit ev_free st))
  end.

(** [toCpu].  After [copyDeviceToHostAndFreeDevice] the device pointer is
    still set, so the region it released is released a second time here; the
    model records that second call like any other and goes on. *)
Definition toCpu (blocking : bool) : M unit := fun st =>
  if null_both (buf st) then (Ok tt, on_buf (set_mDevice cpu) st)
  else
    let '(r, st) :=
      if is_cuda (mDevice (buf st))
      then copyDeviceToHostAndFreeDevice blocking st
      else (Ok tt, st) in
    match r with
    | Throw e => (Throw e, st)
    | Ok _ =>
      let st :=
        match mGpuData (buf st) with
        | Some _ => on_buf (set_mGpuData None) (emit (ev_raw_delete (mDevice (buf st))) st)
        | None => st
        end in
      (Ok tt, on_buf (set_mDevice cpu) st)
    end.

Definition toCuda (toDevice : Device) (blocking : bool) : M unit := fun st =>
  if negb (is_cuda toDevice)
  then (Throw (c10_Error "Invalid device must be a CUDA device"), st)
  else if negb (has_index toDevice)
  then (Throw (c10_Error "Invalid device must specify device index"), st)
  else if null_both (buf st) then (Ok tt, on_buf (set_mDevice toDevice) st)
  else if bool_decide (toDevice = mDevice (buf st)) then (Ok tt, st)
  else if is_cuda (mDevice (buf st)) then
    (* CUDA -> CUDA across different devices, staged through the host *)
    let d := mDevice (buf st) in
    let n := mSize (buf st) in
    let gpu := default [] (mGpuData (buf st)) in
    let staged := memcpy (fresh n) gpu n in
    let st := emit (ev_memcpy_device_to_host n) st in
    let st := emit (ev_stream_synchronize d) st in
    let st := emit (ev_raw_delete d) st in
    let st := on_buf (set_mGpuData (Some (fresh n))) (emit (ev_raw_alloc toDevice n) st) in
    let st := on_buf (set_mGpuData (Some (memcpy (fresh n) staged n)))
                     (emit (ev_memcpy_host_to_device n) st) in
    (Ok tt, on_buf (set_mDevice toDevice) st)
  else if is_cpu (mDevice (buf st)) then
    let '(r, st) := copyHostToDeviceAndFreeHost toDevice blocking st in
    match r with
    | Throw e => (Throw e, st)
    | Ok _ => (Ok tt, on_buf (set_mDevice toDevice) st)
    end
  else (Throw (c10_Error "This should never happen. File a bug."), st).

Definition setDevice (toDevice : Device) (blocking : bool) : M unit := fun st =>
  (* Same device, no-op *)
  if bool_decide (toDevice = mDevice (buf st)) then (Ok tt, st)
  (* If this is an empty buffer, just set the device and return *)
  else if null_both (buf st) then
    if is_cuda toDevice && negb (has_index toDevice)
    then (Throw (c10_Error "Invalid CUDA device must specify device index"), st)
    else (Ok tt, on_buf (set_mDevice toDevice) st)
  else if is_cpu toDevice then toCpu blocking st
  else if is_cuda toDevice then toCuda toDevice blocking st
  else (Throw (c10_Error "Only CPU and CUDA devices are supported"), st).

(** Modelled from the spec: [TorchDeviceBuffer::isEmpty], declared in
    [TorchDeviceBuffer.h], which is not among the sources.  The spec calls a
    buffer empty when it is zero-sized. *)
Definition isEmpty (b : t) : bool := mSize b =? 0.

(** Modelled from the spec: [TorchDeviceBuffer::device], declared in
    [TorchDeviceBuffer.h]: the device the buffer is recorded to be on. *)
Definition device (b : t) : Device := mDevice b.

(** Zero-sized and pointer-less coincide on the buffers the class builds. *)
Definition sized (b : t) : Prop :=
  mSize b = 0 <-> (mCpuData b = None /\ mGpuData b = None).

(** [clear]: releases whichever region is held and resets the size; the
    device stays. *)
Definition clear : M unit := fun st =>
  let st :=
    match mGpuData (buf st) with
    | Some _ => emit (ev_raw_delete (mDevice (buf st))) st
    | None => st
    end in
  let st :=
    match mCpuData (buf st) with
    | Some _ => emit ev_free st
    | None => st
    end in
  (Ok tt, on_buf (fun b => mk 0 None None (mDevice b)) st).

(** [init(size, data, host)], [data] being [None] for a null pointer and the
    contents of the region handed over otherwise.  [mSize] is unsigned, so
    the old buffer is always cleared once the size differs. *)
Definition init (size : Z) (data : option bytes) (host : bool) : M unit := fun st =>
  if negb ((host && is_cpu (mDevice (buf st))) || (negb host && is_cuda (mDevice (buf st))))
  then (Throw (c10_Error "Invalid device for host argument to TorchDeviceBuffer::init"), st)
  else if size =? mSize (buf st) then (Ok tt, st)
  else
    let st := (clear st).2 in
    if size =? 0 then (Ok tt, st)
    else
      let st := on_buf (fun b => mk size (mCpuData b) (mGpuData b) (mDevice b)) st in
      if host then
        match data with
        | Some d => (Ok tt, on_buf (set_mCpuData (Some d)) st)
        | None => (Ok tt, on_buf (set_mCpuData (Some (fresh size))) (emit (ev_malloc size) st))
        end
      else
        match data with
        | Some d => (Ok tt, on_buf (set_mGpuData (Some d)) st)
        | None =>
          (Ok tt, on_buf (set_mGpuData (Some (fresh size)))
                    (emit (ev_raw_alloc (mDevice (buf st)) size) st))
        end.

(** The constructor [TorchDeviceBuffer(size, data, host, deviceIndex)], run
    after the calls recorded in [tr]; no object exists when it throws. *)
Definition new (size : Z) (data : option bytes) (host : bool) (deviceIndex : Z)
    (tr : list event) : result state :=
  let st := mkState (mk 0 None None (mkDevice (if host then kCPU else kCUDA) deviceIndex)) tr in
  if negb (host || (negb host && (0 <=? deviceIndex)))
  then Throw (c10_Error "You must set deviceIndex when setting host to false")
  else
    match init size data host st with
    | (Ok _, st) => Ok st
    | (Throw e, _) => Throw e
    end.

(** [create(size, proto, host)]: the prototype only passes the device index
    in. *)
Definition create (size : Z) (proto : option t) (host : bool) (tr : list event)
  : result state :=
  match proto with
  | Some p =>
    if negb ((host && is_cpu (device p)) || (negb host && is_cuda (device p)))
    then Throw (c10_Error
                  "Invalid guide buffer device for host argument to TorchDeviceBuffer::create")
    else new size None host (if host then -1 else dev_index (mDevice p)) tr
  | None => new size None host (-1) tr
  end.

(** Modelled from the spec: the getters [data], [deviceData] and [size] are
    declared in [TorchDeviceBuffer.h], which is not among the sources; they
    read the host pointer, the device pointer and the size. *)
Definition data (b : t) : option bytes := mCpuData b.
Definition deviceData (b : t) : option bytes := mGpuData b.
Definition size (b : t) : Z := mSize b.

(** The copies [GridHandle::copy] issues, in program order. *)
Inductive copy_event : Type :=
| cp_memcpy (n : Z)
| cp_memcpy_host_to_device (n : Z)
| cp_memcpy_device_to_host (n : Z)
| cp_memcpy_device_to_device (n : Z)
| cp_stream_synchronize (d : Device).

(** [GridHandle<TorchDeviceBuffer>::copy(guide)] on the buffer of the
    handle: the new buffer, with the allocator calls made for it after those
    of [tr], and the copies issued.  A copy through a null pointer is not
    modelled: the pointer stays null. *)
Definition copy (mBuffer guide : t) (tr : list event) : result (state * list copy_event) :=
  if isEmpty mBuffer then
    retbuf ← new 0 None true (-1) tr;
    match setDevice (device guide) false retbuf with
    | (Ok _, st) => Ok (st, [])
    | (Throw e, _) => Throw e
    end
  else
    let guideIsHost := is_cpu (device guide) in
    let iAmHost := is_cpu (device mBuffer) in
    let guideIsDevice := negb guideIsHost in
    let iAmDevice := negb iAmHost in
    buffer ← create (size mBuffer) (Some guide) guideIsHost tr;
    let n := size mBuffer in
    let from_host := default [] (data mBuffer) in
    let from_device := default [] (deviceData mBuffer) in
    let to_host src :=
      on_buf (fun b => set_mCpuData ((fun dst => memcpy dst src n) <$> data b) b) buffer in
    let to_device src :=
      on_buf (fun b => set_mGpuData ((fun dst => memcpy dst src n) <$> deviceData b) b) buffer in
    if iAmHost && guideIsHost then
      Ok (to_host from_host, [cp_memcpy n])
    else if iAmHost && guideIsDevice then
      Ok (to_device from_host,
          [cp_memcpy_host_to_device n; cp_stream_synchronize (device guide)])
    else if iAmDevice && guideIsHost then
      Ok (to_host from_device,
          [cp_memcpy_device_to_host n; cp_stream_synchronize (device mBuffer)])
    else if iAmDevice && guideIsDevice then
      if bool_decide (device mBuffer = device guide) then
        Ok (to_device from_device,
            [cp_memcpy_device_to_device n; cp_stream_synchronize (device mBuffer)])
      else
        Ok (to_device (memcpy (fresh n) from_device n),
            [cp_memcpy_device_to_host n; cp_stream_synchronize (device mBuffer);
             cp_memcpy_host_to_device n; cp_stream_synchronize (device (buf buffer))])
    else Throw (c10_Error "All host/device combos exhausted. This should never happen.").

(** The buffer holds [size] bytes where its device says: on the host for a
    CPU device, on the accelerator for a CUDA device, and nowhere else. *)
Definition resident (b : t) (contents : bytes) : Prop :=
  mSize b = Z.of_nat (length contents) /\
  ((is_cpu (mDevice b) = true /\ mCpuData b = Some contents /\ mGpuData b = None) \/
   (is_cuda (mDevice b) = true /\ mGpuData b = Some contents /\ mCpuData b = None)).

(** The events that release a device region. *)
Definition is_raw_delete (e : event) : bool :=
  match e with ev_raw_delete _ => true | _ => false end.

(** The events that obtain a region from an allocator. *)
Definition is_allocation (e : event) : bool :=
  match e with ev_malloc _ | ev_raw_alloc _ _ => true | _ => false end.

End TorchDeviceBuffer.

(** ** NanoVDB value types used by the engine *)

Module NanoVDB.

(** [nanovdb::Coord]: three [int32_t]. *)
Record Coord : Type := mkCoord { cx : Z; cy : Z; cz : Z }.

Definition Coord_add (a b : Coord) : Coord :=
  mkCoord (add_i32 (cx a) (cx b)) (add_i32 (cy a) (cy b)) (add_i32 (cz a) (cz b)).
Definition Coord_min : Coord := mkCoord int32_min int32_min int32_min.
Definition Coord_max : Coord := mkCoord int32_max int32_max int32_max.
Definition minComponent (a b : Coord) : Coord :=
  mkCoord (Z.min (cx a) (cx b)) (Z.min (cy a) (cy b)) (Z.min (cz a) (cz b)).
Definition maxComponent (a b : Coord) : Coord :=
  mkCoord (Z.max (cx a) (cx b)) (Z.max (cy a) (cy b)) (Z.max (cz a) (cz b)).

(** [nanovdb::CoordBBox]: [mCoord[0]] is the minimum corner, [mCoord[1]] the
    maximum corner; the default box is the empty one. *)
Record CoordBBox : Type := mkBBox { bbox_min : Coord; bbox_max : Coord }.

Definition CoordBBox_default : CoordBBox := mkBBox Coord_max Coord_min.
Definition expand (a b : CoordBBox) : CoordBBox :=
  mkBBox (minComponent (bbox_min a) (bbox_min b)) (maxComponent (bbox_max a) (bbox_max b)).

(** The scalar operations the formulas over [nanovdb::Vec3] use: the four
    operations, negation, the conversion of an [int32_t] and the literal
    [0.5]. *)
Class Arith (R : Type) : Type := mkArith {
  a_add : R -> R -> R;
  a_sub : R -> R -> R;
  a_mul : R -> R -> R;
  a_div : R -> R -> R;
  a_opp : R -> R;
  a_of_Z : Z -> R;
  a_half : R
}.

(** [double]: an IEEE 754 binary64 value (53 bits of precision, exponents
    below 1024), every operation rounded to the nearest value, ties to
    even.  The conversion of an [int32_t] is exact. *)
Definition double : Type := spec_float.

#[export] Instance binary64 : Arith double := {|
  a_add := SFadd 53 1024;
  a_sub := SFsub 53 1024;
  a_mul := SFmul 53 1024;
  a_div := SFdiv 53 1024;
  a_opp := SFopp;
  a_of_Z := fun z => binary_normalize 53 1024 z 0 false;
  a_half := S754_finite false 4503599627370496 (-53)
|}.

(** The same operations without rounding, over the rationals: the
    arithmetic that a statement about exact arithmetic refers to.  The code
    does not compute in it. *)
#[export] Instance exact : Arith Qc := {|
  a_add := Qcplus;
  a_sub := Qcminus;
  a_mul := Qcmult;
  a_div := Qcdiv;
  a_opp := Qcopp;
  a_of_Z := fun z => Q2Qc (inject_Z z);
  a_half := Q2Qc (1 # 2)
|}.

(** [nanovdb::Vec3<T>], componentwise arithmetic. *)
Record Vec3 (R : Type) : Type := mkVec3 { vx : R; vy : R; vz : R }.
Arguments mkVec3 {R} _ _ _.
Arguments vx {R} _.
Arguments vy {R} _.
Arguments vz {R} _.

Section Vec3Ops.
Context {R : Type} `{Arith R}.

Definition Vec3_of (s : R) : Vec3 R := mkVec3 s s s.
Definition vadd (a b : Vec3 R) : Vec3 R :=
  mkVec3 (a_add (vx a) (vx b)) (a_add (vy a) (vy b)) (a_add (vz a) (vz b)).
Definition vsub (a b : Vec3 R) : Vec3 R :=
  mkVec3 (a_sub (vx a) (vx b)) (a_sub (vy a) (vy b)) (a_sub (vz a) (vz b)).
Definition vmul (a b : Vec3 R) : Vec3 R :=
  mkVec3 (a_mul (vx a) (vx b)) (a_mul (vy a) (vy b)) (a_mul (vz a) (vz b)).
Definition vdiv (a b : Vec3 R) : Vec3 R :=
  mkVec3 (a_div (vx a) (vx b)) (a_div (vy a) (vy b)) (a_div (vz a) (vz b)).
Definition vneg (a : Vec3 R) : Vec3 R :=
  mkVec3 (a_opp (vx a)) (a_opp (vy a)) (a_opp (vz a)).

End Vec3Ops.

(** [nanovdb::Vec3d]. *)
Definition Vec3d : Type := Vec3 double.
Definition mkVec3d (x y z : double) : Vec3d := mkVec3 x y z.
Definition Vec3d_of (s : double) : Vec3d := Vec3_of s.

(** The doubles [0.0] and [1.0]. *)
Definition d_zero : double := a_of_Z 0.
Definition d_one : double := a_of_Z 1.
Definition half : double := a_half.

#[export] Instance Vec3d_inhabited : Inhabited Vec3d := populate (Vec3d_of d_zero).

(** What the engine reads of one grid of the storage: the node count of the
    leaf level, the active voxel count, the byte size, the bounding box of
    the tree. *)
Record NanoGrid : Type := mkNanoGrid {
  leafCount : Z;
  activeVoxelCount : Z;
  gridSize : Z;
  tree_bbox : CoordBBox
}.

(** A pointer to grid storage: the grid found [offset] bytes after it. *)
Definition GridPtr : Type := Z -> NanoGrid.

End NanoVDB.
Export NanoVDB.

(** ** The coordinate transform *)

Module VoxelCoordTransform.

(** Modelled from the spec: [VoxelCoordTransform] and
    [voxelTransformForSizeAndOrigin] are declared in [VoxelCoordTransform.h],
    which is not among the sources.  Per the spec the transform is a scale and
    a translation with its algebraic inverse, derived from a voxel size and a
    world origin, and the dual transform differs from the primal one by half
    a voxel.  [apply] maps world space to voxel space and [applyInv] maps
    back, so that [applyInv 0] is the world position of voxel [(0,0,0)], as
    [GridMetadata::voxelOrigin] uses it. *)
Record t : Type := mk { mScale : Vec3d; mTranslate : Vec3d }.

(** Modelled from the spec: the forward map of [VoxelCoordTransform.h],
    scale then translate. *)
Definition apply (tr : t) (xyz : Vec3d) : Vec3d :=
  vadd (vmul xyz (mScale tr)) (mTranslate tr).

(** Modelled from the spec: the algebraic inverse of [apply], from
    [VoxelCoordTransform.h]. *)
Definition applyInv (tr : t) (ijk : Vec3d) : Vec3d :=
  vdiv (vsub ijk (mTranslate tr)) (mScale tr).

(** Modelled from the spec: the default-constructed transform of
    [VoxelCoordTransform.h], the identity. *)
Definition default : t := mk (Vec3d_of d_one) (Vec3d_of d_zero).

(** Modelled from the spec: [voxelTransformForSizeAndOrigin] of
    [VoxelCoordTransform.h], the primal and dual transforms derived together
    from a voxel size and a world origin, the dual one shifted by half a
    voxel. *)
Definition voxelTransformForSizeAndOrigin (voxSize voxOrigin : Vec3d) : t * t :=
  let invW := vdiv (Vec3d_of d_one) voxSize in
  let tr := vneg (vdiv voxOrigin voxSize) in
  (mk invW tr, mk invW (vadd tr (Vec3d_of half))).

End VoxelCoordTransform.

(** ** The grid-batch engine ([GridBatchImpl.h]) *)

Module GridBatchImpl.

(** Metadata about a single grid in the batch. *)
Record GridMetadata : Type := mkGridMetadata {
  version : Z;
  mCumLeaves : Z;           (* int64_t *)
  mCumVoxels : Z;           (* int64_t *)
  mCumBytes : Z;            (* uint64_t *)
  mPrimalTransform : VoxelCoordTransform.t;
  mDualTransform : VoxelCoordTransform.t;
  mVoxelSize : Vec3d;
  mNumLeaves : Z;           (* uint32_t *)
  mNumVoxels : Z;           (* int64_t *)
  mNumBytes : Z;            (* uint64_t *)
  mBBox : CoordBBox
}.

Definition set_mCumLeaves (v : Z) (m : GridMetadata) : GridMetadata :=
  mkGridMetadata (version m) v (mCumVoxels m) (mCumBytes m) (mPrimalTransform m)
    (mDualTransform m) (mVoxelSize m) (mNumLeaves m) (mNumVoxels m) (mNumBytes m) (mBBox m).
Definition set_mCumVoxels (v : Z) (m : GridMetadata) : GridMetadata :=
  mkGridMetadata (version m) (mCumLeaves m) v (mCumBytes m) (mPrimalTransform m)
    (mDualTransform m) (mVoxelSize m) (mNumLeaves m) (mNumVoxels m) (mNumBytes m) (mBBox m).

Definition GridMetadata_voxelOrigin (m : GridMetadata) : Vec3d :=
  VoxelCoordTransform.applyInv (mPrimalTransform m) (Vec3d_of d_zero).

Definition setTransform (voxSize voxOrigin : Vec3d) (m : GridMetadata) : GridMetadata :=
  let '(primal, dual) :=
    VoxelCoordTransform.voxelTransformForSizeAndOrigin voxSize voxOrigin in
  mkGridMetadata (version m) (mCumLeaves m) (mCumVoxels m) (mCumBytes m) primal dual
    voxSize (mNumLeaves m) (mNumVoxels m) (mNumBytes m) (mBBox m).

#[export] Instance GridMetadata_inhabited : Inhabited GridMetadata :=
  populate (mkGridMetadata 1 0 0 0 VoxelCoordTransform.default VoxelCoordTransform.default
              (Vec3d_of d_zero) 0 0 0 CoordBBox_default).

(** Metadata about the whole batch. *)
Record GridBatchMetadata : Type := mkGridBatchMetadata {
  batch_version : Z;        (* uint32_t version *)
  mTotalLeaves : Z;         (* int64_t *)
  mTotalVoxels : Z;         (* int64_t *)
  mMaxVoxels : Z;           (* int64_t *)
  mMaxLeafCount : Z;        (* uint32_t *)
  mTotalBBox : CoordBBox;
  mIsMutable : bool;
  mIsContiguous : bool
}.


(** [nanovdb::GridHandle<TorchDeviceBuffer>], as the engine observes it: its
    buffer, the grids it describes, and the pointers [grid<GridType>()] and
    [deviceGrid<GridType>()] return. *)
Record GridHandle : Type := mkGridHandle {
  buffer : TorchDeviceBuffer.t;
  gridData : list NanoGrid;
  grid : option GridPtr;
  deviceGrid : option GridPtr
}.

(** The members of the class.  [mBatchOffsets] is left out: it is only
    written by [recomputeBatchOffsets], defined outside the header. *)
Record t : Type := mk {
  mHostGridMetadata : list GridMetadata;          (* CPU only *)
  mDeviceGridMetadata : option (list GridMetadata); (* CUDA only *)
  mBatchMetadata : GridBatchMetadata;
  mGridHdl : GridHandle;                          (* shared *)
  mLeafBatchIndices : list Z;
  mListIndices : list (list Z)
}.

Section Queries.
Variable self : t.

Definition totalLeaves : Z := mTotalLeaves (mBatchMetadata self).
Definition totalVoxels : Z := mTotalVoxels (mBatchMetadata self).
Definition maxVoxelsPerGrid : Z := mMaxVoxels (mBatchMetadata self).
Definition maxLeavesPerGrid : Z := mMaxLeafCount (mBatchMetadata self).
Definition batchSize : Z := Z.of_nat (length (mHostGridMetadata self)).
Definition totalBBox : CoordBBox := mTotalBBox (mBatchMetadata self).
Definition isMutable : bool := mIsMutable (mBatchMetadata self).
Definition isContiguous : bool := mIsContiguous (mBatchMetadata self).
Definition device : Device := TorchDeviceBuffer.device (buffer (mGridHdl self)).
Definition isEmpty : bool := TorchDeviceBuffer.isEmpty (buffer (mGridHdl self)).

(** [bi += batchSize()] is exact: it is only done for [bi < 0], and the
    batch size is not negative. *)
Definition negativeToPositiveIndexWithRangecheck (bi : Z) : result Z :=
  let bi := if bi <? 0 then bi + batchSize else bi in
  _ ← TORCH_CHECK_INDEX ((0 <=? bi) && (bi <? batchSize))
        "Batch index is out of range for grid batch";
  Ok bi.

(** [mHostGridMetadata[bi]], read after the range check. *)
Definition hostMeta (bi : Z) : GridMetadata := mHostGridMetadata self !!! Z.to_nat bi.

Definition checkNonEmptyGrid : result unit := TORCH_CHECK (negb isEmpty) "Empty grid".

Definition numLeaves (bi : Z) : result Z :=
  bi ← negativeToPositiveIndexWithRangecheck bi; Ok (mNumLeaves (hostMeta bi)).
Definition numVoxels (bi : Z) : result Z :=
  bi ← negativeToPositiveIndexWithRangecheck bi; Ok (mNumVoxels (hostMeta bi)).
Definition cumVoxels (bi : Z) : result Z :=
  bi ← negativeToPositiveIndexWithRangecheck bi; Ok (mCumVoxels (hostMeta bi)).
Definition numBytes (bi : Z) : result Z :=
  bi ← negativeToPositiveIndexWithRangecheck bi; Ok (mNumBytes (hostMeta bi)).
Definition cumBytes (bi : Z) : result Z :=
  bi ← negativeToPositiveIndexWithRangecheck bi; Ok (mCumBytes (hostMeta bi)).
Definition primalTransform (bi : Z) : result VoxelCoordTransform.t :=
  bi ← negativeToPositiveIndexWithRangecheck bi; Ok (mPrimalTransform (hostMeta bi)).
Definition dualTransform (bi : Z) : result VoxelCoordTransform.t :=
  bi ← negativeToPositiveIndexWithRangecheck bi; Ok (mDualTransform (hostMeta bi)).
Definition voxelSize (bi : Z) : result Vec3d :=
  bi ← negativeToPositiveIndexWithRangecheck bi; Ok (mVoxelSize (hostMeta bi)).
Definition voxelOrigin (bi : Z) : result Vec3d :=
  bi ← negativeToPositiveIndexWithRangecheck bi; Ok (GridMetadata_voxelOrigin (hostMeta bi)).

Definition bbox (bi : Z) : result CoordBBox :=
  _ ← checkNonEmptyGrid;
  bi ← negativeToPositiveIndexWithRangecheck bi;
  Ok (mBBox (hostMeta bi)).

Definition dualBbox (bi : Z) : result CoordBBox :=
  bi ← negativeToPositiveIndexWithRangecheck bi;
  b ← bbox bi;
  Ok (mkBBox (bbox_min b) (Coord_add (bbox_max b) (mkCoord 1 1 1))).

Definition totalBytes : Z := foldl (fun sum g => (sum + mNumBytes g) mod 2 ^ 64) 0
                                   (mHostGridMetadata self).

Definition factor_positive (f : Coord) : bool :=
  (0 <? cx f) && (0 <? cy f) && (0 <? cz f).



End Queries.

(** Modelled from the spec: the constructor [GridBatchImpl(device, isMutable)]
    is defined in [GridBatchImpl.cpp], which is not among the sources.  Per
    the spec it yields the empty batch: batch size 0, zero totals, an empty
    total bounding box, zero-sized storage on [device]; the remaining members
    keep their default initialisers, and the mutability flag is the one
    given. *)
Definition make_empty (d : Device) (isMutable : bool) : t :=
  mk [] None (mkGridBatchMetadata 1 0 0 0 0 CoordBBox_default isMutable true)
     (mkGridHandle (TorchDeviceBuffer.mk 0 None None d) [] None None) [] [].

(** Modelled from the spec: [syncMetadataToDeviceIfCUDA] is defined in
    [GridBatchImpl.cpp], which is not among the sources.  Per the header it
    writes the host metadata back to the device copy if the handle is a CUDA
    handle; per the spec the device copy exists only then. *)
Definition syncMetadataToDeviceIfCUDA (blocking : bool) (g : t) : t :=
  if is_cuda (device g)
  then mk (mHostGridMetadata g) (Some (mHostGridMetadata g)) (mBatchMetadata g)
          (mGridHdl g) (mLeafBatchIndices g) (mListIndices g)
  else g.

(** The locals of [indexInternal] that its loop updates, with
    [ret->mHostGridMetadata]. *)
Record index_locals : Type := mkIndexLocals {
  ret_meta : list GridMetadata;
  l_cumVoxels : Z;
  l_cumLeaves : Z;
  l_maxVoxels : Z;
  l_maxLeafCount : Z;
  l_count : Z;
  l_totalBbox : CoordBBox;
  l_leafBatchIdxs : list (list Z);
  l_isContiguous : bool
}.

Section Index.
Variable self : t.

Definition index_init : index_locals :=
  mkIndexLocals [] 0 0 0 0 0 CoordBBox_default [] (isContiguous self).

(** One iteration of the loop, [idx] being the indexable argument. *)
Definition index_body (idx : Z -> Z) (i : Z) (s : index_locals) : result index_locals :=
  bi ← negativeToPositiveIndexWithRangecheck self (idx i);
  let count := l_count s in
  let isContiguous := l_isContiguous s && (bi =? count) in
  let numLeaves := mNumLeaves (hostMeta self bi) in
  let numVoxels := mNumVoxels (hostMeta self bi) in
  let bbox := mBBox (hostMeta self bi) in
  let meta := ret_meta s ++ [hostMeta self bi] in
  let meta := alter (set_mCumLeaves (l_cumLeaves s)) (Z.to_nat count) meta in
  let meta := alter (set_mCumVoxels (l_cumVoxels s)) (Z.to_nat count) meta in
  let totalBbox := if count =? 0 then bbox else expand (l_totalBbox s) bbox in
  Ok (mkIndexLocals meta
        (add_i64 (l_cumVoxels s) numVoxels)
        (add_i64 (l_cumLeaves s) numLeaves)
        (Z.max (l_maxVoxels s) numVoxels)
        (Z.max (l_maxLeafCount s) numLeaves)
        (count + 1)
        totalBbox
        (l_leafBatchIdxs s ++ [replicate (Z.to_nat numLeaves) count])
        isContiguous).

(** [ret->mBatchMetadata], as assigned after the loop. *)
Definition index_batchMetadata (s : index_locals) : GridBatchMetadata :=
  mkGridBatchMetadata 1 (l_cumLeaves s) (l_cumVoxels s) (l_maxVoxels s) (l_maxLeafCount s)
    (l_totalBbox s) (isMutable self)
    (l_isContiguous s && (l_count s =? batchSize self)).

Definition indexInternal (idx : Z -> Z) (size : Z) : result t :=
  if size =? 0 then Ok (make_empty (device self) (isMutable self))
  else
    _ ← TORCH_CHECK (0 <=? size)
          "Indexing with negative size is not supported (this should never happen)";
    s ← for_loop (Z.to_nat size) 0 (index_body idx) index_init;
    let batchMetadata := index_batchMetadata s in
    let leafBatchIndices :=
      if bool_decide (l_leafBatchIdxs s = []) then [] else concat (l_leafBatchIdxs s) in
    let ret := mk (ret_meta s) None batchMetadata (mGridHdl self) leafBatchIndices [] in
    let ret := syncMetadataToDeviceIfCUDA false ret in
    (* ret->recomputeBatchOffsets() writes mBatchOffsets only *)
    if (0 <? Z.of_nat (length (mListIndices self)))
    then Throw (c10_Error "Nested lists of GridBatches are not supported yet")
    else Ok (mk (mHostGridMetadata ret) (mDeviceGridMetadata ret) (mBatchMetadata ret)
                (mGridHdl ret) (mLeafBatchIndices ret) (mListIndices self)).

End Index.

(** A [std::vector<int64_t>] as the indexable argument. *)
Definition vec (l : list Z) : Z -> Z := fun i => l !!! Z.to_nat i.

(** *** The accessor *)

Module Accessor.

Record t : Type := mk {
  mMetadata : option (list GridMetadata);
  mGridPtr : option GridPtr;
  mLeafBatchIndices : list Z;
  mTotalVoxels : Z;
  mTotalLeaves : Z;
  mMaxVoxels : Z;
  mMaxLeafCount : Z;
  mGridCount : Z
}.

Section Methods.
Variable self : t.

Definition batchSize : Z := mGridCount self.

(** As on the engine, but the range is guarded by an [assert]. *)
Definition negativeToPositiveIndexWithRangecheck (bi : Z) : result Z :=
  let bi := if bi <? 0 then bi + batchSize else bi in
  _ ← assert ((0 <=? bi) && (bi <? batchSize));
  Ok bi.

(** [mMetadata[bi]], read after the range check. *)
Definition meta (bi : Z) : GridMetadata := default [] (mMetadata self) !!! Z.to_nat bi.

Definition grid (bi : Z) : result NanoGrid :=
  bi ← negativeToPositiveIndexWithRangecheck bi;
  Ok (default (fun _ => mkNanoGrid 0 0 0 CoordBBox_default) (mGridPtr self)
        (mCumBytes (meta bi))).

Definition bbox (bi : Z) : result CoordBBox :=
  bi ← negativeToPositiveIndexWithRangecheck bi;
  g ← grid bi;
  Ok (tree_bbox g).

Definition dualBbox (bi : Z) : result CoordBBox :=
  bi ← negativeToPositiveIndexWithRangecheck bi;
  b ← bbox bi;
  Ok (mkBBox (bbox_min b) (Coord_add (bbox_max b) (mkCoord 1 1 1))).

Definition voxelOffset (bi : Z) : result Z :=
  bi ← negativeToPositiveIndexWithRangecheck bi; Ok (mCumVoxels (meta bi)).
Definition leafOffset (bi : Z) : result Z :=
  bi ← negativeToPositiveIndexWithRangecheck bi; Ok (mCumLeaves (meta bi)).
Definition maxVoxels : Z := mMaxVoxels self.
Definition maxLeafCount : Z := mMaxLeafCount self.
Definition totalVoxels : Z := mTotalVoxels self.
Definition totalLeaves : Z := mTotalLeaves self.
Definition primalTransform (bi : Z) : result VoxelCoordTransform.t :=
  bi ← negativeToPositiveIndexWithRangecheck bi; Ok (mPrimalTransform (meta bi)).
Definition dualTransform (bi : Z) : result VoxelCoordTransform.t :=
  bi ← negativeToPositiveIndexWithRangecheck bi; Ok (mDualTransform (meta bi)).

End Methods.
End Accessor.

Section Accessors.
Variable self : t.

Definition accessor_of (metadata : option (list GridMetadata)) (p : GridPtr) : Accessor.t :=
  Accessor.mk metadata (Some p) (mLeafBatchIndices self)
    (mTotalVoxels (mBatchMetadata self)) (mTotalLeaves (mBatchMetadata self))
    (mMaxVoxels (mBatchMetadata self)) (mMaxLeafCount (mBatchMetadata self))
    (Z.of_nat (length (mHostGridMetadata self))).

Definition hostAccessor : result Accessor.t :=
  _ ← TORCH_CHECK (negb (isEmpty self)) "Cannot access empty grid";
  match grid (mGridHdl self) with
  | None => Throw (c10_Error "Failed to get host grid pointer")
  | Some p => Ok (accessor_of (Some (mHostGridMetadata self)) p)
  end.


End Accessors.

(** *** Construction *)

(** The locals of the construction pass. *)
Record construct_locals : Type := mkConstructLocals {
  c_meta : list GridMetadata;
  c_cumLeaves : Z;
  c_cumVoxels : Z;
  c_cumBytes : Z;
  c_maxVoxels : Z;
  c_maxLeafCount : Z;
  c_totalBbox : CoordBBox;
  c_leafBatchIdxs : list Z
}.

Definition construct_init : construct_locals :=
  mkConstructLocals [] 0 0 0 0 0 CoordBBox_default [].

(** Modelled from the spec: the constructor from a storage handle and
    per-element voxel sizes and origins is defined in [GridBatchImpl.cpp],
    which is not among the sources.  Per the spec it walks the per-element
    grid descriptors of the handle in storage order, in one left-to-right
    pass, computing leaf and voxel counts, byte offsets and bounding boxes,
    accumulating the running totals and the per-element cumulative offsets,
    and replicates each element's batch index across its leaf count. *)
Definition construct_step (voxelSizes voxelOrigins : list Vec3d)
    (s : construct_locals) (g : NanoGrid) : construct_locals :=
  let bi := length (c_meta s) in
  let m :=
    setTransform (voxelSizes !!! bi) (voxelOrigins !!! bi)
      (mkGridMetadata 1 (c_cumLeaves s) (c_cumVoxels s) (c_cumBytes s)
         VoxelCoordTransform.default VoxelCoordTransform.default (Vec3d_of d_zero)
         (leafCount g) (activeVoxelCount g) (gridSize g) (tree_bbox g)) in
  mkConstructLocals (c_meta s ++ [m])
    (add_i64 (c_cumLeaves s) (leafCount g))
    (add_i64 (c_cumVoxels s) (activeVoxelCount g))
    ((c_cumBytes s + gridSize g) mod 2 ^ 64)
    (Z.max (c_maxVoxels s) (activeVoxelCount g))
    (Z.max (c_maxLeafCount s) (leafCount g))
    (match c_meta s with
     | [] => tree_bbox g
     | _ :: _ => expand (c_totalBbox s) (tree_bbox g)
     end)
    (c_leafBatchIdxs s ++ replicate (Z.to_nat (leafCount g)) (Z.of_nat bi)).

(** Modelled from the spec: the constructor
    [GridBatchImpl(gridHdl, voxelSizes, voxelOrigins)] of [GridBatchImpl.cpp],
    as the pass of [construct_step] over the grids of the handle; the
    mutability flag is the one the construction path supplies, and the batch
    is contiguous, its order being the storage order. *)
Definition construct (gridHdl : GridHandle) (voxelSizes voxelOrigins : list Vec3d)
    (isMutable : bool) : t :=
  let s := foldl (construct_step voxelSizes voxelOrigins) construct_init (gridData gridHdl) in
  syncMetadataToDeviceIfCUDA false
    (mk (c_meta s) None
        (mkGridBatchMetadata 1 (c_cumLeaves s) (c_cumVoxels s) (c_maxVoxels s)
           (c_maxLeafCount s) (c_totalBbox s) isMutable true)
        gridHdl (c_leafBatchIdxs s) []).

(** *** Vocabulary of the statements *)

(** The index a batch index resolves to, and whether it is in range. *)
Definition resolve (self : t) (bi : Z) : Z :=
  if bi <? 0 then bi + batchSize self else bi.
Definition in_range (self : t) (bi : Z) : Prop :=
  0 <= resolve self bi < batchSize self.

(** The exception of the range check. *)
Definition index_error {A : Type} : result A :=
  Throw (c10_IndexError "Batch index is out of range for grid batch").

(** The exception classes the spec counts as invalid-argument errors: those
    of [TORCH_CHECK] and [TORCH_CHECK_VALUE]; the index error of
    [TORCH_CHECK_INDEX] is a kind of its own. *)
Definition invalid_argument_class (e : exn) : Prop :=
  match e with
  | c10_Error _ | c10_ValueError _ => True
  | c10_IndexError _ | assert_failure => False
  end.

(** A box with the same minimum corner and each coordinate of the maximum
    corner one higher, as the code computes it and over the integers. *)
Definition dual_wrapping (b : CoordBBox) : CoordBBox :=
  mkBBox (bbox_min b) (Coord_add (bbox_max b) (mkCoord 1 1 1)).
Definition dual_of (b : CoordBBox) : CoordBBox :=
  mkBBox (bbox_min b)
         (mkCoord (cx (bbox_max b) + 1) (cy (bbox_max b) + 1) (cz (bbox_max b) + 1)).

(** Each coordinate is an [int32_t] below the largest one. *)
Definition incrementable (c : Coord) : Prop :=
  (int32_min <= cx c < int32_max) /\
  (int32_min <= cy c < int32_max) /\
  (int32_min <= cz c < int32_max).


(** The coarsening rule and the subdivision rule as formulas, in any
    arithmetic: what [coarseVoxSizeAndOrigin] and [fineVoxSizeAndOrigin]
    compute from a voxel size and a voxel origin. *)
Section Rules.
Context {R : Type} `{Arith R}.



End Rules.

(** The per-element voxel and leaf counts, in batch order. *)
Definition voxelCounts (self : t) : list Z := mNumVoxels <$> mHostGridMetadata self.
Definition leafCounts (self : t) : list Z := mNumLeaves <$> mHostGridMetadata self.

(** The cumulative fields are the running sums of the per-element fields
    over the preceding elements, and the totals are the sums over all of
    them, as accumulated in an [int64_t]. *)
Definition prefix_sums (self : t) : Prop :=
  (forall (i : nat) (m : GridMetadata),
      mHostGridMetadata self !! i = Some m ->
      mCumVoxels m = sum_i64 (take i (voxelCounts self)) /\
      mCumLeaves m = sum_i64 (take i (leafCounts self))) /\
  totalVoxels self = sum_i64 (voxelCounts self) /\
  totalLeaves self = sum_i64 (leafCounts self).

(** The cumulative fields as [indexInternal] sets them on the element it
    copies to position [i] of the metadata [l] built so far. *)
Definition with_offsets (l : list GridMetadata) (i : nat) (m : GridMetadata) : GridMetadata :=
  set_mCumVoxels (sum_i64 (take i (mNumVoxels <$> l)))
    (set_mCumLeaves (sum_i64 (take i (mNumLeaves <$> l))) m).

(** The invariant of the loop of [indexInternal] after [k] iterations: the
    counter, the metadata copied so far, the running sums and the contiguity
    flag. *)
Record index_inv (self : t) (idx : Z -> Z) (k : Z) (s : index_locals) : Prop := {
  inv_k : 0 <= k;
  inv_count : l_count s = k;
  inv_length : length (ret_meta s) = Z.to_nat k;
  inv_cumVoxels : l_cumVoxels s = sum_i64 (mNumVoxels <$> ret_meta s);
  inv_cumLeaves : l_cumLeaves s = sum_i64 (mNumLeaves <$> ret_meta s);
  inv_elements :
    forall (i : nat) (m : GridMetadata),
      ret_meta s !! i = Some m ->
      in_range self (idx (Z.of_nat i)) /\
      m = with_offsets (ret_meta s) i (hostMeta self (resolve self (idx (Z.of_nat i))));
  inv_contiguous :
    l_isContiguous s =
      isContiguous self && forallb (fun i => resolve self (idx i) =? i) (seqZ 0 k)
}.

(** The instances the engine produces: by the constructors and by indexing. *)
Inductive Produced : t -> Prop :=
| Produced_empty (d : Device) (isMutable : bool) :
    Produced (make_empty d isMutable)
| Produced_construct (h : GridHandle) (voxelSizes voxelOrigins : list Vec3d) (isMutable : bool) :
    Produced (construct h voxelSizes voxelOrigins isMutable)
| Produced_index (self : t) (idx : Z -> Z) (size : Z) (ret : t) :
    indexInternal self idx size = Ok ret -> Produced ret.

(** The elements of the batch that a list of batch indices selects, in the
    order of the list. *)
Definition selected (self : t) (L : list Z) : list GridMetadata :=
  (fun bi => hostMeta self (resolve self bi)) <$> L.

(** A list of elements with the cumulative voxel and leaf counts of each set
    to the sums over the elements before it. *)
Definition reindex (l : list GridMetadata) : list GridMetadata :=
  imap (with_offsets l) l.

(** Two elements that differ at most in their cumulative voxel and leaf
    counts. *)
Definition same_grid (a b : GridMetadata) : Prop :=
  set_mCumVoxels 0 (set_mCumLeaves 0 a) = set_mCumVoxels 0 (set_mCumLeaves 0 b).

(** The box [inner] lies within the box [outer], corner by corner. *)
Definition covers (outer inner : CoordBBox) : Prop :=
  cx (bbox_min outer) <= cx (bbox_min inner) /\
  cy (bbox_min outer) <= cy (bbox_min inner) /\
  cz (bbox_min outer) <= cz (bbox_min inner) /\
  cx (bbox_max inner) <= cx (bbox_max outer) /\
  cy (bbox_max inner) <= cy (bbox_max outer) /\
  cz (bbox_max inner) <= cz (bbox_max outer).

(** The number of leaves of the elements before position [i]. *)
Definition leaves_before (l : list GridMetadata) (i : nat) : nat :=
  sum_list ((fun m => Z.to_nat (mNumLeaves m)) <$> take i l).

(** The largest of a list of counts, as [std::max] accumulates it from 0. *)
Definition max_count (l : list Z) : Z := foldl Z.max 0 l.

(** The box [indexInternal] accumulates over a list of elements: the box of
    the first, expanded by the boxes of the others in order. *)
Definition union_box (l : list GridMetadata) : CoordBBox :=
  match l with
  | [] => CoordBBox_default
  | m :: l => foldl (fun b m' => expand b (mBBox m')) (mBBox m) l
  end.

(** The leaf batch indices of a list of elements: one run per element, of
    its position repeated once per leaf. *)
Definition leaf_runs (l : list GridMetadata) : list (list Z) :=
  imap (fun i m => replicate (Z.to_nat (mNumLeaves m)) (Z.of_nat i)) l.

(** [Accessor::leafBatchIndex]: the read of [mLeafBatchIndices[leaf_idx]].
    The code does not guard it; [None] stands for a read outside the array. *)
Definition leafBatchIndex (a : Accessor.t) (leaf_idx : Z) : option Z :=
  if leaf_idx <? 0 then None else Accessor.mLeafBatchIndices a !! Z.to_nat leaf_idx.

(** [gridVoxelSizesAndOrigins]: the voxel sizes and the voxel origins of the
    elements, in batch order. *)
Definition gridVoxelSizesAndOrigins (self : t) : list Vec3d * list Vec3d :=
  (mVoxelSize <$> mHostGridMetadata self,
   GridMetadata_voxelOrigin <$> mHostGridMetadata self).

End GridBatchImpl.

(** ** The public wrapper ([GridBatch.cpp]) *)

Module GridBatch.

Record t : Type := mk { mImpl : GridBatchImpl.t }.

Definition impl (self : t) : GridBatchImpl.t := mImpl self.

(** A one-dimensional [int64] tensor and the device it lives on. *)
Record Tensor : Type := mkTensor { t_data : list Z; t_device : Device }.

Definition Tensor_to (d : Device) (x : Tensor) : Tensor := mkTensor (t_data x) d.

Section Counting.

(** Members declared in [GridBatch.h], which is not among the sources, and
    the kernel dispatch behind [FVDB_DISPATCH_KERNEL_DEVICE]. *)
Variable is_mutable : t -> bool.
Variable grid_count : t -> Z.
Variable device : t -> Device.
Variable num_voxels_at : t -> Z -> result Z.
Variable cum_voxels_at : t -> Z -> result Z.
Variable dispatchCountEnabledVoxels : Device -> GridBatchImpl.t -> Z -> result Z.

Variable self : t.

(** [torch::empty({ grid_count() })] on the CPU, filled by
    [for (bi = 0; bi < grid_count(); bi += 1) acc[bi] = f(bi)]. *)
Definition fill (f : Z -> result Z) : result Tensor :=
  let n := Z.to_nat (grid_count self) in
  acc ← for_loop n 0 (fun bi acc => v ← f bi; Ok (<[Z.to_nat bi := v]> acc)) (replicate n 0);
  Ok (mkTensor acc cpu).

Definition num_voxels : result Tensor :=
  r ← fill (num_voxels_at self); Ok (Tensor_to (device self) r).

Definition num_enabled_voxels_at (bi : Z) : result Z :=
  if negb (is_mutable self) then num_voxels_at self bi
  else dispatchCountEnabledVoxels (device self) (impl self) bi.

Definition num_enabled_voxels : result Tensor :=
  if negb (is_mutable self) then num_voxels
  else r ← fill num_enabled_voxels_at; Ok (Tensor_to (device self) r).

Definition cum_voxels : result Tensor :=
  r ← fill (cum_voxels_at self); Ok (Tensor_to (device self) r).

Definition cum_enabled_voxels_at (bi : Z) : result Z :=
  for_loop (Z.to_nat bi) 0 (fun b nCum => v ← num_enabled_voxels_at b; Ok (add_i64 nCum v)) 0.

Definition cum_enabled_voxels : result Tensor :=
  if negb (is_mutable self) then cum_voxels
  else r ← fill cum_enabled_voxels_at; Ok (Tensor_to (device self) r).

(** [acc[bi] = impl()->numBytes(bi)]: the [uint64_t] the engine returns is
    stored in an [int64_t]. *)
Definition num_bytes : result Tensor :=
  r ← fill (fun bi => v ← GridBatchImpl.numBytes (impl self) bi; Ok (wrap_signed 64 v));
  Ok (Tensor_to (device self) r).

Definition num_leaf_nodes : result Tensor :=
  r ← fill (GridBatchImpl.numLeaves (impl self)); Ok (Tensor_to (device self) r).

End Counting.

(** [GridBatch(device, isMutable)]. *)
Definition new (d : Device) (isMutable : bool) : t :=
  mk (GridBatchImpl.make_empty d isMutable).

(** The loop [for (i = 0; i < 3; i += 1) TORCH_CHECK_VALUE(coord[i] > 0, ...)];
    the message is kept without the values it prints. *)
Definition check_strictly_positive (c : Coord) (msg : string) : result unit :=
  _ ← TORCH_CHECK_VALUE (0 <? cx c) msg;
  _ ← TORCH_CHECK_VALUE (0 <? cy c) msg;
  TORCH_CHECK_VALUE (0 <? cz c) msg.

(** An [int32] tensor of shape [{bs, 2, 3}], one box per row, and the device
    it lives on. *)
Record BoxTensor : Type := mkBoxTensor { b_data : list CoordBBox; b_device : Device }.

(** A row of [torch::zeros]. *)
Definition zero_box : CoordBBox := mkBBox (mkCoord 0 0 0) (mkCoord 0 0 0).

Section Derived.

(** Members declared in [GridBatch.h], which is not among the sources; the
    list dimension of a [JaggedTensor]; and the three builders of this file,
    whose bodies call the grid builders of [detail/build/Build.h]: each takes
    the fresh batch it is called on and the batch it builds from. *)
Variable is_mutable : t -> bool.
Variable grid_count : t -> Z.
Variable device : t -> Device.
Variable JaggedTensor : Type.
Variable ldim : JaggedTensor -> Z.
Variable buildCoarseFromFineGrid : t -> t -> Coord -> result t.
Variable buildFineFromCoarseGrid : t -> t -> option JaggedTensor -> Coord -> result t.
Variable buildDualFromPrimalGrid : t -> t -> bool -> result t.

Variable self : t.

Definition dual_grid (exclude_border : bool) : result t :=
  let ret := new (device self) (is_mutable self) in
  if grid_count self =? 0 then Ok ret
  else buildDualFromPrimalGrid ret self exclude_border.

Definition coarsened_grid (branch_factor : Coord) : result t :=
  _ ← check_strictly_positive branch_factor "branch_factor must be strictly positive";
  let ret := new (device self) (is_mutable self) in
  if grid_count self =? 0 then Ok ret
  else buildCoarseFromFineGrid ret self branch_factor.

Definition subdivided_grid (subdiv_factor : Coord) (mask : option JaggedTensor) : result t :=
  _ ← match mask with
      | Some m => TORCH_CHECK_VALUE (ldim m =? 1) "Expected mask to have 1 list dimension"
      | None => Ok tt
      end;
  _ ← check_strictly_positive subdiv_factor "subdiv_factor must be strictly positive";
  let ret := new (device self) (is_mutable self) in
  if grid_count self =? 0 then Ok ret
  else buildFineFromCoarseGrid ret self mask subdiv_factor.

(** [torch::zeros({ bs, 2, 3 })], filled by
    [for (i = 0; i < bs; ++i) ret[i] = f(i)]. *)
Definition fill_boxes (f : Z -> result CoordBBox) : result BoxTensor :=
  let bs := Z.to_nat (grid_count self) in
  ret ← for_loop bs 0 (fun i ret => b ← f i; Ok (<[Z.to_nat i := b]> ret))
          (replicate bs zero_box);
  Ok (mkBoxTensor ret (device self)).

Definition bbox : result BoxTensor := fill_boxes (GridBatchImpl.bbox (impl self)).
Definition dual_bbox : result BoxTensor := fill_boxes (GridBatchImpl.dualBbox (impl self)).

(** The [{2, 3}] tensors of one box. *)
Definition bbox_at (bi : Z) : result (CoordBBox * Device) :=
  b ← GridBatchImpl.bbox (impl self) bi; Ok (b, device self).
Definition dual_bbox_at (bi : Z) : result (CoordBBox * Device) :=
  b ← GridBatchImpl.dualBbox (impl self) bi; Ok (b, device self).
End Derived.

End GridBatch.

(** ** Sample data

    A batch of three grids on the host, the first two being those of the
    scenario of the spec, the same batch marked as a nested list, and
    buffers in the states [setDevice] distinguishes. *)

Module Sample.
Import GridBatchImpl.

Definition grid0 : NanoGrid := mkNanoGrid 2 10 64 (mkBBox (mkCoord 0 0 0) (mkCoord 2 2 2)).
Definition grid1 : NanoGrid := mkNanoGrid 1 5 32 (mkBBox (mkCoord 5 5 5) (mkCoord 6 6 6)).
Definition grid2 : NanoGrid := mkNanoGrid 3 7 96 (mkBBox (mkCoord (-4) 0 1) (mkCoord 3 9 1)).

Definition storage : GridPtr := fun offset =>
  if offset =? 0 then grid0 else if offset =? 64 then grid1 else grid2.

Definition host_buffer : TorchDeviceBuffer.t :=
  TorchDeviceBuffer.mk 192 (Some (replicate 192 Byte.x00)) None cpu.

Definition handle : GridHandle :=
  mkGridHandle host_buffer [grid0; grid1; grid2] (Some storage) None.

(** The double [0.1]. *)
Definition tenth : double := a_div (a_of_Z 1) (a_of_Z 10).

Definition batch : GridBatchImpl.t :=
  construct handle (replicate 3 (Vec3d_of tenth)) (replicate 3 (Vec3d_of d_zero)) false.

Definition nested : GridBatchImpl.t :=
  GridBatchImpl.mk (mHostGridMetadata batch) (mDeviceGridMetadata batch) (mBatchMetadata batch)
    (mGridHdl batch) (mLeafBatchIndices batch) [[0]].

Definition empty : GridBatchImpl.t := make_empty cpu false.


Definition cuda0 : Device := mkDevice kCUDA 0.
Definition cuda_no_index : Device := mkDevice kCUDA (-1).

Definition empty_buffer : TorchDeviceBuffer.state :=
  TorchDeviceBuffer.mkState (TorchDeviceBuffer.mk 0 None None cpu) [].
Definition full_buffer : TorchDeviceBuffer.state :=
  TorchDeviceBuffer.mkState host_buffer [].

(** The wrapper of the sample batch, with the members of [GridBatch.h]
    forwarding to the engine and a kernel that counts no enabled voxel. *)
Definition wrapper : GridBatch.t := GridBatch.mk batch.
Definition is_mutable (g : GridBatch.t) : bool := isMutable (GridBatch.impl g).
Definition grid_count (g : GridBatch.t) : Z := batchSize (GridBatch.impl g).
Definition device_of (g : GridBatch.t) : Device := device (GridBatch.impl g).
Definition num_voxels_at (g : GridBatch.t) (bi : Z) : result Z :=
  numVoxels (GridBatch.impl g) bi.
Definition cum_voxels_at (g : GridBatch.t) (bi : Z) : result Z :=
  cumVoxels (GridBatch.impl g) bi.
Definition count_none (d : Device) (g : GridBatchImpl.t) (bi : Z) : result Z := Ok 0.

(** The wrapper of the empty batch, and builders that hand back the batch
    they are called on. *)
Definition empty_wrapper : GridBatch.t := GridBatch.mk empty.
Definition ldim_one (mask : unit) : Z := 1.
Definition build_same (ret from : GridBatch.t) (factor : Coord) : result GridBatch.t := Ok ret.
Definition build_fine_same (ret from : GridBatch.t) (mask : option unit) (factor : Coord)
  : result GridBatch.t := Ok ret.
Definition build_dual_same (ret from : GridBatch.t) (exclude_border : bool)
  : result GridBatch.t := Ok ret.

End Sample.

(** * Properties *)

(** ** Fixed-width arithmetic *)

Lemma wrap_signed_64_exact (z : Z) :
  - 2 ^ 63 <= z <= int64_max -> wrap_signed 64 z = z.
Proof.
  unfold wrap_signed, int64_max. intros H.
  replace (64 - 1) with 63 by lia.
  rewrite Z.mod_small; lia.
Qed.

Lemma wrap_signed_32_exact (z : Z) :
  int32_min <= z <= int32_max -> wrap_signed 32 z = z.
Proof.
  unfold wrap_signed, int32_min, int32_max. intros H.
  replace (32 - 1) with 31 by lia.
  rewrite Z.mod_small; lia.
Qed.

Lemma sum_i64_from_snoc (acc : Z) (l : list Z) (x : Z) :
  sum_i64_from acc (l ++ [x]) = add_i64 (sum_i64_from acc l) x.
Proof. unfold sum_i64_from. by rewrite foldl_app. Qed.

Lemma sum_i64_snoc (l : list Z) (x : Z) :
  sum_i64 (l ++ [x]) = add_i64 (sum_i64 l) x.
Proof. apply sum_i64_from_snoc. Qed.

Lemma sumZ_nonneg (l : list Z) : Forall (fun x => 0 <= x) l -> 0 <= sumZ l.
Proof. induction 1; simpl; lia. Qed.

Lemma sumZ_app (l k : list Z) : sumZ (l ++ k) = sumZ l + sumZ k.
Proof. induction l; simpl; lia. Qed.

Lemma sum_i64_from_exact (l : list Z) :
  forall acc, 0 <= acc -> Forall (fun x => 0 <= x) l -> acc + sumZ l <= int64_max ->
  sum_i64_from acc l = acc + sumZ l.
Proof.
  induction l as [|x l IH]; intros acc Hacc Hl Hsum; simpl in *.
  - lia.
  - inversion Hl as [|? ? Hx Hl']; subst.
    pose proof (sumZ_nonneg l Hl') as Hnn.
    unfold sum_i64_from in *. simpl.
    unfold add_i64 at 2. rewrite wrap_signed_64_exact by (unfold int64_max in *; lia).
    rewrite IH; [lia | lia | done | lia].
Qed.

(** Where the counts fit, the accumulated sum is the sum over the integers. *)
Lemma sum_i64_exact (l : list Z) : fits_int64 l -> sum_i64 l = sumZ l.
Proof.
  intros [Hl Hs]. unfold sum_i64. rewrite sum_i64_from_exact; [lia | lia | done | lia].
Qed.

Lemma fits_int64_take (l : list Z) (i : nat) : fits_int64 l -> fits_int64 (take i l).
Proof.
  intros [Hl Hs]. split; [by apply Forall_take|].
  rewrite <- (take_drop i l) in Hs. rewrite sumZ_app in Hs.
  pose proof (sumZ_nonneg (drop i l) (Forall_drop _ _ _ Hl)). lia.
Qed.

(** ** Loops *)

(** A loop preserves an invariant its body preserves. *)
Lemma for_loop_inv {S : Type} (P : Z -> S -> Prop) (body : Z -> S -> result S) :
  forall (n : nat) (i : Z) (s s' : S),
    (forall j t t', i <= j < i + Z.of_nat n -> P j t -> body j t = Ok t' -> P (j + 1) t') ->
    P i s -> for_loop n i body s = Ok s' -> P (i + Z.of_nat n) s'.
Proof.
  induction n as [|n IH]; intros i s s' Hbody Hs Hrun; simpl in Hrun.
  - inversion Hrun; subst. by replace (i + Z.of_nat 0) with i by lia.
  - destruct (body i s) as [t|e] eqn:Hb; simpl in Hrun; [|discriminate].
    replace (i + Z.of_nat (Datatypes.S n)) with ((i + 1) + Z.of_nat n) by lia.
    eapply IH; [| |exact Hrun].
    + intros j u u' Hj. apply Hbody. lia.
    + eapply Hbody; [|exact Hs|exact Hb]. lia.
Qed.

(** A loop whose body runs under the invariant runs to its end. *)
Lemma for_loop_total {S : Type} (P : Z -> S -> Prop) (body : Z -> S -> result S) :
  forall (n : nat) (i : Z) (s : S),
    (forall j t, i <= j < i + Z.of_nat n -> P j t -> exists t', body j t = Ok t' /\ P (j + 1) t') ->
    P i s -> exists s', for_loop n i body s = Ok s' /\ P (i + Z.of_nat n) s'.
Proof.
  induction n as [|n IH]; intros i s Hbody Hs; simpl.
  - exists s. split; [done|]. by replace (i + Z.of_nat 0) with i by lia.
  - destruct (Hbody i s) as (t & Hb & Ht); [lia | done |].
    rewrite Hb. simpl.
    replace (i + Z.of_nat (Datatypes.S n)) with ((i + 1) + Z.of_nat n) by lia.
    apply IH; [|done].
    intros j u Hj. apply Hbody. lia.
Qed.


(** ** The device buffer *)

Section DeviceBuffer.
Import TorchDeviceBuffer.

Lemma null_both_true (b : TorchDeviceBuffer.t) :
  mCpuData b = None -> mGpuData b = None -> null_both b = true.
Proof. intros Hc Hg. unfold null_both. by rewrite !bool_decide_eq_true_2. Qed.

Lemma isEmpty_null (b : TorchDeviceBuffer.t) :
  sized b -> isEmpty b = true -> mCpuData b = None /\ mGpuData b = None.
Proof. unfold sized, isEmpty. intros Hs He. apply Hs. lia. Qed.

Lemma setDevice_empty (toDevice : Device) (blocking : bool) (st : state) :
  mCpuData (buf st) = None -> mGpuData (buf st) = None -> toDevice <> mDevice (buf st) ->
  setDevice toDevice blocking st =
    if is_cuda toDevice && negb (has_index toDevice)
    then (Throw (c10_Error "Invalid CUDA device must specify device index"), st)
    else (Ok tt, mkState (TorchDeviceBuffer.mk (mSize (buf st)) None None toDevice) (trace st)).
Proof.
  intros Hc Hg Hne. unfold setDevice.
  rewrite bool_decide_eq_false_2 by done.
  rewrite null_both_true by done.
  destruct (is_cuda toDevice && negb (has_index toDevice)); [done|].
  unfold on_buf, set_mDevice. by rewrite Hc, Hg.
Qed.

(** C8. [setDevice] to the device the buffer is on changes nothing: neither
    a member of the buffer nor the trace of runtime calls.  On an empty
    buffer (both data pointers null, which is how the code tests it, and which
    is the case of a zero-sized buffer) [setDevice] to another device records
    the target device and changes nothing else, no allocator or runtime call
    being made; a CUDA target without a device index is rejected instead,
    with the state untouched. *)
Theorem setDevice_noop_or_record_only (toDevice : Device) (blocking : bool) (st : state) :
  (toDevice = mDevice (buf st) -> setDevice toDevice blocking st = (Ok tt, st)) /\
  (mCpuData (buf st) = None -> mGpuData (buf st) = None -> toDevice <> mDevice (buf st) ->
     setDevice toDevice blocking st =
       if is_cuda toDevice && negb (has_index toDevice)
       then (Throw (c10_Error "Invalid CUDA device must specify device index"), st)
       else (Ok tt, mkState (TorchDeviceBuffer.mk (mSize (buf st)) None None toDevice) (trace st))) /\
  (sized (buf st) -> isEmpty (buf st) = true -> toDevice <> mDevice (buf st) ->
     setDevice toDevice blocking st =
       if is_cuda toDevice && negb (has_index toDevice)
       then (Throw (c10_Error "Invalid CUDA device must specify device index"), st)
       else (Ok tt, mkState (TorchDeviceBuffer.mk 0 None None toDevice) (trace st))).
Proof.
  split; [|split].
  - intros Hsame. unfold setDevice. by rewrite bool_decide_eq_true_2.
  - apply setDevice_empty.
  - intros Hs He Hne. destruct (isEmpty_null _ Hs He) as [Hc Hg].
    rewrite (setDevice_empty toDevice blocking st Hc Hg Hne).
    unfold isEmpty in He. apply Z.eqb_eq in He.
    destruct (is_cuda toDevice && negb (has_index toDevice)); [done|]. congruence.
Qed.

End DeviceBuffer.

Lemma setDevice_noop_or_record_only_witness :
  TorchDeviceBuffer.setDevice cpu true Sample.full_buffer = (Ok tt, Sample.full_buffer) /\
  TorchDeviceBuffer.setDevice Sample.cuda0 false Sample.empty_buffer =
    (Ok tt, TorchDeviceBuffer.mkState (TorchDeviceBuffer.mk 0 None None Sample.cuda0) []) /\
  TorchDeviceBuffer.setDevice Sample.cuda_no_index false Sample.empty_buffer =
    (Throw (c10_Error "Invalid CUDA device must specify device index"), Sample.empty_buffer).
Proof.
  split; [|split].
  - destruct (setDevice_noop_or_record_only cpu true Sample.full_buffer) as (Hsame & _ & _).
    apply Hsame. reflexivity.
  - destruct (setDevice_noop_or_record_only Sample.cuda0 false Sample.empty_buffer)
      as (_ & Hnull & _).
    apply Hnull; [reflexivity | reflexivity | discriminate].
  - destruct (setDevice_noop_or_record_only Sample.cuda_no_index false Sample.empty_buffer)
      as (_ & _ & Hzero).
    apply Hzero; [|reflexivity | discriminate].
    split; [intros _; split; reflexivity | intros _; reflexivity].
Defined.

(** A buffer that holds data is migrated, which the trace records. *)
Example setDevice_migrates :
  TorchDeviceBuffer.trace (TorchDeviceBuffer.setDevice Sample.cuda0 true Sample.full_buffer).2 =
    [TorchDeviceBuffer.ev_raw_alloc Sample.cuda0 192;
     TorchDeviceBuffer.ev_memcpy_host_to_device 192;
     TorchDeviceBuffer.ev_stream_synchronize Sample.cuda0;
     TorchDeviceBuffer.ev_free].
Proof. reflexivity. Qed.

(** ** Batch indices *)

Section BatchIndex.
Import GridBatchImpl.

Lemma rangecheck_in_range (g : GridBatchImpl.t) (bi : Z) :
  in_range g bi -> negativeToPositiveIndexWithRangecheck g bi = Ok (resolve g bi).
Proof.
  unfold in_range, resolve, negativeToPositiveIndexWithRangecheck. intros [Hlo Hhi].
  destruct (bi <? 0); (rewrite (proj2 (Z.leb_le _ _)), (proj2 (Z.ltb_lt _ _)) by lia); done.
Qed.

Lemma rangecheck_out_of_range (g : GridBatchImpl.t) (bi : Z) :
  ~ in_range g bi -> negativeToPositiveIndexWithRangecheck g bi = index_error.
Proof.
  unfold in_range, resolve, negativeToPositiveIndexWithRangecheck. intros Hout.
  destruct (bi <? 0).
  - destruct (0 <=? bi + batchSize g) eqn:Hlo; [|done].
    destruct (bi + batchSize g <? batchSize g) eqn:Hhi; [|done].
    apply Z.leb_le in Hlo. apply Z.ltb_lt in Hhi. lia.
  - destruct (0 <=? bi) eqn:Hlo; [|done].
    destruct (bi <? batchSize g) eqn:Hhi; [|done].
    apply Z.leb_le in Hlo. apply Z.ltb_lt in Hhi. lia.
Qed.

Lemma rangecheck_Ok (g : GridBatchImpl.t) (bi r : Z) :
  negativeToPositiveIndexWithRangecheck g bi = Ok r -> in_range g bi /\ r = resolve g bi.
Proof.
  intros H. destruct (decide (in_range g bi)) as [Hin|Hout].
  - rewrite rangecheck_in_range in H by done. by inversion H.
  - rewrite rangecheck_out_of_range in H by done. discriminate.
Qed.

Lemma in_range_resolve (g : GridBatchImpl.t) (bi : Z) :
  in_range g bi -> in_range g (resolve g bi) /\ resolve g (resolve g bi) = resolve g bi.
Proof.
  unfold in_range. intros H.
  assert (resolve g (resolve g bi) = resolve g bi) as ->; [|done].
  unfold resolve at 1. destruct (resolve g bi <? 0) eqn:Hneg; [|done].
  apply Z.ltb_lt in Hneg. lia.
Qed.

Lemma batchSize_nonneg (g : GridBatchImpl.t) : 0 <= batchSize g.
Proof. unfold batchSize. lia. Qed.

Lemma in_range_nonneg (g : GridBatchImpl.t) (i : Z) :
  0 <= i < batchSize g -> in_range g i /\ resolve g i = i.
Proof.
  intros H. unfold in_range, resolve.
  destruct (i <? 0) eqn:Hneg; [apply Z.ltb_lt in Hneg; lia|done].
Qed.

(** An in-range read of the host metadata finds the element. *)
Lemma hostMeta_lookup (g : GridBatchImpl.t) (i : nat) (m : GridMetadata) :
  mHostGridMetadata g !! i = Some m -> hostMeta g (Z.of_nat i) = m.
Proof.
  intros H. unfold hostMeta. rewrite Nat2Z.id. by apply list_lookup_total_correct.
Qed.

Lemma lookup_in_range (g : GridBatchImpl.t) (i : nat) (m : GridMetadata) :
  mHostGridMetadata g !! i = Some m ->
  in_range g (Z.of_nat i) /\ resolve g (Z.of_nat i) = Z.of_nat i.
Proof.
  intros H. apply in_range_nonneg. apply lookup_lt_Some in H. unfold batchSize. lia.
Qed.

(** What the per-element queries do with an index in range, and with one
    out of range. *)
Lemma queries_in_range (g : GridBatchImpl.t) (bi : Z) :
  in_range g bi ->
  let r := resolve g bi in
  negativeToPositiveIndexWithRangecheck g bi = Ok r /\
  numLeaves g bi = Ok (mNumLeaves (hostMeta g r)) /\
  numVoxels g bi = Ok (mNumVoxels (hostMeta g r)) /\
  cumVoxels g bi = Ok (mCumVoxels (hostMeta g r)) /\
  numBytes g bi = Ok (mNumBytes (hostMeta g r)) /\
  cumBytes g bi = Ok (mCumBytes (hostMeta g r)) /\
  primalTransform g bi = Ok (mPrimalTransform (hostMeta g r)) /\
  dualTransform g bi = Ok (mDualTransform (hostMeta g r)) /\
  voxelSize g bi = Ok (mVoxelSize (hostMeta g r)) /\
  voxelOrigin g bi = Ok (GridMetadata_voxelOrigin (hostMeta g r)) /\
  (isEmpty g = false -> bbox g bi = Ok (mBBox (hostMeta g r))).
Proof.
  intros Hin r. pose proof (rangecheck_in_range g bi Hin) as Hck.
  unfold numLeaves, numVoxels, cumVoxels, numBytes, cumBytes, primalTransform,
    dualTransform, voxelSize, voxelOrigin, bbox, checkNonEmptyGrid.
  rewrite Hck. repeat split; try done.
  by intros ->.
Qed.

Lemma queries_out_of_range (g : GridBatchImpl.t) (bi : Z) :
  ~ in_range g bi ->
  negativeToPositiveIndexWithRangecheck g bi = index_error /\
  numLeaves g bi = index_error /\
  numVoxels g bi = index_error /\
  cumVoxels g bi = index_error /\
  numBytes g bi = index_error /\
  cumBytes g bi = index_error /\
  primalTransform g bi = index_error /\
  dualTransform g bi = index_error /\
  voxelSize g bi = index_error /\
  voxelOrigin g bi = index_error /\
  dualBbox g bi = index_error /\
  bbox g bi = if isEmpty g then Throw (c10_Error "Empty grid") else index_error.
Proof.
  intros Hout. pose proof (rangecheck_out_of_range g bi Hout) as Hck.
  unfold numLeaves, numVoxels, cumVoxels, numBytes, cumBytes, primalTransform,
    dualTransform, voxelSize, voxelOrigin, dualBbox, bbox, checkNonEmptyGrid.
  rewrite Hck. repeat split; try done.
  destruct (isEmpty g); done.
Qed.

(** C5, as amended.  On a batch of size [n] every per-element query of the
    engine resolves a negative batch index [bi] to [n + bi].  When the
    resolved index lies in [[0, n)] the query reads the element there; when
    it does not, the query fails with an index error.  The bounding-box query
    is the exception: on empty storage it fails with the empty-grid check
    before it looks at the index, and raises the index error otherwise. *)
Theorem batch_index_resolves_or_index_error (g : GridBatchImpl.t) (bi : Z) :
  let n := batchSize g in
  let r := if bi <? 0 then n + bi else bi in
  (0 <= r < n ->
     negativeToPositiveIndexWithRangecheck g bi = Ok r /\
     numLeaves g bi = Ok (mNumLeaves (hostMeta g r)) /\
     numVoxels g bi = Ok (mNumVoxels (hostMeta g r)) /\
     cumVoxels g bi = Ok (mCumVoxels (hostMeta g r)) /\
     numBytes g bi = Ok (mNumBytes (hostMeta g r)) /\
     cumBytes g bi = Ok (mCumBytes (hostMeta g r)) /\
     primalTransform g bi = Ok (mPrimalTransform (hostMeta g r)) /\
     dualTransform g bi = Ok (mDualTransform (hostMeta g r)) /\
     voxelSize g bi = Ok (mVoxelSize (hostMeta g r)) /\
     voxelOrigin g bi = Ok (GridMetadata_voxelOrigin (hostMeta g r)) /\
     (isEmpty g = false -> bbox g bi = Ok (mBBox (hostMeta g r)))) /\
  (~ 0 <= r < n ->
     negativeToPositiveIndexWithRangecheck g bi = index_error /\
     numLeaves g bi = index_error /\
     numVoxels g bi = index_error /\
     cumVoxels g bi = index_error /\
     numBytes g bi = index_error /\
     cumBytes g bi = index_error /\
     primalTransform g bi = index_error /\
     dualTransform g bi = index_error /\
     voxelSize g bi = index_error /\
     voxelOrigin g bi = index_error /\
     dualBbox g bi = index_error /\
     bbox g bi = if isEmpty g then Throw (c10_Error "Empty grid") else index_error).
Proof.
  intros n r.
  assert (r = resolve g bi) as Hr.
  { unfold r, resolve, n. destruct (bi <? 0); lia. }
  rewrite Hr. split; intros Hrange.
  - by apply queries_in_range.
  - by apply queries_out_of_range.
Qed.

Lemma batch_index_resolves_or_index_error_witness :
  numVoxels Sample.batch (-1) = Ok 7 /\
  numVoxels Sample.batch 3 = index_error /\
  bbox Sample.batch (-4) = index_error.
Proof.
  split; [|split].
  - apply (batch_index_resolves_or_index_error Sample.batch (-1)). vm_compute.
    split; [discriminate | reflexivity].
  - apply (batch_index_resolves_or_index_error Sample.batch 3). vm_compute.
    intros [_ H]. discriminate H.
  - destruct (batch_index_resolves_or_index_error Sample.batch (-4)) as [_ H].
    destruct H as (_ & _ & _ & _ & _ & _ & _ & _ & _ & _ & _ & Hb); [|exact Hb].
    vm_compute. intros [Hc _]. apply Hc. reflexivity.
Defined.

(** The claim as stated fails for the bounding-box query: on the empty
    batch index 0 is out of range, and the query raises the error of the
    empty-grid check, which is not the index error. *)
Lemma bbox_on_empty_storage_is_not_index_error :
  ~ in_range Sample.empty 0 /\
  bbox Sample.empty 0 = Throw (c10_Error "Empty grid") /\
  bbox Sample.empty 0 <> index_error.
Proof.
  split; [|split].
  - vm_compute. intros [_ H]. discriminate H.
  - reflexivity.
  - discriminate.
Qed.

End BatchIndex.

(** ** The empty batch, and accessor construction *)

Section EmptyBatch.
Import GridBatchImpl.

Lemma empty_batch_out_of_range (g : GridBatchImpl.t) (bi : Z) :
  batchSize g = 0 -> ~ in_range g bi.
Proof.
  unfold in_range, resolve. intros Hn. rewrite Hn.
  destruct (bi <? 0) eqn:Hneg; [apply Z.ltb_lt in Hneg|]; lia.
Qed.

Lemma empty_batch_counts (g : GridBatchImpl.t) :
  batchSize g = 0 -> voxelCounts g = [] /\ leafCounts g = [].
Proof.
  unfold batchSize, voxelCounts, leafCounts. intros Hn.
  destruct (mHostGridMetadata g); [done | simpl in Hn; lia].
Qed.

Lemma prefix_sums_make_empty (d : Device) (isMutable : bool) :
  prefix_sums (make_empty d isMutable).
Proof.
  split; [|done]. intros i m H. destruct i; discriminate H.
Qed.




(** On the host a batch that holds grids hands out its accessor. *)
Example hostAccessor_sample : is_Ok (hostAccessor Sample.batch) = true.
Proof. reflexivity. Qed.

End EmptyBatch.

(** ** Dual bounding boxes *)

Section DualBbox.
Import GridBatchImpl.

Lemma add_i32_one (x : Z) : int32_min <= x < int32_max -> add_i32 x 1 = x + 1.
Proof. intros H. unfold add_i32. apply wrap_signed_32_exact. lia. Qed.

Lemma dual_wrapping_exact (b : CoordBBox) :
  incrementable (bbox_max b) -> dual_wrapping b = dual_of b.
Proof.
  intros (Hx & Hy & Hz). unfold dual_wrapping, dual_of, Coord_add. simpl.
  by rewrite !add_i32_one.
Qed.

Lemma dualBbox_bbox (g : GridBatchImpl.t) (bi : Z) :
  in_range g bi -> dualBbox g bi = dual_wrapping <$> bbox g bi.
Proof.
  intros Hin. unfold dualBbox, bbox.
  rewrite (rangecheck_in_range g bi Hin). simpl.
  destruct (in_range_resolve g bi Hin) as [Hin' Hres].
  rewrite (rangecheck_in_range g _ Hin'), Hres.
  unfold checkNonEmptyGrid. by destruct (isEmpty g).
Qed.

Lemma accessor_rangecheck_idem (a : Accessor.t) (bi r : Z) :
  Accessor.negativeToPositiveIndexWithRangecheck a bi = Ok r ->
  Accessor.negativeToPositiveIndexWithRangecheck a r = Ok r.
Proof.
  unfold Accessor.negativeToPositiveIndexWithRangecheck.
  set (r0 := if bi <? 0 then bi + Accessor.batchSize a else bi).
  destruct ((0 <=? r0) && (r0 <? Accessor.batchSize a)) eqn:Hck; simpl; [|discriminate].
  intros H. inversion H; subst r.
  apply andb_true_iff in Hck as [Hlo Hhi]. pose proof Hlo as Hlo'. apply Z.leb_le in Hlo'.
  rewrite (proj2 (Z.ltb_ge r0 0)) by lia. by rewrite Hlo, Hhi.
Qed.

(** C9.  For a batch index in range the dual bounding box query returns the
    box the bounding-box query returns with the same minimum corner and the
    maximum corner moved by [(1, 1, 1)], on the engine and on the accessor.
    Each coordinate of the maximum corner is one higher; the addition is the
    one of [int32_t], so this is read over the integers for a coordinate
    below the largest [int32_t].  The engine returns the box of the element's
    metadata when its storage is not empty, and otherwise fails in both
    queries alike. *)
Theorem dualBbox_is_bbox_plus_one :
  (forall (g : GridBatchImpl.t) (bi : Z),
      in_range g bi ->
      let b := mBBox (hostMeta g (resolve g bi)) in
      dualBbox g bi = dual_wrapping <$> bbox g bi /\
      (isEmpty g = false ->
         bbox g bi = Ok b /\
         dualBbox g bi = Ok (dual_wrapping b) /\
         bbox_min (dual_wrapping b) = bbox_min b /\
         (incrementable (bbox_max b) -> dualBbox g bi = Ok (dual_of b)))) /\
  (forall (a : Accessor.t) (bi r : Z),
      Accessor.negativeToPositiveIndexWithRangecheck a bi = Ok r ->
      exists b,
        Accessor.bbox a bi = Ok b /\
        Accessor.dualBbox a bi = Ok (dual_wrapping b) /\
        bbox_min (dual_wrapping b) = bbox_min b /\
        (incrementable (bbox_max b) -> Accessor.dualBbox a bi = Ok (dual_of b))).
Proof.
  split.
  - intros g bi Hin b. pose proof (dualBbox_bbox g bi Hin) as Hd.
    split; [done|]. intros Hne.
    destruct (queries_in_range g bi Hin) as (_ & _ & _ & _ & _ & _ & _ & _ & _ & _ & Hb).
    specialize (Hb Hne). fold b in Hb. rewrite Hb in Hd. simpl in Hd.
    repeat split; try done.
    intros Hinc. by rewrite <- dual_wrapping_exact.
  - intros a bi r Hr. pose proof (accessor_rangecheck_idem a bi r Hr) as Hr'.
    eexists. unfold Accessor.dualBbox, Accessor.bbox, Accessor.grid.
    rewrite Hr. simpl. rewrite Hr'. simpl. rewrite Hr'. simpl.
    repeat split; try done.
    intros Hinc. by rewrite <- dual_wrapping_exact.
Qed.

Lemma dualBbox_is_bbox_plus_one_witness :
  bbox Sample.batch 1 = Ok (mkBBox (mkCoord 5 5 5) (mkCoord 6 6 6)) /\
  dualBbox Sample.batch 1 = Ok (mkBBox (mkCoord 5 5 5) (mkCoord 7 7 7)) /\
  (exists b, Accessor.bbox (accessor_of Sample.batch (Some (mHostGridMetadata Sample.batch))
                              Sample.storage) (-1) = Ok b /\
             Accessor.dualBbox (accessor_of Sample.batch (Some (mHostGridMetadata Sample.batch))
                                  Sample.storage) (-1) = Ok (dual_of b)).
Proof.
  destruct dualBbox_is_bbox_plus_one as [He Ha].
  assert (in_range Sample.batch 1) as Hin.
  { vm_compute. split; [discriminate | reflexivity]. }
  destruct (He Sample.batch 1 Hin) as [_ Hb].
  destruct (Hb eq_refl) as (H1 & _ & _ & H2).
  split; [exact H1|]. split.
  - apply H2. vm_compute. repeat split; discriminate.
  - destruct (Ha (accessor_of Sample.batch (Some (mHostGridMetadata Sample.batch))
                    Sample.storage) (-1) 2 eq_refl) as (b & Hb1 & Hb2 & _ & Hb3).
    exists b. split; [exact Hb1|]. apply Hb3.
    vm_compute in Hb1. inversion Hb1; subst b.
    vm_compute. repeat split; discriminate.
Defined.

End DualBbox.

(** ** Enabled-voxel counts *)

Section EnabledCounts.
Import GridBatch.

(** C10.  On a batch whose mutability flag is false the enabled-voxel
    counts are the voxel counts: [num_enabled_voxels_at] is [num_voxels_at]
    at every index, [num_enabled_voxels] is [num_voxels], and likewise
    [cum_enabled_voxels] is [cum_voxels]; the kernel that counts enabled
    voxels is not consulted. *)
Theorem enabled_counts_of_immutable_batch
    (is_mutable : GridBatch.t -> bool) (grid_count : GridBatch.t -> Z)
    (device : GridBatch.t -> Device)
    (num_voxels_at cum_voxels_at : GridBatch.t -> Z -> result Z)
    (dispatchCountEnabledVoxels : Device -> GridBatchImpl.t -> Z -> result Z)
    (self : GridBatch.t) :
  is_mutable self = false ->
  (forall bi : Z,
      num_enabled_voxels_at is_mutable device num_voxels_at dispatchCountEnabledVoxels self bi
      = num_voxels_at self bi) /\
  num_enabled_voxels is_mutable grid_count device num_voxels_at dispatchCountEnabledVoxels self
    = num_voxels grid_count device num_voxels_at self /\
  cum_enabled_voxels is_mutable grid_count device num_voxels_at cum_voxels_at
      dispatchCountEnabledVoxels self
    = cum_voxels grid_count device cum_voxels_at self.
Proof.
  intros Himm. unfold num_enabled_voxels_at, num_enabled_voxels, cum_enabled_voxels.
  rewrite Himm. simpl. repeat split.
Qed.

Lemma enabled_counts_of_immutable_batch_witness :
  num_enabled_voxels_at Sample.is_mutable Sample.device_of Sample.num_voxels_at
    Sample.count_none Sample.wrapper (-1) = Ok 7 /\
  num_enabled_voxels Sample.is_mutable Sample.grid_count Sample.device_of
    Sample.num_voxels_at Sample.count_none Sample.wrapper
  = Ok (mkTensor [10; 5; 7] cpu).
Proof.
  destruct (enabled_counts_of_immutable_batch Sample.is_mutable Sample.grid_count
              Sample.device_of Sample.num_voxels_at Sample.cum_voxels_at Sample.count_none
              Sample.wrapper eq_refl) as (Hat & Hnum & _).
  split.
  - rewrite Hat. reflexivity.
  - rewrite Hnum. reflexivity.
Defined.

(** [cum_enabled_voxels_at] does not go through the range check: a
    negative index yields 0 and the batch size yields the total. *)
Example cum_enabled_voxels_at_unchecked :
  cum_enabled_voxels_at Sample.is_mutable Sample.device_of Sample.num_voxels_at
    Sample.count_none Sample.wrapper (-1) = Ok 0 /\
  cum_enabled_voxels_at Sample.is_mutable Sample.device_of Sample.num_voxels_at
    Sample.count_none Sample.wrapper 3 = Ok 22.
Proof. split; reflexivity. Qed.

End EnabledCounts.

(** ** Indexing *)

Section IndexLoop.
Import GridBatchImpl.
Variable self : GridBatchImpl.t.
Variable idx : Z -> Z.

Lemma alter_snoc {A : Type} (f : A -> A) (l : list A) (x : A) (n : nat) :
  n = length l -> alter f n (l ++ [x]) = l ++ [f x].
Proof.
  intros ->. replace (length l) with (length l + 0)%nat by lia.
  by rewrite alter_app_r.
Qed.

Lemma index_inv_init : index_inv self idx 0 (index_init self).
Proof.
  split; simpl; try done.
  by rewrite andb_true_r.
Qed.

(** What one iteration computes, for an index in range. *)
Lemma index_body_in_range (k : Z) (s : index_locals) :
  in_range self (idx k) -> l_count s = k -> length (ret_meta s) = Z.to_nat k ->
  let m := hostMeta self (resolve self (idx k)) in
  index_body self idx k s =
    Ok (mkIndexLocals
          (ret_meta s ++ [set_mCumVoxels (l_cumVoxels s) (set_mCumLeaves (l_cumLeaves s) m)])
          (add_i64 (l_cumVoxels s) (mNumVoxels m))
          (add_i64 (l_cumLeaves s) (mNumLeaves m))
          (Z.max (l_maxVoxels s) (mNumVoxels m))
          (Z.max (l_maxLeafCount s) (mNumLeaves m))
          (k + 1)
          (if k =? 0 then mBBox m else expand (l_totalBbox s) (mBBox m))
          (l_leafBatchIdxs s ++ [replicate (Z.to_nat (mNumLeaves m)) k])
          (l_isContiguous s && (resolve self (idx k) =? k))).
Proof.
  intros Hin Hc Hlen m. unfold index_body.
  rewrite (rangecheck_in_range self (idx k) Hin). simpl.
  rewrite Hc. fold m.
  rewrite (alter_snoc _ (ret_meta s) _ (Z.to_nat k) (eq_sym Hlen)).
  rewrite (alter_snoc _ (ret_meta s) _ (Z.to_nat k) (eq_sym Hlen)). done.
Qed.

Lemma index_body_Ok (k : Z) (s s' : index_locals) :
  index_body self idx k s = Ok s' -> in_range self (idx k).
Proof.
  unfold index_body. intros H.
  destruct (negativeToPositiveIndexWithRangecheck self (idx k)) as [bi|e] eqn:Hck;
    [|discriminate].
  by apply rangecheck_Ok in Hck as [Hin _].
Qed.

Lemma with_offsets_snoc_old (l : list GridMetadata) (y m : GridMetadata) (i : nat) :
  (i <= length l)%nat -> with_offsets (l ++ [y]) i m = with_offsets l i m.
Proof.
  intros Hi. unfold with_offsets. rewrite !fmap_app.
  by rewrite !take_app_le by (rewrite length_fmap; lia).
Qed.

Lemma with_offsets_snoc_new (l : list GridMetadata) (y m : GridMetadata) :
  with_offsets (l ++ [y]) (length l) m =
    set_mCumVoxels (sum_i64 (mNumVoxels <$> l)) (set_mCumLeaves (sum_i64 (mNumLeaves <$> l)) m).
Proof.
  unfold with_offsets. rewrite !fmap_app.
  by rewrite !take_app_length' by (by rewrite length_fmap).
Qed.

(** The body preserves the invariant. *)
Lemma index_inv_step (k : Z) (s s' : index_locals) :
  index_inv self idx k s -> index_body self idx k s = Ok s' ->
  index_inv self idx (k + 1) s'.
Proof.
  intros [Hk Hc Hlen Hv Hl Hel Hcont] Hbody.
  pose proof (index_body_Ok _ _ _ Hbody) as Hin.
  rewrite (index_body_in_range k s Hin Hc Hlen) in Hbody.
  inversion Hbody; subst s'; clear Hbody.
  assert (Z.to_nat k = length (ret_meta s)) as Hk' by done.
  split; simpl.
  - lia.
  - done.
  - rewrite length_app. simpl. lia.
  - rewrite fmap_app. simpl. rewrite sum_i64_snoc. by rewrite Hv.
  - rewrite fmap_app. simpl. rewrite sum_i64_snoc. by rewrite Hl.
  - intros i m Hi.
    destruct (decide (i < length (ret_meta s))%nat) as [Hlt|Hge].
    + rewrite lookup_app_l in Hi by done.
      destruct (Hel i m Hi) as [Hr Hm]. split; [done|].
      rewrite with_offsets_snoc_old by lia. done.
    + rewrite lookup_app_r in Hi by lia.
      destruct (i - length (ret_meta s))%nat as [|j] eqn:Hd; simpl in Hi; [|done].
      assert (i = length (ret_meta s)) as -> by lia.
      inversion Hi; subst m.
      rewrite <- Hk', Z2Nat.id by lia. split; [done|].
      rewrite Hk', with_offsets_snoc_new. by rewrite Hv, Hl.
  - replace (k + 1) with (k + 1)%Z by done.
    rewrite (seqZ_app 0 k 1) by lia. rewrite forallb_app. simpl.
    rewrite Hcont. rewrite andb_true_r. by rewrite andb_assoc.
Qed.

End IndexLoop.

Section IndexInternal.
Import GridBatchImpl.
Variable self : GridBatchImpl.t.
Variable idx : Z -> Z.
Variable size : Z.

Lemma sync_host (g : GridBatchImpl.t) :
  mHostGridMetadata (syncMetadataToDeviceIfCUDA false g) = mHostGridMetadata g /\
  mBatchMetadata (syncMetadataToDeviceIfCUDA false g) = mBatchMetadata g.
Proof. unfold syncMetadataToDeviceIfCUDA. by destruct (is_cuda (device g)). Qed.

(** With every index in range and no nested list, indexing by a positive
    number of indices returns, and the locals at the end of the loop satisfy
    the invariant. *)
Lemma indexInternal_returns :
  0 < size -> (forall i, 0 <= i < size -> in_range self (idx i)) ->
  mListIndices self = [] ->
  exists s ret,
    index_inv self idx size s /\
    indexInternal self idx size = Ok ret /\
    mHostGridMetadata ret = ret_meta s /\
    mBatchMetadata ret = index_batchMetadata self s.
Proof.
  intros Hpos Hvalid Hflat.
  destruct (for_loop_total (index_inv self idx) (index_body self idx)
              (Z.to_nat size) 0 (index_init self)) as (s & Hrun & Hinv).
  { intros j t Hj Ht.
    assert (in_range self (idx j)) as Hin by (apply Hvalid; lia).
    destruct Ht as [? Hc Hlen ? ? ? ?] eqn:E.
    eexists. split; [apply (index_body_in_range self idx j t Hin Hc Hlen)|].
    eapply index_inv_step; [exact Ht|].
    apply (index_body_in_range self idx j t Hin Hc Hlen). }
  { apply index_inv_init. }
  replace (0 + Z.of_nat (Z.to_nat size)) with size in Hinv by lia.
  exists s. eexists. split; [exact Hinv|].
  unfold indexInternal.
  rewrite (proj2 (Z.eqb_neq size 0)) by lia.
  rewrite (proj2 (Z.leb_le 0 size)) by lia. simpl.
  rewrite Hrun. simpl. rewrite Hflat. simpl.
  split; [reflexivity|]. simpl.
  split; apply sync_host.
Qed.

(** Whenever indexing by a non-zero number of indices returns, the loop has
    run to its end under the invariant. *)
Lemma indexInternal_Ok (ret : GridBatchImpl.t) :
  size <> 0 -> indexInternal self idx size = Ok ret ->
  exists s,
    index_inv self idx size s /\
    mHostGridMetadata ret = ret_meta s /\
    mBatchMetadata ret = index_batchMetadata self s.
Proof.
  intros Hnz. unfold indexInternal.
  rewrite (proj2 (Z.eqb_neq size 0)) by lia.
  destruct (0 <=? size) eqn:Hsz; simpl; [|discriminate].
  apply Z.leb_le in Hsz.
  destruct (for_loop (Z.to_nat size) 0 (index_body self idx) (index_init self))
    as [s|e] eqn:Hrun; simpl; [|discriminate].
  destruct (0 <? Z.of_nat (length (mListIndices self))); [discriminate|].
  intros H. inversion H; subst ret; clear H. simpl.
  exists s. split; [|split; apply sync_host].
  replace size with (0 + Z.of_nat (Z.to_nat size)) at 1 by lia.
  eapply for_loop_inv; [|apply index_inv_init|exact Hrun].
  intros j t t' _ Ht Hb. by eapply index_inv_step.
Qed.

(** Indexing a nested list of batches by indices in range is refused. *)
Lemma indexInternal_nested :
  0 < size -> (forall i, 0 <= i < size -> in_range self (idx i)) ->
  mListIndices self <> [] ->
  indexInternal self idx size =
    Throw (c10_Error "Nested lists of GridBatches are not supported yet").
Proof.
  intros Hpos Hvalid Hnested.
  destruct (for_loop_total (index_inv self idx) (index_body self idx)
              (Z.to_nat size) 0 (index_init self)) as (s & Hrun & Hinv).
  { intros j t Hj Ht.
    assert (in_range self (idx j)) as Hin by (apply Hvalid; lia).
    destruct Ht as [? Hc Hlen ? ? ? ?] eqn:E.
    eexists. split; [apply (index_body_in_range self idx j t Hin Hc Hlen)|].
    eapply index_inv_step; [exact Ht|].
    apply (index_body_in_range self idx j t Hin Hc Hlen). }
  { apply index_inv_init. }
  unfold indexInternal.
  rewrite (proj2 (Z.eqb_neq size 0)) by lia.
  rewrite (proj2 (Z.leb_le 0 size)) by lia. simpl.
  rewrite Hrun. simpl.
  destruct (mListIndices self); [done|]. reflexivity.
Qed.

End IndexInternal.

Section IndexClaims.
Import GridBatchImpl.

Lemma vec_lookup (L : list Z) (i : nat) (bi : Z) :
  L !! i = Some bi -> vec L (Z.of_nat i) = bi.
Proof. intros H. unfold vec. rewrite Nat2Z.id. by apply list_lookup_total_correct. Qed.

Lemma vec_in_range (self : GridBatchImpl.t) (L : list Z) :
  Forall (in_range self) L ->
  forall i, 0 <= i < Z.of_nat (length L) -> in_range self (vec L i).
Proof.
  intros Hall i Hi.
  destruct (lookup_lt_is_Some_2 L (Z.to_nat i)) as [bi Hbi]; [lia|].
  rewrite <- (Z2Nat.id i) by lia. rewrite (vec_lookup _ _ _ Hbi).
  by eapply Forall_lookup_1.
Qed.

(** The queries on an element of the host metadata. *)
Lemma queries_at (g : GridBatchImpl.t) (i : nat) (m : GridMetadata) :
  mHostGridMetadata g !! i = Some m ->
  numVoxels g (Z.of_nat i) = Ok (mNumVoxels m) /\
  numLeaves g (Z.of_nat i) = Ok (mNumLeaves m) /\
  numBytes g (Z.of_nat i) = Ok (mNumBytes m) /\
  cumVoxels g (Z.of_nat i) = Ok (mCumVoxels m).
Proof.
  intros Hm. destruct (lookup_in_range g i m Hm) as [Hin Hres].
  destruct (queries_in_range g _ Hin) as (_ & Hl & Hv & Hc & Hb & _).
  rewrite Hres, (hostMeta_lookup g i m Hm) in Hl, Hv, Hc, Hb. done.
Qed.

(** C1, as amended.  For every batch that is not a nested list of batches
    and every list of batch indices in range, indexing returns a new
    instance whose batch size is the length of the list and whose element at
    each position has the voxel count (and the leaf count and byte size) of
    the source element the index at that position selects. *)
Theorem index_copies_selected_elements (self : GridBatchImpl.t) (L : list Z) :
  mListIndices self = [] -> Forall (in_range self) L ->
  exists ret,
    indexInternal self (vec L) (Z.of_nat (length L)) = Ok ret /\
    batchSize ret = Z.of_nat (length L) /\
    forall (i : nat) (bi : Z),
      L !! i = Some bi ->
      exists voxels leaves bytes,
        numVoxels self bi = Ok voxels /\ numVoxels ret (Z.of_nat i) = Ok voxels /\
        numLeaves self bi = Ok leaves /\ numLeaves ret (Z.of_nat i) = Ok leaves /\
        numBytes self bi = Ok bytes /\ numBytes ret (Z.of_nat i) = Ok bytes.
Proof.
  intros Hflat Hvalid.
  destruct L as [|b0 L0] eqn:EL.
  { eexists. split; [reflexivity|]. split; [reflexivity|]. intros i bi H. destruct i; discriminate H. }
  rewrite <- EL in *. assert (0 < Z.of_nat (length L)) as Hpos by (subst L; simpl; lia).
  destruct (indexInternal_returns self (vec L) (Z.of_nat (length L)) Hpos
              (vec_in_range self L Hvalid) Hflat) as (s & ret & Hinv & Hret & Hmeta & _).
  exists ret. split; [exact Hret|].
  assert (length (ret_meta s) = length L) as Hlen.
  { rewrite (inv_length _ _ _ _ Hinv). lia. }
  split; [unfold batchSize; by rewrite Hmeta, Hlen|].
  intros i bi Hbi.
  destruct (lookup_lt_is_Some_2 (ret_meta s) i) as [m Hm].
  { rewrite Hlen. by eapply lookup_lt_Some. }
  destruct (inv_elements _ _ _ _ Hinv i m Hm) as [Hin Heq].
  rewrite (vec_lookup _ _ _ Hbi) in Hin, Heq.
  destruct (queries_in_range self bi Hin) as (_ & Hl & Hv & _ & Hb & _).
  rewrite <- Hmeta in Hm. destruct (queries_at ret i m Hm) as (Hv' & Hl' & Hb' & _).
  exists (mNumVoxels m), (mNumLeaves m), (mNumBytes m).
  rewrite Hv', Hl', Hb', Hv, Hl, Hb, Heq. done.
Qed.

Lemma index_copies_selected_elements_witness :
  exists ret,
    indexInternal Sample.batch (vec [2; 0]) 2 = Ok ret /\
    batchSize ret = 2 /\
    numVoxels ret 0 = Ok 7 /\ numVoxels ret 1 = Ok 10.
Proof.
  destruct (index_copies_selected_elements Sample.batch [2; 0] eq_refl) as (ret & Hret & Hn & Hel).
  { apply Forall_cons; [|apply Forall_cons; [|apply Forall_nil]];
      (vm_compute; split; [discriminate | reflexivity]). }
  exists ret. split; [exact Hret|]. split; [exact Hn|].
  destruct (Hel 0%nat 2 eq_refl) as (v0 & ? & ? & Ha & Hb & _).
  destruct (Hel 1%nat 0 eq_refl) as (v1 & ? & ? & Hc & Hd & _).
  vm_compute in Ha. vm_compute in Hc. inversion Ha; inversion Hc; subst.
  split; [exact Hb | exact Hd].
Defined.

(** The claim as stated fails on a nested list of batches: indexing it by a
    list of indices in range is refused, and no instance is produced. *)
Lemma index_of_nested_batch_is_refused :
  Forall (in_range Sample.nested) [0] /\
  indexInternal Sample.nested (vec [0]) 1 =
    Throw (c10_Error "Nested lists of GridBatches are not supported yet") /\
  ~ (exists ret, indexInternal Sample.nested (vec [0]) 1 = Ok ret /\ batchSize ret = 1).
Proof.
  assert (indexInternal Sample.nested (vec [0]) 1 =
            Throw (c10_Error "Nested lists of GridBatches are not supported yet")) as H
    by (vm_compute; reflexivity).
  split; [|split].
  - apply Forall_cons; [|apply Forall_nil].
    vm_compute; split; [discriminate | reflexivity].
  - exact H.
  - intros (ret & Hret & _). rewrite H in Hret. discriminate Hret.
Qed.

(** An index out of range stops the indexing with the index error. *)
Example index_out_of_range :
  indexInternal Sample.batch (vec [0; 3]) 2 = index_error /\
  indexInternal Sample.batch (vec [-4]) 1 = index_error.
Proof. split; reflexivity. Qed.

End IndexClaims.

Section Contiguity.
Import GridBatchImpl.
Variable self : GridBatchImpl.t.





(** The engine leaves the flag of every empty batch set. *)
Lemma produced_empty_is_contiguous (g : GridBatchImpl.t) :
  Produced g -> batchSize g = 0 -> isContiguous g = true.
Proof.
  intros [d mu | h vs vo mu | g0 idx size ret Hret] Hzero.
  - reflexivity.
  - unfold isContiguous, construct. by destruct (sync_host (mk (c_meta (foldl (construct_step vs vo)
      construct_init (gridData h))) None (mkGridBatchMetadata 1
      (c_cumLeaves (foldl (construct_step vs vo) construct_init (gridData h)))
      (c_cumVoxels (foldl (construct_step vs vo) construct_init (gridData h)))
      (c_maxVoxels (foldl (construct_step vs vo) construct_init (gridData h)))
      (c_maxLeafCount (foldl (construct_step vs vo) construct_init (gridData h)))
      (c_totalBbox (foldl (construct_step vs vo) construct_init (gridData h))) mu true)
      h (c_leafBatchIdxs (foldl (construct_step vs vo) construct_init (gridData h))) []))
      as [_ ->].
  - destruct (decide (size = 0)) as [->|Hnz].
    + unfold indexInternal in Hret. simpl in Hret. by inversion Hret.
    + destruct (indexInternal_Ok g0 idx size ret Hnz Hret) as (s & Hinv & Hmeta & _).
      unfold batchSize in Hzero. rewrite Hmeta, (inv_length _ _ _ _ Hinv) in Hzero.
      pose proof (inv_k _ _ _ _ Hinv). lia.
Qed.

End Contiguity.



(** ** Cumulative offsets and totals *)

Section PrefixSums.
Import GridBatchImpl.

(** The construction pass keeps the running sums. *)
Lemma construct_fold (voxelSizes voxelOrigins : list Vec3d) (gs : list NanoGrid) :
  let s := foldl (construct_step voxelSizes voxelOrigins) construct_init gs in
  c_cumVoxels s = sum_i64 (mNumVoxels <$> c_meta s) /\
  c_cumLeaves s = sum_i64 (mNumLeaves <$> c_meta s) /\
  forall (i : nat) (m : GridMetadata),
    c_meta s !! i = Some m ->
    mCumVoxels m = sum_i64 (take i (mNumVoxels <$> c_meta s)) /\
    mCumLeaves m = sum_i64 (take i (mNumLeaves <$> c_meta s)).
Proof.
  induction gs as [|g gs IH] using rev_ind; simpl.
  - split; [done|]. split; [done|]. intros i m H. destruct i; discriminate H.
  - rewrite foldl_app. simpl.
    set (s := foldl (construct_step voxelSizes voxelOrigins) construct_init gs) in *.
    destruct IH as (Hv & Hl & Hel).
    match goal with |- context [c_meta s ++ [?y]] => set (m0 := y) end.
    assert (mNumVoxels m0 = activeVoxelCount g /\ mNumLeaves m0 = leafCount g /\
            mCumVoxels m0 = c_cumVoxels s /\ mCumLeaves m0 = c_cumLeaves s)
      as (E1 & E2 & E3 & E4) by done.
    rewrite !fmap_app. simpl (_ <$> [_]). rewrite !sum_i64_snoc, ?E1, ?E2.
    split; [by rewrite Hv|]. split; [by rewrite Hl|].
    intros i m Hi.
    destruct (decide (i < length (c_meta s))%nat) as [Hlt|Hge].
    + rewrite lookup_app_l in Hi by done.
      rewrite !take_app_le by (rewrite length_fmap; lia). by apply Hel.
    + rewrite lookup_app_r in Hi by lia.
      destruct (i - length (c_meta s))%nat as [|j] eqn:Hd; simpl in Hi; [|done].
      assert (i = length (c_meta s)) as -> by lia.
      inversion Hi; subst m.
      rewrite !take_app_length' by (by rewrite length_fmap).
      by rewrite E3, E4.
Qed.

Lemma prefix_sums_construct (h : GridHandle) (voxelSizes voxelOrigins : list Vec3d)
    (isMutable : bool) :
  prefix_sums (construct h voxelSizes voxelOrigins isMutable).
Proof.
  destruct (construct_fold voxelSizes voxelOrigins (gridData h)) as (Hv & Hl & Hel).
  unfold prefix_sums, voxelCounts, leafCounts, totalVoxels, totalLeaves, construct.
  destruct (sync_host (mk (c_meta (foldl (construct_step voxelSizes voxelOrigins)
                                     construct_init (gridData h))) None
                          (mkGridBatchMetadata 1
                             (c_cumLeaves (foldl (construct_step voxelSizes voxelOrigins)
                                             construct_init (gridData h)))
                             (c_cumVoxels (foldl (construct_step voxelSizes voxelOrigins)
                                             construct_init (gridData h)))
                             (c_maxVoxels (foldl (construct_step voxelSizes voxelOrigins)
                                             construct_init (gridData h)))
                             (c_maxLeafCount (foldl (construct_step voxelSizes voxelOrigins)
                                                construct_init (gridData h)))
                             (c_totalBbox (foldl (construct_step voxelSizes voxelOrigins)
                                             construct_init (gridData h)))
                             isMutable true)
                          h (c_leafBatchIdxs (foldl (construct_step voxelSizes voxelOrigins)
                                                construct_init (gridData h))) []))
    as [-> ->].
  simpl. done.
Qed.

Lemma prefix_sums_index (self : GridBatchImpl.t) (idx : Z -> Z) (size : Z)
    (ret : GridBatchImpl.t) :
  indexInternal self idx size = Ok ret -> prefix_sums ret.
Proof.
  intros Hret. destruct (decide (size = 0)) as [->|Hnz].
  - unfold indexInternal in Hret. simpl in Hret. inversion Hret.
    apply prefix_sums_make_empty.
  - destruct (indexInternal_Ok self idx size ret Hnz Hret) as (s & Hinv & Hmeta & Hbatch).
    unfold prefix_sums, voxelCounts, leafCounts, totalVoxels, totalLeaves.
    rewrite Hmeta, Hbatch. simpl.
    split; [|split; [apply (inv_cumVoxels _ _ _ _ Hinv) | apply (inv_cumLeaves _ _ _ _ Hinv)]].
    intros i m Hm. destruct (inv_elements _ _ _ _ Hinv i m Hm) as [_ ->]. done.
Qed.

Lemma prefix_sums_produced (g : GridBatchImpl.t) : Produced g -> prefix_sums g.
Proof.
  intros [d mu | h vs vo mu | self idx size ret Hret].
  - apply prefix_sums_make_empty.
  - apply prefix_sums_construct.
  - by eapply prefix_sums_index.
Qed.

Lemma voxelCounts_lookup (g : GridBatchImpl.t) (i : nat) (m : GridMetadata) :
  mHostGridMetadata g !! i = Some m -> voxelCounts g !!! i = mNumVoxels m.
Proof.
  intros H. apply list_lookup_total_correct. unfold voxelCounts.
  by rewrite list_lookup_fmap, H.
Qed.

(** C2.  On every instance the engine produces, by a constructor or by
    indexing, the cumulative voxel count of an element is the sum of the
    voxel counts of the elements before it, the cumulative leaf count is the
    sum of their leaf counts, and the total voxel and leaf counts are the sums
    over all elements.  The sums are those accumulated in an [int64_t]; where
    the counts are non-negative and their sum fits an [int64_t], they are the
    sums over the integers. *)
Theorem produced_offsets_are_prefix_sums (g : GridBatchImpl.t) :
  Produced g ->
  prefix_sums g /\
  (forall i : Z, 0 <= i < batchSize g ->
      numVoxels g i = Ok (voxelCounts g !!! Z.to_nat i) /\
      cumVoxels g i = Ok (sum_i64 (take (Z.to_nat i) (voxelCounts g)))) /\
  (fits_int64 (voxelCounts g) ->
      (forall i : Z, 0 <= i < batchSize g ->
          cumVoxels g i = Ok (sumZ (take (Z.to_nat i) (voxelCounts g)))) /\
      totalVoxels g = sumZ (voxelCounts g)) /\
  (fits_int64 (leafCounts g) ->
      (forall (i : nat) (m : GridMetadata),
          mHostGridMetadata g !! i = Some m -> mCumLeaves m = sumZ (take i (leafCounts g))) /\
      totalLeaves g = sumZ (leafCounts g)).
Proof.
  intros Hp. pose proof (prefix_sums_produced g Hp) as Hps.
  destruct Hps as (Hel & Htv & Htl).
  assert (forall i : Z, 0 <= i < batchSize g ->
            numVoxels g i = Ok (voxelCounts g !!! Z.to_nat i) /\
            cumVoxels g i = Ok (sum_i64 (take (Z.to_nat i) (voxelCounts g)))) as Hq.
  { intros i Hi.
    destruct (lookup_lt_is_Some_2 (mHostGridMetadata g) (Z.to_nat i)) as [m Hm];
      [unfold batchSize in Hi; lia|].
    destruct (queries_at g _ m Hm) as (Hv & _ & _ & Hc).
    rewrite Z2Nat.id in Hv, Hc by lia.
    rewrite Hv, Hc, (voxelCounts_lookup g _ m Hm).
    by destruct (Hel _ m Hm) as [-> _]. }
  split; [done|]. split; [exact Hq|]. split.
  - intros Hfit. split.
    + intros i Hi. destruct (Hq i Hi) as [_ ->].
      by rewrite sum_i64_exact by (by apply fits_int64_take).
    + by rewrite Htv, sum_i64_exact.
  - intros Hfit. split.
    + intros i m Hm. destruct (Hel i m Hm) as [_ ->].
      by rewrite sum_i64_exact by (by apply fits_int64_take).
    + by rewrite Htl, sum_i64_exact.
Qed.

Lemma produced_offsets_are_prefix_sums_witness :
  cumVoxels Sample.batch 2 = Ok (10 + 5) /\
  totalVoxels Sample.batch = 10 + 5 + 7.
Proof.
  destruct (produced_offsets_are_prefix_sums Sample.batch) as (_ & _ & Hv & _).
  { apply Produced_construct. }
  destruct Hv as [Hc Ht].
  { split; [|vm_compute; discriminate].
    repeat (apply Forall_cons; [vm_compute; discriminate|]). apply Forall_nil. }
  split.
  - rewrite (Hc 2); [reflexivity|]. vm_compute. split; [discriminate | reflexivity].
  - rewrite Ht. reflexivity.
Defined.

(** The scenario of the spec: two grids of 10 and 5 voxels. *)
Example construct_two_grids :
  let g := construct (mkGridHandle Sample.host_buffer [Sample.grid0; Sample.grid1]
                        (Some Sample.storage) None)
             (replicate 2 (Vec3d_of Sample.tenth)) (replicate 2 (Vec3d_of d_zero)) false in
  totalVoxels g = 15 /\ cumVoxels g 1 = Ok 10 /\
  totalBBox g = mkBBox (mkCoord 0 0 0) (mkCoord 6 6 6).
Proof. repeat split; reflexivity. Qed.

(** The scenario of the spec: a batch of three indexed with [[2; 0]]. *)
Example index_two_of_three :
  exists ret,
    indexInternal Sample.batch (vec [2; 0]) 2 = Ok ret /\
    batchSize ret = 2 /\ isContiguous ret = false /\
    cumVoxels ret 1 = numVoxels Sample.batch 2.
Proof. eexists. split; [vm_compute; reflexivity|]. repeat split. Qed.

End PrefixSums.

(** ** The batch without elements *)

Section EmptyBatchQueries.
Import GridBatchImpl.

(** C6, as amended.  On a batch of size 0 every per-element query fails
    with an exception at every index argument, none returns: the queries
    that only check the range (the per-element voxel count among them) and
    the dual bounding box raise the index error, and the bounding-box query
    raises the error of the empty-grid check when the storage is empty and
    the index error otherwise.  The total voxel count and the total leaf
    count of every such batch the engine produces are 0. *)
Theorem empty_batch_queries_fail (g : GridBatchImpl.t) (bi : Z) :
  batchSize g = 0 ->
  (numLeaves g bi = index_error /\
   numVoxels g bi = index_error /\
   cumVoxels g bi = index_error /\
   numBytes g bi = index_error /\
   cumBytes g bi = index_error /\
   primalTransform g bi = index_error /\
   dualTransform g bi = index_error /\
   voxelSize g bi = index_error /\
   voxelOrigin g bi = index_error /\
   dualBbox g bi = index_error /\
   bbox g bi = if isEmpty g then Throw (c10_Error "Empty grid") else index_error) /\
  (Produced g -> totalVoxels g = 0 /\ totalLeaves g = 0).
Proof.
  intros Hn. split.
  - apply (queries_out_of_range g bi). by apply empty_batch_out_of_range.
  - intros Hg. destruct (prefix_sums_produced g Hg) as (_ & Hv & Hl).
    destruct (empty_batch_counts g Hn) as [Ev El].
    rewrite Hv, Hl, Ev, El. done.
Qed.

Lemma empty_batch_queries_fail_witness :
  numVoxels Sample.empty 5 = index_error /\
  bbox Sample.empty (-1) = Throw (c10_Error "Empty grid") /\
  totalVoxels Sample.empty = 0.
Proof.
  pose proof (empty_batch_queries_fail Sample.empty 5 eq_refl) as [H5 _].
  pose proof (empty_batch_queries_fail Sample.empty (-1) eq_refl) as [Hm Ht].
  split; [|split].
  - apply H5.
  - apply Hm.
  - apply Ht. apply Produced_empty.
Defined.

(** The claim as stated fails for the per-element voxel count: on the empty
    batch it raises the index error, which is not of the invalid-argument
    class. *)
Lemma numVoxels_on_empty_batch_is_index_error :
  batchSize Sample.empty = 0 /\
  numVoxels Sample.empty 0 = Throw (c10_IndexError "Batch index is out of range for grid batch") /\
  ~ (exists e, numVoxels Sample.empty 0 = Throw e /\ invalid_argument_class e).
Proof.
  split; [reflexivity|]. split; [reflexivity|].
  intros (e & He & Hclass). vm_compute in He. inversion He; subst. exact Hclass.
Qed.

End EmptyBatchQueries.

(** ** Coarsening and subdivision of the transform *)

Section CoarseFine.
Import GridBatchImpl.









End CoarseFine.

(** * Further properties of the code *)

(** ** Migration of the device buffer *)

Section Migration.
Import TorchDeviceBuffer.

Lemma is_cpu_not_cuda (d : Device) : is_cpu d = true -> is_cuda d = false.
Proof. unfold is_cpu, is_cuda. destruct d as [[] ?]; simpl; done. Qed.

Lemma is_cuda_not_cpu (d : Device) : is_cuda d = true -> is_cpu d = false.
Proof. unfold is_cpu, is_cuda. destruct d as [[] ?]; simpl; done. Qed.

Lemma memcpy_fresh (c : bytes) (n : Z) :
  n = Z.of_nat (length c) -> memcpy (fresh n) c n = c.
Proof.
  intros ->. unfold memcpy, fresh. rewrite Nat2Z.id.
  rewrite firstn_all. rewrite drop_ge by (by rewrite length_replicate).
  by rewrite app_nil_r.
Qed.

(** What [setDevice] does to a buffer that holds its bytes on the host,
    when sent to a CUDA device. *)
Lemma setDevice_upload (b : TorchDeviceBuffer.t) (c : bytes) (toDevice : Device)
    (blocking : bool) (tr : list event) :
  mSize b = Z.of_nat (length c) -> is_cpu (mDevice b) = true ->
  mCpuData b = Some c -> mGpuData b = None ->
  is_cuda toDevice = true -> has_index toDevice = true ->
  setDevice toDevice blocking (mkState b tr) =
    (Ok tt,
     mkState (TorchDeviceBuffer.mk (mSize b) None (Some c) toDevice)
       (((tr ++ [ev_raw_alloc toDevice (mSize b)])
            ++ [ev_memcpy_host_to_device (mSize b)])
            ++ (if blocking then [ev_stream_synchronize toDevice] else [])
            ++ [ev_free])).
Proof.
  intros Hn Hcpu Hc Hg Hcuda Hidx. destruct b as [n cpu' gpu' d]. simpl in *. subst cpu' gpu'.
  assert (toDevice <> d) as Hne.
  { intros ->. apply is_cpu_not_cuda in Hcpu. congruence. }
  unfold setDevice. simpl.
  rewrite bool_decide_eq_false_2 by done.
  rewrite (is_cuda_not_cpu _ Hcuda), Hcuda.
  unfold toCuda. rewrite Hcuda, Hidx. simpl.
  rewrite bool_decide_eq_false_2 by done.
  rewrite (is_cpu_not_cuda _ Hcpu), Hcpu.
  unfold copyHostToDeviceAndFreeHost. simpl.
  rewrite (memcpy_fresh c n Hn).
  destruct blocking; simpl; unfold on_buf, emit; simpl; by rewrite <- ?app_assoc.
Qed.

(** What [setDevice] does to a buffer that holds its bytes on a CUDA
    device, when sent to a CPU device. *)
Lemma setDevice_download (b : TorchDeviceBuffer.t) (c : bytes) (toDevice : Device)
    (blocking : bool) (tr : list event) :
  mSize b = Z.of_nat (length c) -> is_cuda (mDevice b) = true ->
  mGpuData b = Some c -> mCpuData b = None ->
  is_cpu toDevice = true ->
  setDevice toDevice blocking (mkState b tr) =
    (Ok tt,
     mkState (TorchDeviceBuffer.mk (mSize b) (Some c) None cpu)
       ((((tr ++ [ev_malloc (mSize b)])
            ++ [ev_memcpy_device_to_host (mSize b)])
            ++ (if blocking then [ev_stream_synchronize (mDevice b)] else [])
            ++ [ev_raw_delete (mDevice b)])
            ++ [ev_raw_delete (mDevice b)])).
Proof.
  intros Hn Hcuda Hg Hc Hcpu. destruct b as [n cpu' gpu' d]. simpl in *. subst cpu' gpu'.
  assert (toDevice <> d) as Hne.
  { intros ->. apply is_cpu_not_cuda in Hcpu. congruence. }
  unfold setDevice. simpl.
  rewrite bool_decide_eq_false_2 by done.
  rewrite Hcpu. unfold toCpu. simpl. rewrite Hcuda.
  unfold copyDeviceToHostAndFreeDevice. simpl.
  rewrite (memcpy_fresh c n Hn).
  destruct blocking; simpl; unfold on_buf, emit; simpl; by rewrite <- ?app_assoc.
Qed.

(** What [setDevice] does to a buffer that holds its bytes on a CUDA
    device, when sent to another CUDA device. *)
Lemma setDevice_across (b : TorchDeviceBuffer.t) (c : bytes) (toDevice : Device)
    (blocking : bool) (tr : list event) :
  mSize b = Z.of_nat (length c) -> is_cuda (mDevice b) = true ->
  mGpuData b = Some c -> mCpuData b = None ->
  is_cuda toDevice = true -> has_index toDevice = true -> toDevice <> mDevice b ->
  setDevice toDevice blocking (mkState b tr) =
    (Ok tt,
     mkState (TorchDeviceBuffer.mk (mSize b) None (Some c) toDevice)
       (tr ++ [ev_memcpy_device_to_host (mSize b); ev_stream_synchronize (mDevice b);
               ev_raw_delete (mDevice b); ev_raw_alloc toDevice (mSize b);
               ev_memcpy_host_to_device (mSize b)])).
Proof.
  intros Hn Hcuda Hg Hc Hcuda' Hidx Hne.
  destruct b as [n cpu' gpu' d]. simpl in *. subst cpu' gpu'.
  unfold setDevice. simpl.
  rewrite bool_decide_eq_false_2 by done.
  rewrite (is_cuda_not_cpu _ Hcuda'), Hcuda'.
  unfold toCuda. rewrite Hcuda', Hidx. simpl.
  rewrite bool_decide_eq_false_2 by done.
  rewrite Hcuda. simpl.
  rewrite !(memcpy_fresh c n Hn).
  unfold on_buf, emit; simpl. by rewrite <- !app_assoc.
Qed.

(** What [setDevice] does to a buffer that holds its bytes on the host,
    when sent to another CPU device. *)
Lemma setDevice_host_to_host (b : TorchDeviceBuffer.t) (c : bytes) (toDevice : Device)
    (blocking : bool) (tr : list event) :
  is_cpu (mDevice b) = true -> mCpuData b = Some c -> mGpuData b = None ->
  is_cpu toDevice = true -> toDevice <> mDevice b ->
  setDevice toDevice blocking (mkState b tr) =
    (Ok tt, mkState (TorchDeviceBuffer.mk (mSize b) (Some c) None cpu) tr).
Proof.
  intros Hcpu Hc Hg Hcpu' Hne. destruct b as [n cpu' gpu' d]. simpl in *. subst cpu' gpu'.
  unfold setDevice. simpl.
  rewrite bool_decide_eq_false_2 by done.
  rewrite Hcpu'. unfold toCpu. simpl. by rewrite (is_cpu_not_cuda _ Hcpu).
Qed.

End Migration.

Section MigrationProperties.
Import TorchDeviceBuffer.

(** X1.  [setDevice] keeps the bytes on every move other than the one from
    a CUDA device to the host: a buffer that holds its bytes where its device
    says, sent to a CUDA device with an index, or from the host to a CPU
    device, returns normally when the calls it makes return, and holds the
    same bytes, of the same size, where its new device says.  A CUDA target
    becomes the device of the buffer.  The move from a CUDA device to the
    host is left out: there the device region is released twice, and whether
    the second release returns is the allocator's matter. *)
Theorem setDevice_preserves_bytes_unless_download (b : TorchDeviceBuffer.t) (c : bytes)
    (toDevice : Device) (blocking : bool) (tr : list event) :
  resident b c ->
  (is_cuda toDevice = true /\ has_index toDevice = true) \/
    (is_cpu toDevice = true /\ is_cpu (mDevice b) = true) ->
  exists st',
    setDevice toDevice blocking (mkState b tr) = (Ok tt, st') /\
    resident (buf st') c /\
    (is_cuda toDevice = true -> mDevice (buf st') = toDevice) /\
    (is_cpu toDevice = true -> is_cpu (mDevice (buf st')) = true).
Proof.
  intros [Hn Hres] Htarget.
  destruct (decide (toDevice = mDevice b)) as [Hsame|Hne].
  { exists (mkState b tr). unfold setDevice. simpl. rewrite bool_decide_eq_true_2 by done.
    split; [done|]. split; [by split|]. subst toDevice. split; [done|]. by simpl. }
  destruct Hres as [(Hcpu & Hc & Hg)|(Hcuda & Hg & Hc)];
    destruct Htarget as [[Tcuda Tidx]|[Tcpu Bcpu]].
  - eexists. split; [by apply (setDevice_upload b c)|]. simpl. split; [|split].
    + split; [done|]. right. by repeat split.
    + done.
    + intros Tcpu. apply is_cuda_not_cpu in Tcuda. congruence.
  - eexists. split; [by apply (setDevice_host_to_host b c)|]. simpl. split; [|split].
    + split; [done|]. left. by repeat split.
    + intros Tcuda. apply is_cpu_not_cuda in Tcpu. congruence.
    + done.
  - eexists. split; [by apply (setDevice_across b c)|]. simpl. split; [|split].
    + split; [done|]. right. by repeat split.
    + done.
    + intros Tcpu. apply is_cuda_not_cpu in Tcuda. congruence.
  - apply is_cuda_not_cpu in Hcuda. congruence.
Qed.

Lemma setDevice_preserves_bytes_unless_download_witness :
  exists st',
    setDevice Sample.cuda0 true Sample.full_buffer = (Ok tt, st') /\
    resident (buf st') (replicate 192 Byte.x00).
Proof.
  destruct (setDevice_preserves_bytes_unless_download Sample.host_buffer
              (replicate 192 Byte.x00) Sample.cuda0 true []) as (st' & Hrun & Hres & _).
  - split; [reflexivity|]. left. repeat split; reflexivity.
  - left. split; reflexivity.
  - exists st'. split; [exact Hrun | exact Hres].
Defined.



End MigrationProperties.

Section MigrationTraces.
Import TorchDeviceBuffer.

(** X4.  Moving a buffer from a CUDA device to the host releases the device
    region twice: [copyDeviceToHostAndFreeDevice] releases it and leaves the
    pointer set, and [toCpu], finding the pointer set, releases it again
    before it clears it.  One host region is allocated for the bytes. *)
Theorem setDevice_to_host_releases_twice (b : TorchDeviceBuffer.t) (c : bytes)
    (toDevice : Device) (blocking : bool) (tr : list event) :
  mSize b = Z.of_nat (length c) -> is_cuda (mDevice b) = true ->
  mGpuData b = Some c -> mCpuData b = None ->
  is_cpu toDevice = true ->
  exists evs,
    trace (setDevice toDevice blocking (mkState b tr)).2 = tr ++ evs /\
    List.filter is_raw_delete evs = [ev_raw_delete (mDevice b); ev_raw_delete (mDevice b)] /\
    List.filter is_allocation evs = [ev_malloc (mSize b)] /\
    mGpuData (buf (setDevice toDevice blocking (mkState b tr)).2) = None.
Proof.
  intros Hn Hcuda Hg Hc Hcpu.
  rewrite (setDevice_download b c toDevice blocking tr Hn Hcuda Hg Hc Hcpu). simpl.
  eexists. split; [by rewrite <- !app_assoc|].
  by destruct blocking.
Qed.

Lemma setDevice_to_host_releases_twice_witness :
  exists evs,
    trace (setDevice cpu true
             (mkState (TorchDeviceBuffer.mk 2 None (Some [Byte.x01; Byte.x02]) Sample.cuda0)
                [])).2
      = [] ++ evs /\
    List.filter is_raw_delete evs = [ev_raw_delete Sample.cuda0; ev_raw_delete Sample.cuda0].
Proof.
  destruct (setDevice_to_host_releases_twice
              (TorchDeviceBuffer.mk 2 None (Some [Byte.x01; Byte.x02]) Sample.cuda0)
              [Byte.x01; Byte.x02] cpu true []) as (evs & Htr & Hdel & _);
    try reflexivity.
  exists evs. split; [exact Htr | exact Hdel].
Defined.

(** X5.  A move between two different CUDA devices is staged through the
    host and does not look at [blocking]: it synchronises the source stream
    after the download, and the last call it makes is the upload to the
    target, which it does not wait for. *)
Theorem setDevice_across_devices_ignores_blocking (b : TorchDeviceBuffer.t) (c : bytes)
    (toDevice : Device) (tr : list event) :
  mSize b = Z.of_nat (length c) -> is_cuda (mDevice b) = true ->
  mGpuData b = Some c -> mCpuData b = None ->
  is_cuda toDevice = true -> has_index toDevice = true -> toDevice <> mDevice b ->
  setDevice toDevice true (mkState b tr) = setDevice toDevice false (mkState b tr) /\
  trace (setDevice toDevice true (mkState b tr)).2 =
    tr ++ [ev_memcpy_device_to_host (mSize b); ev_stream_synchronize (mDevice b);
           ev_raw_delete (mDevice b); ev_raw_alloc toDevice (mSize b);
           ev_memcpy_host_to_device (mSize b)] /\
  mCpuData (buf (setDevice toDevice true (mkState b tr)).2) = None.
Proof.
  intros Hn Hcuda Hg Hc Tcuda Tidx Hne.
  by rewrite !(setDevice_across b c toDevice _ tr Hn Hcuda Hg Hc Tcuda Tidx Hne).
Qed.

Lemma setDevice_across_devices_ignores_blocking_witness :
  setDevice (mkDevice kCUDA 1) true
    (mkState (TorchDeviceBuffer.mk 2 None (Some [Byte.x01; Byte.x02]) Sample.cuda0) []) =
  setDevice (mkDevice kCUDA 1) false
    (mkState (TorchDeviceBuffer.mk 2 None (Some [Byte.x01; Byte.x02]) Sample.cuda0) []).
Proof.
  apply (setDevice_across_devices_ignores_blocking
           (TorchDeviceBuffer.mk 2 None (Some [Byte.x01; Byte.x02]) Sample.cuda0)
           [Byte.x01; Byte.x02] (mkDevice kCUDA 1) []); try reflexivity.
  discriminate.
Defined.

(** X6.  [clear] leaves a zero-sized buffer without data on the device it
    was on, and clearing again changes nothing, not even the trace: every
    region is released once. *)
Theorem clear_is_idempotent (st : state) :
  (clear st).1 = Ok tt /\
  buf (clear st).2 = TorchDeviceBuffer.mk 0 None None (mDevice (buf st)) /\
  sized (buf (clear st).2) /\
  clear (clear st).2 = (Ok tt, (clear st).2).
Proof.
  destruct st as [[n cpu' gpu' d] tr]. unfold clear, sized. simpl.
  destruct cpu', gpu'; simpl; done.
Qed.

(** X7.  [init] with the size the buffer has returns at once: nothing is
    released or allocated and a data pointer passed in is not taken, so the
    constructor with size 0 builds an empty buffer whatever [data] is.  With
    another, non-zero size it first releases what the buffer holds and then
    takes [data] if given, on the side [host] names. *)
Theorem init_takes_data_only_on_resize (size : Z) (data : option bytes) (host : bool)
    (st : state) :
  (host && is_cpu (mDevice (buf st))) || (negb host && is_cuda (mDevice (buf st))) = true ->
  (size = mSize (buf st) -> init size data host st = (Ok tt, st)) /\
  (size <> mSize (buf st) -> size <> 0 ->
     forall d, data = Some d ->
       init size data host st =
         (Ok tt,
          mkState (TorchDeviceBuffer.mk size (if host then Some d else None)
                     (if host then None else Some d) (mDevice (buf st)))
                  (trace (clear st).2))) /\
  (forall (deviceIndex : Z) (tr : list event),
     host = true \/ 0 <= deviceIndex ->
     new 0 data host deviceIndex tr =
       Ok (mkState (TorchDeviceBuffer.mk 0 None None
                      (mkDevice (if host then kCPU else kCUDA) deviceIndex)) tr)).
Proof.
  intros Hdev. split; [|split].
  - unfold init. rewrite Hdev. simpl. intros ->. by rewrite Z.eqb_refl.
  - unfold init. rewrite Hdev. simpl. intros Hne Hnz d ->.
    rewrite (proj2 (Z.eqb_neq _ _) Hne), (proj2 (Z.eqb_neq _ _) Hnz).
    destruct st as [[n cpu' gpu' dev] tr]. unfold clear. simpl.
    destruct host, cpu', gpu'; simpl; done.
  - intros deviceIndex tr Hidx. unfold new, init. simpl.
    destruct host; simpl; [done|].
    destruct Hidx as [Hh|Hi]; [discriminate|].
    by rewrite (proj2 (Z.leb_le 0 deviceIndex)).
Qed.

Lemma init_takes_data_only_on_resize_witness :
  init 192 (Some [Byte.x01]) true Sample.full_buffer = (Ok tt, Sample.full_buffer) /\
  new 0 (Some [Byte.x01]) true (-1) [] = Ok Sample.empty_buffer.
Proof.
  destruct (init_takes_data_only_on_resize 192 (Some [Byte.x01]) true Sample.full_buffer
              eq_refl) as (Hsame & _ & Hnew).
  split.
  - apply Hsame. reflexivity.
  - apply (Hnew (-1) []). by left.
Defined.

End MigrationTraces.

(** ** Creating and copying buffers *)

Section CreateCopy.
Import TorchDeviceBuffer.

(** X8.  [create] needs a device index for a buffer off the host: without a
    prototype, or with one on a CUDA device without an index, it throws; and
    it throws when the device of the prototype is not of the class [host]
    names.  Nothing is allocated in these cases. *)
Theorem create_needs_a_device_index (size : Z) (proto : option TorchDeviceBuffer.t)
    (host : bool) (tr : list event) :
  (host = false -> proto = None ->
     create size proto host tr =
       Throw (c10_Error "You must set deviceIndex when setting host to false")) /\
  (forall p, host = false -> proto = Some p -> is_cuda (device p) = true ->
     dev_index (mDevice p) < 0 ->
     create size proto host tr =
       Throw (c10_Error "You must set deviceIndex when setting host to false")) /\
  (forall p, proto = Some p ->
     (if host then is_cpu (device p) else is_cuda (device p)) = false ->
     create size proto host tr =
       Throw (c10_Error
                "Invalid guide buffer device for host argument to TorchDeviceBuffer::create")).
Proof.
  split; [|split].
  - intros -> ->. reflexivity.
  - intros p -> -> Hcuda Hidx. unfold create, new. rewrite Hcuda. simpl.
    by rewrite (proj2 (Z.leb_gt _ _) Hidx).
  - intros p -> Hclass. unfold create. destruct host; by rewrite Hclass.
Qed.

Lemma create_needs_a_device_index_witness :
  create 16 None false [] =
    Throw (c10_Error "You must set deviceIndex when setting host to false") /\
  create 16 (Some Sample.host_buffer) false [] =
    Throw (c10_Error
             "Invalid guide buffer device for host argument to TorchDeviceBuffer::create").
Proof.
  split.
  - apply (create_needs_a_device_index 16 None false []); reflexivity.
  - destruct (create_needs_a_device_index 16 (Some Sample.host_buffer) false [])
      as (_ & _ & H).
    apply (H Sample.host_buffer); reflexivity.
Defined.

(** What [create] builds when it returns. *)
Lemma create_on_host (size : Z) (proto : option TorchDeviceBuffer.t) (tr : list event) :
  size <> 0 -> (forall p, proto = Some p -> is_cpu (device p) = true) ->
  create size proto true tr =
    Ok (mkState (TorchDeviceBuffer.mk size (Some (fresh size)) None cpu)
          (tr ++ [ev_malloc size])).
Proof.
  intros Hnz Hp. unfold create, new, init, clear.
  destruct proto as [p|]; [rewrite (Hp p eq_refl)|]; simpl;
    rewrite (proj2 (Z.eqb_neq _ _) Hnz); done.
Qed.

Lemma create_on_device (size : Z) (p : TorchDeviceBuffer.t) (tr : list event) :
  size <> 0 -> is_cuda (device p) = true -> 0 <= dev_index (mDevice p) ->
  create size (Some p) false tr =
    Ok (mkState (TorchDeviceBuffer.mk size None (Some (fresh size)) (device p))
          (tr ++ [ev_raw_alloc (device p) size])).
Proof.
  intros Hnz Hcuda Hidx. unfold create, new, init, clear. rewrite Hcuda. simpl.
  rewrite (proj2 (Z.leb_le _ _) Hidx). simpl.
  rewrite (proj2 (Z.eqb_neq _ _) Hnz).
  unfold device in *. destruct (mDevice p) as [[] i]; try discriminate Hcuda. done.
Qed.

Lemma length_fresh (n : Z) : length (fresh n) = Z.to_nat n.
Proof. unfold fresh. by rewrite length_replicate. Qed.

(** X9.  [create] with a positive size and a prototype on a CPU device (or
    none) for the host, or on a CUDA device with an index for the
    accelerator, returns a buffer of that size on the host, respectively on
    the device of the prototype, holding one freshly allocated region of that
    size on that side and none on the other; it makes exactly that one
    allocator call. *)
Theorem create_allocates_one_region (size : Z) (proto : option TorchDeviceBuffer.t)
    (host : bool) (tr : list event) :
  0 < size ->
  (if host then forall p, proto = Some p -> is_cpu (device p) = true
   else exists p, proto = Some p /\ is_cuda (device p) = true /\ 0 <= dev_index (mDevice p)) ->
  exists st region,
    create size proto host tr = Ok st /\
    length region = Z.to_nat size /\
    resident (buf st) region /\
    mDevice (buf st) = (if host then cpu else from_option device cpu proto) /\
    trace st = tr ++ [if host then ev_malloc size else ev_raw_alloc (mDevice (buf st)) size].
Proof.
  intros Hpos Hproto. destruct host.
  - eexists _, (fresh size). split; [apply create_on_host; [lia | done]|]. simpl.
    split; [apply length_fresh|]. split; [|done].
    split; [rewrite length_fresh; simpl; lia|]. left. done.
  - destruct Hproto as (p & -> & Hcuda & Hidx).
    eexists _, (fresh size). split; [apply create_on_device; [lia | done | done]|]. simpl.
    split; [apply length_fresh|]. split; [|done].
    split; [rewrite length_fresh; simpl; lia|]. right. done.
Qed.

Lemma create_allocates_one_region_witness :
  exists st region,
    create 16 (Some (TorchDeviceBuffer.mk 0 None None Sample.cuda0)) false [] = Ok st /\
    length region = 16%nat /\
    resident (buf st) region /\
    mDevice (buf st) = Sample.cuda0.
Proof.
  destruct (create_allocates_one_region 16
              (Some (TorchDeviceBuffer.mk 0 None None Sample.cuda0)) false [])
    as (st & region & Hc & Hl & Hr & Hd & _).
  - reflexivity.
  - eexists. split; [reflexivity|]. split; [reflexivity | discriminate].
  - exists st, region. done.
Defined.

End CreateCopy.

Section Copy.
Import TorchDeviceBuffer.

Lemma isEmpty_false (b : TorchDeviceBuffer.t) : mSize b <> 0 -> isEmpty b = false.
Proof. intros H. unfold isEmpty. by apply Z.eqb_neq. Qed.

(** X10.  [GridHandle::copy] is a deep copy in each of its four cases: of a
    buffer that holds a positive number of bytes where its device says, with
    a guide on a CPU device or on a CUDA device with an index, it returns a
    new buffer that holds the same bytes, on the host for a CPU guide and on
    the device of the guide for a CUDA guide.  One region is allocated for
    it. *)
Theorem copy_preserves_bytes (mBuffer guide : TorchDeviceBuffer.t) (c : bytes)
    (tr : list event) :
  resident mBuffer c -> mSize mBuffer <> 0 ->
  is_cpu (device guide) = true \/
    (is_cuda (device guide) = true /\ 0 <= dev_index (mDevice guide)) ->
  exists st evs,
    copy mBuffer guide tr = Ok (st, evs) /\
    resident (buf st) c /\
    mDevice (buf st) = (if is_cpu (device guide) then cpu else device guide) /\
    (exists a, trace st = tr ++ [a] /\ is_allocation a = true).
Proof.
  intros [Hn Hres] Hnz Hguide. unfold copy. rewrite (isEmpty_false _ Hnz).
  unfold size, data, deviceData, device in *.
  destruct Hguide as [Gcpu|[Gcuda Gidx]].
  - rewrite Gcpu. rewrite (create_on_host _ _ tr Hnz) by (by intros p [= <-]). simpl.
    destruct Hres as [(Hcpu & Hc & Hg)|(Hcuda & Hg & Hc)].
    + rewrite Hcpu, Hc. simpl. unfold on_buf. simpl. rewrite (memcpy_fresh c _ Hn).
      eexists _, _. split; [done|]. simpl.
      split; [split; [done|left; done]|]. split; [done|]. by eexists.
    + rewrite (is_cuda_not_cpu _ Hcuda), Hg. simpl.
      unfold on_buf. simpl. rewrite (memcpy_fresh c _ Hn).
      eexists _, _. split; [done|]. simpl.
      split; [split; [done|left; done]|]. split; [done|]. by eexists.
  - rewrite (is_cuda_not_cpu _ Gcuda). rewrite (create_on_device _ _ tr Hnz Gcuda Gidx). simpl.
    destruct Hres as [(Hcpu & Hc & Hg)|(Hcuda & Hg & Hc)].
    + rewrite Hcpu, Hc. simpl. unfold on_buf. simpl. rewrite (memcpy_fresh c _ Hn).
      eexists _, _. split; [done|]. simpl.
      split; [split; [done|right; done]|]. split; [done|]. by eexists.
    + rewrite (is_cuda_not_cpu _ Hcuda), Hg. simpl.
      case_bool_decide; unfold on_buf; simpl; rewrite !(memcpy_fresh c _ Hn);
        (eexists _, _; split; [done|]; simpl;
         split; [split; [done|right; done]|]; split; [done|]; by eexists).
Qed.

Lemma copy_preserves_bytes_witness :
  exists st evs,
    copy (TorchDeviceBuffer.mk 2 None (Some [Byte.x01; Byte.x02]) Sample.cuda0)
         Sample.host_buffer [] = Ok (st, evs) /\
    resident (buf st) [Byte.x01; Byte.x02] /\
    mDevice (buf st) = cpu.
Proof.
  destruct (copy_preserves_bytes
              (TorchDeviceBuffer.mk 2 None (Some [Byte.x01; Byte.x02]) Sample.cuda0)
              Sample.host_buffer [Byte.x01; Byte.x02] [])
    as (st & evs & Hc & Hr & Hd & _).
  - split; [reflexivity|]. right. repeat split; reflexivity.
  - discriminate.
  - left. reflexivity.
  - exists st, evs. done.
Defined.

(** X11.  [GridHandle::copy] of an empty buffer allocates nothing and issues
    no copy: it returns an empty buffer recorded on the device of the guide,
    whatever the type of that device, unless the guide is on a CUDA device
    without an index, which is refused.  A buffer that holds bytes, by
    contrast, is not copied to a guide that is neither on a CPU nor on a CUDA
    device. *)
Theorem copy_of_empty_records_the_device (mBuffer guide : TorchDeviceBuffer.t)
    (tr : list event) :
  (isEmpty mBuffer = true ->
     copy mBuffer guide tr =
       if is_cuda (device guide) && negb (has_index (device guide))
       then Throw (c10_Error "Invalid CUDA device must specify device index")
       else Ok (mkState (TorchDeviceBuffer.mk 0 None None (device guide)) tr, [])) /\
  (isEmpty mBuffer = false ->
     is_cpu (device guide) = false -> is_cuda (device guide) = false ->
     copy mBuffer guide tr =
       Throw (c10_Error
                "Invalid guide buffer device for host argument to TorchDeviceBuffer::create")).
Proof.
  split.
  - intros He. unfold copy. rewrite He.
    assert (new 0 None true (-1) tr =
              Ok (mkState (TorchDeviceBuffer.mk 0 None None cpu) tr)) as -> by done.
    simpl. unfold setDevice. simpl.
    case_bool_decide as Hd.
    + rewrite Hd. simpl. done.
    + destruct (is_cuda (device guide) && negb (has_index (device guide))); done.
  - intros He Gcpu Gcuda. unfold copy, create. rewrite He, Gcpu, Gcuda. done.
Qed.

Lemma copy_of_empty_records_the_device_witness :
  copy (TorchDeviceBuffer.mk 0 None None cpu)
       (TorchDeviceBuffer.mk 0 None None (mkDevice kOther 0)) [] =
    Ok (mkState (TorchDeviceBuffer.mk 0 None None (mkDevice kOther 0)) [], []) /\
  copy Sample.host_buffer (TorchDeviceBuffer.mk 0 None None (mkDevice kOther 0)) [] =
    Throw (c10_Error
             "Invalid guide buffer device for host argument to TorchDeviceBuffer::create").
Proof.
  split.
  - apply (copy_of_empty_records_the_device (TorchDeviceBuffer.mk 0 None None cpu)
             (TorchDeviceBuffer.mk 0 None None (mkDevice kOther 0)) []).
    reflexivity.
  - apply (copy_of_empty_records_the_device Sample.host_buffer
             (TorchDeviceBuffer.mk 0 None None (mkDevice kOther 0)) []); reflexivity.
Defined.

End Copy.

(** ** More on indexing *)

Section IndexErrors.
Import GridBatchImpl.
Variable self : GridBatchImpl.t.
Variable idx : Z -> Z.

Lemma index_body_returns (k : Z) (s : index_locals) :
  in_range self (idx k) -> exists s', index_body self idx k s = Ok s'.
Proof.
  intros Hin. unfold index_body. rewrite (rangecheck_in_range self _ Hin). simpl. by eexists.
Qed.

Lemma index_body_fails (k : Z) (s : index_locals) :
  ~ in_range self (idx k) -> index_body self idx k s = index_error.
Proof.
  intros Hout. unfold index_body. by rewrite (rangecheck_out_of_range self _ Hout).
Qed.

Lemma index_loop_stops (n : nat) :
  forall (i : Z) (s : index_locals),
    (exists j, i <= j < i + Z.of_nat n /\ ~ in_range self (idx j)) ->
    for_loop n i (index_body self idx) s = index_error.
Proof.
  induction n as [|n IH]; intros i s (j & Hj & Hout); [lia|].
  simpl. destruct (decide (in_range self (idx i))) as [Hin|Hbad].
  - destruct (index_body_returns i s Hin) as [s' ->]. simpl.
    apply IH. exists j. split; [|done].
    assert (j <> i) by (intros ->; done). lia.
  - by rewrite (index_body_fails i s Hbad).
Qed.

(** X12.  Indexing fails with the index error as soon as one of the [size]
    indices is out of range, whatever the other indices are and whether or
    not the batch is a nested list; no instance is produced. *)
Theorem index_with_an_index_out_of_range_fails (size : Z) :
  (exists j, 0 <= j < size /\ ~ in_range self (idx j)) ->
  indexInternal self idx size = index_error.
Proof.
  intros (j & Hj & Hout). unfold indexInternal.
  rewrite (proj2 (Z.eqb_neq size 0)) by lia.
  rewrite (proj2 (Z.leb_le 0 size)) by lia. simpl.
  rewrite (index_loop_stops (Z.to_nat size) 0 (index_init self)); [done|].
  exists j. split; [lia | done].
Qed.

End IndexErrors.

Lemma index_with_an_index_out_of_range_fails_witness :
  GridBatchImpl.indexInternal Sample.nested (GridBatchImpl.vec [1; 0; 7]) 3 =
    GridBatchImpl.index_error.
Proof.
  apply (index_with_an_index_out_of_range_fails Sample.nested (GridBatchImpl.vec [1; 0; 7]) 3).
  exists 2. split; [lia|]. vm_compute. intros [_ H]. discriminate H.
Defined.

Section IndexClosedForm.
Import GridBatchImpl.

Lemma with_offsets_counts (l : list GridMetadata) (i : nat) (m : GridMetadata) :
  mNumVoxels (with_offsets l i m) = mNumVoxels m /\
  mNumLeaves (with_offsets l i m) = mNumLeaves m /\
  mCumBytes (with_offsets l i m) = mCumBytes m /\
  mNumBytes (with_offsets l i m) = mNumBytes m /\
  mBBox (with_offsets l i m) = mBBox m /\
  mVoxelSize (with_offsets l i m) = mVoxelSize m /\
  mPrimalTransform (with_offsets l i m) = mPrimalTransform m /\
  mDualTransform (with_offsets l i m) = mDualTransform m /\
  same_grid (with_offsets l i m) m.
Proof. by destruct m. Qed.

Lemma with_offsets_ext (l l' : list GridMetadata) (i : nat) (m : GridMetadata) :
  mNumVoxels <$> l = mNumVoxels <$> l' -> mNumLeaves <$> l = mNumLeaves <$> l' ->
  with_offsets l i m = with_offsets l' i m.
Proof. intros Hv Hl. unfold with_offsets. by rewrite Hv, Hl. Qed.

Lemma with_offsets_same_grid (l : list GridMetadata) (i : nat) (a b : GridMetadata) :
  same_grid a b -> with_offsets l i a = with_offsets l i b.
Proof.
  unfold same_grid, with_offsets. destruct a, b. simpl. intros H. by inversion H.
Qed.

Lemma selected_lookup (self : GridBatchImpl.t) (L : list Z) (i : nat) (bi : Z) :
  L !! i = Some bi -> selected self L !! i = Some (hostMeta self (resolve self bi)).
Proof. intros H. unfold selected. by rewrite list_lookup_fmap, H. Qed.

(** Under the invariant at the end of the loop, the metadata built is the
    selected elements with their offsets recomputed. *)
Lemma index_inv_closed_form (self : GridBatchImpl.t) (L : list Z) (s : index_locals) :
  index_inv self (vec L) (Z.of_nat (length L)) s ->
  ret_meta s = reindex (selected self L).
Proof.
  intros Hinv.
  assert (length (ret_meta s) = length L) as Hlen
    by (rewrite (inv_length _ _ _ _ Hinv); lia).
  assert (forall i m, ret_meta s !! i = Some m ->
            exists bi, L !! i = Some bi /\
              m = with_offsets (ret_meta s) i (hostMeta self (resolve self bi))) as Hel.
  { intros i m Hm. destruct (lookup_lt_is_Some_2 L i) as [bi Hbi].
    { rewrite <- Hlen. by eapply lookup_lt_Some. }
    exists bi. split; [done|].
    destruct (inv_elements _ _ _ _ Hinv i m Hm) as [_ ->].
    by rewrite (vec_lookup _ _ _ Hbi). }
  assert (forall f : GridMetadata -> Z,
            (forall l i m, f (with_offsets l i m) = f m) ->
            f <$> ret_meta s = f <$> selected self L) as Hfields.
  { intros f Hf. apply list_eq. intros i. rewrite !list_lookup_fmap.
    destruct (ret_meta s !! i) as [m|] eqn:Hm.
    - destruct (Hel i m Hm) as (bi & Hbi & ->).
      rewrite (selected_lookup _ _ _ _ Hbi). simpl. by rewrite Hf.
    - apply lookup_ge_None in Hm.
      rewrite (proj2 (lookup_ge_None (selected self L) i)); [done|].
      unfold selected. rewrite length_fmap. lia. }
  pose proof (Hfields mNumVoxels (fun l i m => proj1 (with_offsets_counts l i m))) as Hv.
  pose proof (Hfields mNumLeaves
                (fun l i m => proj1 (proj2 (with_offsets_counts l i m)))) as Hl.
  apply list_eq. intros i. unfold reindex. rewrite list_lookup_imap.
  destruct (ret_meta s !! i) as [m|] eqn:Hm.
  - destruct (Hel i m Hm) as (bi & Hbi & ->).
    rewrite (selected_lookup _ _ _ _ Hbi). simpl. f_equal.
    by apply with_offsets_ext.
  - apply lookup_ge_None in Hm.
    rewrite (proj2 (lookup_ge_None (selected self L) i)); [done|].
    unfold selected. rewrite length_fmap. lia.
Qed.

(** What else an instance returned by indexing carries. *)
Lemma indexInternal_Ok_frame (self : GridBatchImpl.t) (idx : Z -> Z) (size : Z)
    (ret : GridBatchImpl.t) :
  size <> 0 -> indexInternal self idx size = Ok ret ->
  mGridHdl ret = mGridHdl self /\
  isMutable ret = isMutable self /\
  mListIndices self = [] /\
  mListIndices ret = [] /\
  mDeviceGridMetadata ret =
    (if is_cuda (device self) then Some (mHostGridMetadata ret) else None).
Proof.
  intros Hnz. unfold indexInternal.
  rewrite (proj2 (Z.eqb_neq size 0)) by lia.
  destruct (0 <=? size); simpl; [|discriminate].
  destruct (for_loop (Z.to_nat size) 0 (index_body self idx) (index_init self))
    as [s|e]; simpl; [|discriminate].
  destruct (mListIndices self) as [|x l] eqn:Hl; simpl; [|discriminate].
  intros H. inversion H; subst ret; clear H.
  unfold syncMetadataToDeviceIfCUDA, device, isMutable. simpl.
  destruct (is_cuda _); simpl; done.
Qed.

(** Indexing by a non-empty list of indices in range, in closed form. *)
Lemma indexInternal_closed_form (self : GridBatchImpl.t) (L : list Z) :
  mListIndices self = [] -> L <> [] -> Forall (in_range self) L ->
  exists ret,
    indexInternal self (vec L) (Z.of_nat (length L)) = Ok ret /\
    mHostGridMetadata ret = reindex (selected self L) /\
    mGridHdl ret = mGridHdl self /\
    isMutable ret = isMutable self /\
    mListIndices ret = [] /\
    totalVoxels ret = sum_i64 (voxelCounts ret) /\
    totalLeaves ret = sum_i64 (leafCounts ret).
Proof.
  intros Hflat Hne Hvalid.
  assert (0 < Z.of_nat (length L)) as Hpos by (destruct L; [done | simpl; lia]).
  destruct (indexInternal_returns self (vec L) (Z.of_nat (length L)) Hpos
              (vec_in_range self L Hvalid) Hflat) as (s & ret & Hinv & Hret & Hmeta & Hbatch).
  assert (Z.of_nat (length L) <> 0) as Hnz by lia.
  destruct (indexInternal_Ok_frame self _ _ ret Hnz Hret) as (Hh & Hm & _ & Hl & _).
  pose proof (index_inv_closed_form self L s Hinv) as Hform.
  exists ret. split; [done|]. split; [by rewrite Hmeta|].
  split; [done|]. split; [done|]. split; [done|].
  unfold totalVoxels, totalLeaves, voxelCounts, leafCounts. rewrite Hbatch, Hmeta. simpl.
  split; [apply (inv_cumVoxels _ _ _ _ Hinv) | apply (inv_cumLeaves _ _ _ _ Hinv)].
Qed.

Lemma reindex_lookup (l : list GridMetadata) (i : nat) (m : GridMetadata) :
  l !! i = Some m -> reindex l !! i = Some (with_offsets l i m).
Proof. intros H. unfold reindex. by rewrite list_lookup_imap, H. Qed.

Lemma length_reindex (l : list GridMetadata) : length (reindex l) = length l.
Proof. unfold reindex. by rewrite length_imap. Qed.

Lemma length_selected (self : GridBatchImpl.t) (L : list Z) :
  length (selected self L) = length L.
Proof. unfold selected. by rewrite length_fmap. Qed.

(** X13.  Indexing a batch that is not a nested list by a non-empty list of
    indices in range returns an instance on the same storage handle and of
    the same mutability, whose metadata array is the selected elements in the
    order of the list with only the cumulative voxel and leaf counts
    recomputed: the byte offset into the storage, the byte size, the box, the
    voxel size and the transforms of each element are those of the source
    element. *)
Theorem index_result_closed_form (self : GridBatchImpl.t) (L : list Z) :
  mListIndices self = [] -> L <> [] -> Forall (in_range self) L ->
  exists ret,
    indexInternal self (vec L) (Z.of_nat (length L)) = Ok ret /\
    mHostGridMetadata ret = reindex (selected self L) /\
    mGridHdl ret = mGridHdl self /\
    isMutable ret = isMutable self /\
    forall (i : nat) (bi : Z),
      L !! i = Some bi ->
      exists m,
        mHostGridMetadata ret !! i = Some m /\
        same_grid m (hostMeta self (resolve self bi)) /\
        mCumBytes m = mCumBytes (hostMeta self (resolve self bi)).
Proof.
  intros Hflat Hne Hvalid.
  destruct (indexInternal_closed_form self L Hflat Hne Hvalid)
    as (ret & Hret & Hform & Hh & Hm & _).
  exists ret. split; [done|]. split; [done|]. split; [done|]. split; [done|].
  intros i bi Hbi. rewrite Hform.
  rewrite (reindex_lookup _ _ _ (selected_lookup _ _ _ _ Hbi)).
  eexists. split; [done|].
  split; apply with_offsets_counts.
Qed.

Lemma index_result_closed_form_witness :
  exists ret,
    indexInternal Sample.batch (vec [2; -3]) 2 = Ok ret /\
    cumBytes ret 0 = Ok 96 /\ cumBytes ret 1 = Ok 0.
Proof.
  destruct (index_result_closed_form Sample.batch [2; -3] eq_refl) as (ret & Hret & Hform & _).
  - discriminate.
  - apply Forall_cons; [|apply Forall_cons; [|apply Forall_nil]];
      (vm_compute; split; [discriminate | reflexivity]).
  - exists ret. split; [exact Hret|].
    unfold cumBytes, negativeToPositiveIndexWithRangecheck, batchSize, hostMeta.
    rewrite Hform. split; reflexivity.
Defined.

End IndexClosedForm.

(** ** What indexing accumulates beside the metadata *)

Section IndexSummary.
Import GridBatchImpl.

(** The locals of the loop that summarise the elements copied so far. *)
Lemma index_summary_step (self : GridBatchImpl.t) (idx : Z -> Z) (k : Z)
    (s s' : index_locals) :
  index_inv self idx k s -> index_body self idx k s = Ok s' ->
  l_maxVoxels s = max_count (mNumVoxels <$> ret_meta s) /\
  l_maxLeafCount s = max_count (mNumLeaves <$> ret_meta s) /\
  l_totalBbox s = union_box (ret_meta s) /\
  l_leafBatchIdxs s = leaf_runs (ret_meta s) ->
  l_maxVoxels s' = max_count (mNumVoxels <$> ret_meta s') /\
  l_maxLeafCount s' = max_count (mNumLeaves <$> ret_meta s') /\
  l_totalBbox s' = union_box (ret_meta s') /\
  l_leafBatchIdxs s' = leaf_runs (ret_meta s').
Proof.
  intros Hinv Hbody (Hv & Hl & Hb & Hr).
  pose proof (index_body_Ok _ _ _ _ _ Hbody) as Hin.
  pose proof (inv_k _ _ _ _ Hinv) as Hk.
  pose proof (inv_length _ _ _ _ Hinv) as Hlen.
  rewrite (index_body_in_range self idx k s Hin (inv_count _ _ _ _ Hinv) Hlen) in Hbody.
  inversion Hbody; subst s'; clear Hbody. simpl.
  unfold max_count, leaf_runs in *.
  rewrite !fmap_app, !foldl_app, imap_app. simpl.
  rewrite <- Hv, <- Hl, <- Hr.
  split; [done|]. split; [done|]. split.
  - destruct (ret_meta s) as [|a l] eqn:Hm; simpl in *.
    + assert (k = 0) as -> by lia. done.
    + rewrite (proj2 (Z.eqb_neq k 0)) by lia.
      rewrite foldl_app. simpl. by rewrite Hb.
  - rewrite Nat.add_0_r, Hlen, Z2Nat.id by lia. done.
Qed.

(** What an instance returned by indexing holds beside the metadata. *)
Lemma indexInternal_summary (self : GridBatchImpl.t) (idx : Z -> Z) (size : Z)
    (ret : GridBatchImpl.t) :
  size <> 0 -> indexInternal self idx size = Ok ret ->
  maxVoxelsPerGrid ret = max_count (voxelCounts ret) /\
  maxLeavesPerGrid ret = max_count (leafCounts ret) /\
  totalBBox ret = union_box (mHostGridMetadata ret) /\
  mLeafBatchIndices ret = concat (leaf_runs (mHostGridMetadata ret)).
Proof.
  intros Hnz. unfold indexInternal.
  rewrite (proj2 (Z.eqb_neq size 0)) by lia.
  destruct (0 <=? size) eqn:Hsz; simpl; [|discriminate].
  apply Z.leb_le in Hsz.
  destruct (for_loop (Z.to_nat size) 0 (index_body self idx) (index_init self))
    as [s|e] eqn:Hrun; simpl; [|discriminate].
  destruct (0 <? Z.of_nat (length (mListIndices self))); [discriminate|].
  intros H. inversion H; subst ret; clear H.
  pose proof (for_loop_inv
    (fun k t => index_inv self idx k t /\
       l_maxVoxels t = max_count (mNumVoxels <$> ret_meta t) /\
       l_maxLeafCount t = max_count (mNumLeaves <$> ret_meta t) /\
       l_totalBbox t = union_box (ret_meta t) /\
       l_leafBatchIdxs t = leaf_runs (ret_meta t))
    (index_body self idx) (Z.to_nat size) 0 (index_init self) s) as Hloop.
  destruct Hloop as (_ & Hv & Hl & Hb & Hr); [| |exact Hrun|].
  - intros j t t' _ [Ht Hsum] Hbody. split.
    + by eapply index_inv_step.
    + by eapply index_summary_step.
  - split; [apply index_inv_init | done].
  - unfold maxVoxelsPerGrid, maxLeavesPerGrid, totalBBox, voxelCounts, leafCounts.
    unfold syncMetadataToDeviceIfCUDA. simpl.
    destruct (is_cuda _); simpl; rewrite <- Hv, <- Hl, <- Hb, <- Hr;
      (split; [done|]; split; [done|]; split; [done|]);
      by case_bool_decide as Hnil; [rewrite Hnil|].
Qed.

Lemma max_count_from (a : Z) (l : list Z) :
  a <= foldl Z.max a l /\
  (forall x, x ∈ l -> x <= foldl Z.max a l) /\
  (foldl Z.max a l = a \/ foldl Z.max a l ∈ l).
Proof.
  revert a. induction l as [|y l IH]; intros a; simpl.
  - split; [lia|]. split; [|by left]. intros x Hx. by apply elem_of_nil in Hx.
  - destruct (IH (Z.max a y)) as (Hge & Hall & Hat).
    split; [lia|]. split.
    + intros x Hx. apply elem_of_cons in Hx as [->|Hx]; [lia | by apply Hall].
    + destruct Hat as [Hat|Hat].
      * rewrite Hat. destruct (Z.max_spec a y) as [[_ Hm]|[_ Hm]]; rewrite Hm.
        -- right. apply list_elem_of_here.
        -- by left.
      * right. by apply list_elem_of_further.
Qed.

Lemma covers_refl (b : CoordBBox) : covers b b.
Proof. unfold covers. lia. Qed.

Lemma covers_expand_l (a b c : CoordBBox) : covers a c -> covers (expand a b) c.
Proof. unfold covers, expand, minComponent, maxComponent. simpl. lia. Qed.

Lemma covers_expand_r (a b : CoordBBox) : covers (expand a b) b.
Proof. unfold covers, expand, minComponent, maxComponent. simpl. lia. Qed.

Lemma covers_foldl (b c : CoordBBox) (l : list GridMetadata) :
  covers b c -> covers (foldl (fun b m' => expand b (mBBox m')) b l) c.
Proof.
  revert b. induction l as [|y l IH]; intros b Hb; simpl; [done|].
  apply IH. by apply covers_expand_l.
Qed.

Lemma covers_foldl_elem (b : CoordBBox) (l : list GridMetadata) (m : GridMetadata) :
  m ∈ l -> covers (foldl (fun b m' => expand b (mBBox m')) b l) (mBBox m).
Proof.
  revert b. induction l as [|y l IH]; intros b Hm; simpl.
  - by apply elem_of_nil in Hm.
  - apply elem_of_cons in Hm as [->|Hm].
    + apply covers_foldl, covers_expand_r.
    + by apply IH.
Qed.

Lemma union_box_covers (l : list GridMetadata) (m : GridMetadata) :
  m ∈ l -> covers (union_box l) (mBBox m).
Proof.
  destruct l as [|a l]; intros Hm; simpl.
  - by apply elem_of_nil in Hm.
  - apply elem_of_cons in Hm as [->|Hm].
    + apply covers_foldl, covers_refl.
    + by apply covers_foldl_elem.
Qed.

(** X14.  Whenever indexing by a non-zero number of indices returns, the
    maxima and the total box of the instance it returns are those of its own
    elements: no element has more voxels or leaves than the maxima, each
    maximum is 0 or the count of one of the elements (so it is never
    negative), and the total box contains the box of every element. *)
Theorem index_maxima_and_total_box (self : GridBatchImpl.t) (idx : Z -> Z) (size : Z)
    (ret : GridBatchImpl.t) :
  size <> 0 -> indexInternal self idx size = Ok ret ->
  (forall m, m ∈ mHostGridMetadata ret ->
     mNumVoxels m <= maxVoxelsPerGrid ret /\
     mNumLeaves m <= maxLeavesPerGrid ret /\
     covers (totalBBox ret) (mBBox m)) /\
  (maxVoxelsPerGrid ret = 0 \/
   exists m, m ∈ mHostGridMetadata ret /\ mNumVoxels m = maxVoxelsPerGrid ret) /\
  (maxLeavesPerGrid ret = 0 \/
   exists m, m ∈ mHostGridMetadata ret /\ mNumLeaves m = maxLeavesPerGrid ret) /\
  0 <= maxVoxelsPerGrid ret /\ 0 <= maxLeavesPerGrid ret.
Proof.
  intros Hnz Hret.
  destruct (indexInternal_summary self idx size ret Hnz Hret) as (Hv & Hl & Hb & _).
  rewrite Hv, Hl, Hb. unfold max_count, voxelCounts, leafCounts.
  destruct (max_count_from 0 (mNumVoxels <$> mHostGridMetadata ret)) as (Hv0 & Hvall & Hvat).
  destruct (max_count_from 0 (mNumLeaves <$> mHostGridMetadata ret)) as (Hl0 & Hlall & Hlat).
  split; [|split; [|split; [|split]]]; try done.
  - intros m Hm. split; [|split].
    + apply Hvall. by apply list_elem_of_fmap_2.
    + apply Hlall. by apply list_elem_of_fmap_2.
    + by apply union_box_covers.
  - destruct Hvat as [Hz|Hat]; [by left|]. right.
    apply list_elem_of_fmap in Hat as (m & Hm & Hin). by exists m.
  - destruct Hlat as [Hz|Hat]; [by left|]. right.
    apply list_elem_of_fmap in Hat as (m & Hm & Hin). by exists m.
Qed.

Lemma index_maxima_and_total_box_witness :
  exists ret,
    indexInternal Sample.batch (vec [2; 0]) 2 = Ok ret /\
    maxVoxelsPerGrid ret = 10 /\
    forall m, m ∈ mHostGridMetadata ret ->
      mNumVoxels m <= 10 /\ covers (totalBBox ret) (mBBox m).
Proof.
  assert (exists ret, indexInternal Sample.batch (vec [2; 0]) 2 = Ok ret /\
                      maxVoxelsPerGrid ret = 10) as (ret & Hret & Hmax)
    by (eexists; split; vm_compute; reflexivity).
  exists ret. split; [exact Hret|]. split; [exact Hmax|].
  intros m Hm.
  destruct (index_maxima_and_total_box Sample.batch (vec [2; 0]) 2 ret) as (Hall & _);
    [discriminate | exact Hret |].
  destruct (Hall m Hm) as (Hv & _ & Hb). rewrite Hmax in Hv. split; [exact Hv | exact Hb].
Defined.

Lemma leaves_before_S (a : GridMetadata) (l : list GridMetadata) (i : nat) :
  leaves_before (a :: l) (S i) = (Z.to_nat (mNumLeaves a) + leaves_before l i)%nat.
Proof. reflexivity. Qed.

Lemma concat_runs_lookup (f : nat -> Z) (l : list GridMetadata) (i p : nat) (m : GridMetadata) :
  l !! i = Some m -> (p < Z.to_nat (mNumLeaves m))%nat ->
  concat (imap (fun j m' => replicate (Z.to_nat (mNumLeaves m')) (f j)) l)
    !! (leaves_before l i + p)%nat = Some (f i).
Proof.
  revert f i. induction l as [|a l IH]; intros f i Hm Hp; [done|].
  rewrite imap_cons, concat_cons. destruct i as [|i].
  - inversion Hm; subst a. change (leaves_before (m :: l) 0) with 0%nat.
    rewrite lookup_app_l by (by rewrite length_replicate).
    by apply lookup_replicate_2.
  - rewrite leaves_before_S.
    rewrite lookup_app_r by (rewrite length_replicate; lia).
    rewrite length_replicate.
    replace (Z.to_nat (mNumLeaves a) + leaves_before l i + p - Z.to_nat (mNumLeaves a))%nat
      with (leaves_before l i + p)%nat by lia.
    apply (IH (fun j => f (S j)) i Hm Hp).
Qed.

Lemma concat_runs_length (f : nat -> Z) (l : list GridMetadata) :
  length (concat (imap (fun j m' => replicate (Z.to_nat (mNumLeaves m')) (f j)) l)) =
    leaves_before l (length l).
Proof.
  revert f. induction l as [|a l IH]; intros f; [done|].
  rewrite imap_cons, concat_cons, length_app, length_replicate.
  change (length (a :: l)) with (S (length l)). rewrite leaves_before_S.
  f_equal. apply (IH (fun j => f (S j))).
Qed.

(** X15.  Whenever indexing by a non-zero number of indices returns, the leaf
    batch indices of the instance it returns map each leaf to the element
    that owns it: the array has one entry per leaf of the elements, and the
    leaves of the element at position [i] come after those of the elements
    before it and carry [i].  A host accessor of the instance reads the same
    entries through [leafBatchIndex].  The number of indices is taken to be
    at most [2 ^ 15], so that a position fits the integer type of the array,
    which is declared outside this header. *)
Theorem index_leaf_batch_indices (self : GridBatchImpl.t) (idx : Z -> Z) (size : Z)
    (ret : GridBatchImpl.t) :
  size <> 0 -> size <= 2 ^ 15 -> indexInternal self idx size = Ok ret ->
  length (mLeafBatchIndices ret) =
    leaves_before (mHostGridMetadata ret) (length (mHostGridMetadata ret)) /\
  (forall (i p : nat) (m : GridMetadata),
     mHostGridMetadata ret !! i = Some m -> (p < Z.to_nat (mNumLeaves m))%nat ->
     mLeafBatchIndices ret !! (leaves_before (mHostGridMetadata ret) i + p)%nat
       = Some (Z.of_nat i) /\
     forall acc, hostAccessor ret = Ok acc ->
       leafBatchIndex acc (Z.of_nat (leaves_before (mHostGridMetadata ret) i + p))
         = Some (Z.of_nat i)).
Proof.
  intros Hnz _ Hret.
  destruct (indexInternal_summary self idx size ret Hnz Hret) as (_ & _ & _ & Hr).
  rewrite Hr. unfold leaf_runs. split; [apply concat_runs_length|].
  intros i p m Hm Hp.
  pose proof (concat_runs_lookup Z.of_nat _ i p m Hm Hp) as Hlook.
  split; [exact Hlook|].
  intros acc Hacc. unfold hostAccessor in Hacc.
  destruct (TORCH_CHECK _ _); simpl in Hacc; [|discriminate].
  destruct (grid (mGridHdl ret)); [|discriminate].
  inversion Hacc; subst acc. unfold leafBatchIndex, accessor_of. simpl.
  rewrite (proj2 (Z.ltb_ge _ 0)) by lia.
  rewrite Nat2Z.id, Hr. exact Hlook.
Qed.

Lemma index_leaf_batch_indices_witness :
  exists ret,
    indexInternal Sample.batch (vec [2; 0]) 2 = Ok ret /\
    mLeafBatchIndices ret !! 3%nat = Some 1.
Proof.
  assert (exists ret m,
            indexInternal Sample.batch (vec [2; 0]) 2 = Ok ret /\
            mHostGridMetadata ret !! 1%nat = Some m /\
            mNumLeaves m = 2 /\
            leaves_before (mHostGridMetadata ret) 1 = 3%nat) as (ret & m & Hret & Hm & Hn & Hb)
    by (eexists; eexists; split; [|split; [|split]]; vm_compute; reflexivity).
  exists ret. split; [exact Hret|].
  destruct (index_leaf_batch_indices Sample.batch (vec [2; 0]) 2 ret) as (_ & Hat).
  - discriminate.
  - vm_compute. discriminate.
  - exact Hret.
  - assert (0 < Z.to_nat (mNumLeaves m))%nat as Hp by (rewrite Hn; lia).
    destruct (Hat 1%nat 0%nat m Hm Hp) as [Hl _].
    rewrite Hb in Hl. exact Hl.
Defined.

End IndexSummary.

(** ** The host accessor and the engine *)

Section AccessorProperties.
Import GridBatchImpl.

Lemma hostAccessor_Ok (self : GridBatchImpl.t) (acc : Accessor.t) :
  hostAccessor self = Ok acc ->
  isEmpty self = false /\
  exists p, grid (mGridHdl self) = Some p /\
            acc = accessor_of self (Some (mHostGridMetadata self)) p.
Proof.
  unfold hostAccessor. destruct (isEmpty self); simpl; [discriminate|].
  destruct (grid (mGridHdl self)) as [p|]; [|discriminate].
  intros H. inversion H. split; [done|]. by exists p.
Qed.

Lemma accessor_rangecheck_host (self : GridBatchImpl.t) (p : GridPtr) (bi : Z) :
  Accessor.negativeToPositiveIndexWithRangecheck
    (accessor_of self (Some (mHostGridMetadata self)) p) bi =
  if bool_decide (in_range self bi) then Ok (resolve self bi) else Throw assert_failure.
Proof.
  unfold Accessor.negativeToPositiveIndexWithRangecheck, Accessor.batchSize, accessor_of,
    in_range, resolve, batchSize, assert. simpl.
  set (n := Z.of_nat (length (mHostGridMetadata self))).
  set (r := if bi <? 0 then bi + n else bi).
  case_bool_decide as Hin.
  - by rewrite (proj2 (Z.leb_le 0 r)), (proj2 (Z.ltb_lt r n)) by lia.
  - destruct (0 <=? r) eqn:Hlo; [|done].
    destruct (r <? n) eqn:Hhi; [|done].
    apply Z.leb_le in Hlo. apply Z.ltb_lt in Hhi. lia.
Qed.

(** What the methods of a host accessor return for an index in range. *)
Lemma accessor_reads (self : GridBatchImpl.t) (p : GridPtr) (bi : Z) :
  in_range self bi ->
  let acc := accessor_of self (Some (mHostGridMetadata self)) p in
  let m := hostMeta self (resolve self bi) in
  Accessor.grid acc bi = Ok (p (mCumBytes m)) /\
  Accessor.bbox acc bi = Ok (tree_bbox (p (mCumBytes m))) /\
  Accessor.dualBbox acc bi = Ok (dual_wrapping (tree_bbox (p (mCumBytes m)))) /\
  Accessor.voxelOffset acc bi = Ok (mCumVoxels m) /\
  Accessor.leafOffset acc bi = Ok (mCumLeaves m) /\
  Accessor.primalTransform acc bi = Ok (mPrimalTransform m) /\
  Accessor.dualTransform acc bi = Ok (mDualTransform m).
Proof.
  intros Hin acc m.
  pose proof (accessor_rangecheck_host self p bi) as Hck.
  rewrite bool_decide_eq_true_2 in Hck by done.
  pose proof (accessor_rangecheck_idem _ _ _ Hck) as Hck'.
  unfold Accessor.dualBbox, Accessor.bbox, Accessor.grid, Accessor.voxelOffset,
    Accessor.leafOffset, Accessor.primalTransform, Accessor.dualTransform.
  fold acc in Hck, Hck'. rewrite Hck. simpl. rewrite Hck'. simpl. rewrite Hck'. simpl.
  repeat split; done.
Qed.

Lemma accessor_fails (self : GridBatchImpl.t) (p : GridPtr) (bi : Z) :
  ~ in_range self bi ->
  let acc := accessor_of self (Some (mHostGridMetadata self)) p in
  Accessor.grid acc bi = Throw assert_failure /\
  Accessor.bbox acc bi = Throw assert_failure /\
  Accessor.dualBbox acc bi = Throw assert_failure /\
  Accessor.voxelOffset acc bi = Throw assert_failure /\
  Accessor.leafOffset acc bi = Throw assert_failure /\
  Accessor.primalTransform acc bi = Throw assert_failure /\
  Accessor.dualTransform acc bi = Throw assert_failure.
Proof.
  intros Hout acc.
  pose proof (accessor_rangecheck_host self p bi) as Hck.
  rewrite bool_decide_eq_false_2 in Hck by done.
  unfold Accessor.dualBbox, Accessor.bbox, Accessor.grid, Accessor.voxelOffset,
    Accessor.leafOffset, Accessor.primalTransform, Accessor.dualTransform.
  fold acc in Hck. rewrite Hck. repeat split; done.
Qed.

(** X16.  The host accessor of a batch answers as the engine does: its batch
    size, totals and maxima are those of the engine; for a batch index in
    range its voxel offset and its transforms are what the engine's queries
    return, and the grid it points to is the one at the byte offset the
    engine reports for the element.  For an index out of range the accessor
    stops on its assertion where the engine raises the index error. *)
Theorem host_accessor_mirrors_engine (self : GridBatchImpl.t) (acc : Accessor.t) (bi : Z) :
  hostAccessor self = Ok acc ->
  Accessor.batchSize acc = batchSize self /\
  Accessor.totalVoxels acc = totalVoxels self /\
  Accessor.totalLeaves acc = totalLeaves self /\
  Accessor.maxVoxels acc = maxVoxelsPerGrid self /\
  Accessor.maxLeafCount acc = maxLeavesPerGrid self /\
  (in_range self bi ->
     Accessor.voxelOffset acc bi = cumVoxels self bi /\
     Accessor.primalTransform acc bi = primalTransform self bi /\
     Accessor.dualTransform acc bi = dualTransform self bi /\
     exists (p : GridPtr) (offset : Z),
       grid (mGridHdl self) = Some p /\
       cumBytes self bi = Ok offset /\
       Accessor.grid acc bi = Ok (p offset) /\
       Accessor.bbox acc bi = Ok (tree_bbox (p offset))) /\
  (~ in_range self bi ->
     Accessor.voxelOffset acc bi = Throw assert_failure /\
     Accessor.grid acc bi = Throw assert_failure /\
     Accessor.bbox acc bi = Throw assert_failure /\
     cumVoxels self bi = index_error /\
     cumBytes self bi = index_error).
Proof.
  intros Hacc. destruct (hostAccessor_Ok self acc Hacc) as (_ & p & Hp & ->).
  split; [done|]. split; [done|]. split; [done|]. split; [done|]. split; [done|].
  split.
  - intros Hin.
    destruct (accessor_reads self p bi Hin) as (Hg & Hb & _ & Hv & _ & Hpt & Hdt).
    destruct (queries_in_range self bi Hin) as (_ & _ & _ & Hcv & _ & Hcb & Hqp & Hqd & _).
    rewrite Hv, Hpt, Hdt, Hcv, Hqp, Hqd. split; [done|]. split; [done|]. split; [done|].
    exists p, (mCumBytes (hostMeta self (resolve self bi))). done.
  - intros Hout.
    destruct (accessor_fails self p bi Hout) as (Hg & Hb & _ & Hv & _).
    destruct (queries_out_of_range self bi Hout) as (_ & _ & _ & Hcv & _ & Hcb & _).
    done.
Qed.

Lemma host_accessor_mirrors_engine_witness :
  exists acc,
    hostAccessor Sample.batch = Ok acc /\
    Accessor.batchSize acc = 3 /\ Accessor.totalVoxels acc = 22.
Proof.
  eexists. split; [reflexivity|].
  split.
  - refine (proj1 (host_accessor_mirrors_engine Sample.batch _ 0 _)). reflexivity.
  - refine (proj1 (proj2 (host_accessor_mirrors_engine Sample.batch _ 0 _))). reflexivity.
Defined.

(** X17.  A host accessor of an indexed batch reads the grids of the source:
    when the source has a host accessor, so has the instance that indexing by
    a non-empty list of indices in range returns, over as many elements as
    the list has indices, and for the index at each position of the list the
    accessor of the result returns, at that position, the grid, the boxes and
    the transforms that the accessor of the source returns at that index. *)
Theorem accessor_of_indexed_batch (self : GridBatchImpl.t) (L : list Z) (acc : Accessor.t) :
  mListIndices self = [] -> L <> [] -> Forall (in_range self) L ->
  hostAccessor self = Ok acc ->
  exists ret acc',
    indexInternal self (vec L) (Z.of_nat (length L)) = Ok ret /\
    hostAccessor ret = Ok acc' /\
    Accessor.batchSize acc' = Z.of_nat (length L) /\
    forall (i : nat) (bi : Z),
      L !! i = Some bi ->
      is_Ok (Accessor.grid acc bi) = true /\
      Accessor.grid acc' (Z.of_nat i) = Accessor.grid acc bi /\
      Accessor.bbox acc' (Z.of_nat i) = Accessor.bbox acc bi /\
      Accessor.dualBbox acc' (Z.of_nat i) = Accessor.dualBbox acc bi /\
      Accessor.primalTransform acc' (Z.of_nat i) = Accessor.primalTransform acc bi /\
      Accessor.dualTransform acc' (Z.of_nat i) = Accessor.dualTransform acc bi.
Proof.
  intros Hflat Hne Hvalid Hacc.
  destruct (hostAccessor_Ok self acc Hacc) as (Hfull & p & Hp & ->).
  destruct (indexInternal_closed_form self L Hflat Hne Hvalid)
    as (ret & Hret & Hform & Hh & _).
  exists ret, (accessor_of ret (Some (mHostGridMetadata ret)) p).
  split; [done|]. split.
  { unfold hostAccessor, isEmpty. rewrite Hh. fold (isEmpty self). rewrite Hfull. simpl.
    by rewrite Hp. }
  assert (length (mHostGridMetadata ret) = length L) as Hlen
    by (by rewrite Hform, length_reindex, length_selected).
  split.
  { unfold Accessor.batchSize, accessor_of. simpl. by rewrite Hlen. }
  intros i bi Hbi.
  assert (in_range self bi) as Hin by (by eapply Forall_lookup_1).
  assert (mHostGridMetadata ret !! i =
            Some (with_offsets (selected self L) i (hostMeta self (resolve self bi)))) as Hm
    by (rewrite Hform; apply reindex_lookup; by apply selected_lookup).
  destruct (lookup_in_range ret i _ Hm) as [Hin' Hres].
  destruct (accessor_reads self p bi Hin) as (Hg & Hb & Hd & _ & _ & Hpt & Hdt).
  destruct (accessor_reads ret p (Z.of_nat i) Hin') as (Hg' & Hb' & Hd' & _ & _ & Hpt' & Hdt').
  rewrite Hres, (hostMeta_lookup ret i _ Hm) in Hg', Hb', Hd', Hpt', Hdt'.
  destruct (with_offsets_counts (selected self L) i (hostMeta self (resolve self bi)))
    as (_ & _ & Hcb & _ & _ & _ & Hp1 & Hp2 & _).
  rewrite Hcb in Hg', Hb', Hd'. rewrite Hp1 in Hpt'. rewrite Hp2 in Hdt'.
  rewrite Hg, Hb, Hd, Hpt, Hdt, Hg', Hb', Hd', Hpt', Hdt'. done.
Qed.

Lemma accessor_of_indexed_batch_witness :
  exists acc ret acc',
    hostAccessor Sample.batch = Ok acc /\
    indexInternal Sample.batch (vec [2; -3]) 2 = Ok ret /\
    hostAccessor ret = Ok acc' /\
    Accessor.bbox acc' 0 = Accessor.bbox acc 2 /\
    Accessor.bbox acc' 1 = Accessor.bbox acc (-3).
Proof.
  assert (exists acc, hostAccessor Sample.batch = Ok acc) as [acc Hacc]
    by (eexists; reflexivity).
  destruct (accessor_of_indexed_batch Sample.batch [2; -3] acc eq_refl)
    as (ret & acc' & Hret & Hacc' & _ & Hel).
  - discriminate.
  - apply Forall_cons; [|apply Forall_cons; [|apply Forall_nil]];
      (vm_compute; split; [discriminate | reflexivity]).
  - exact Hacc.
  - exists acc, ret, acc'. split; [exact Hacc|]. split; [exact Hret|]. split; [exact Hacc'|].
    split.
    + exact (proj1 (proj2 (proj2 (Hel 0%nat 2 eq_refl)))).
    + exact (proj1 (proj2 (proj2 (Hel 1%nat (-3) eq_refl)))).
Defined.

End AccessorProperties.

(** ** Indexing again *)

Section IndexAgain.
Import GridBatchImpl.

Lemma same_grid_counts (a b : GridMetadata) :
  same_grid a b -> mNumVoxels a = mNumVoxels b /\ mNumLeaves a = mNumLeaves b.
Proof. unfold same_grid. destruct a, b. simpl. intros H. by inversion H. Qed.

Lemma reindex_same_grid (l l' : list GridMetadata) :
  Forall2 same_grid l l' -> reindex l = reindex l'.
Proof.
  intros H.
  assert (mNumVoxels <$> l = mNumVoxels <$> l' /\ mNumLeaves <$> l = mNumLeaves <$> l')
    as [Hv Hl].
  { induction H as [|a b l l' Hab _ [IHv IHl]]; [done|].
    destruct (same_grid_counts a b Hab) as [Ev El]. by rewrite !fmap_cons, Ev, El, IHv, IHl. }
  apply list_eq. intros i. unfold reindex. rewrite !list_lookup_imap.
  destruct (l !! i) as [m|] eqn:E.
  - destruct (Forall2_lookup_l _ _ _ _ _ H E) as (m' & E' & Hs). rewrite E'. simpl.
    f_equal. rewrite (with_offsets_ext l l') by done. by apply with_offsets_same_grid.
  - apply lookup_ge_None in E. pose proof (Forall2_length H) as Hlen. rewrite Hlen in E.
    by rewrite (proj2 (lookup_ge_None l' i)).
Qed.

(** A list of elements whose cumulative counts are the running sums is its
    own re-indexing. *)
Lemma reindex_prefix_sums (self : GridBatchImpl.t) :
  prefix_sums self -> reindex (mHostGridMetadata self) = mHostGridMetadata self.
Proof.
  intros [Hel _]. apply list_eq. intros i. unfold reindex. rewrite list_lookup_imap.
  destruct (mHostGridMetadata self !! i) as [m|] eqn:E; [|done]. simpl. f_equal.
  destruct (Hel i m E) as [Hv Hl]. unfold with_offsets.
  fold (voxelCounts self). fold (leafCounts self). rewrite <- Hv, <- Hl. by destruct m.
Qed.

(** The indices at which an indexing returns are in range. *)
Lemma indexInternal_Ok_in_range (self : GridBatchImpl.t) (L : list Z) (ret : GridBatchImpl.t) :
  L <> [] -> indexInternal self (vec L) (Z.of_nat (length L)) = Ok ret ->
  Forall (in_range self) L.
Proof.
  intros Hne Hret.
  assert (Z.of_nat (length L) <> 0) as Hnz by (destruct L; [done | simpl; lia]).
  destruct (indexInternal_Ok self _ _ ret Hnz Hret) as (s & Hinv & _).
  apply Forall_lookup_2. intros i b Hb.
  destruct (lookup_lt_is_Some_2 (ret_meta s) i) as [m Hm].
  { rewrite (inv_length _ _ _ _ Hinv), Nat2Z.id. by eapply lookup_lt_Some. }
  destruct (inv_elements _ _ _ _ Hinv i m Hm) as [Hin _].
  by rewrite (vec_lookup _ _ _ Hb) in Hin.
Qed.

(** X18.  Indexing by a list that names every position once and in order,
    by positive or by negative indices, returns the metadata the batch has:
    on a batch that is not a nested list and whose cumulative counts and
    totals are the running sums of its counts (as on every instance the
    engine produces), the instance returned has the same metadata array, the
    same totals and the same storage handle. *)
Theorem index_by_every_position (self : GridBatchImpl.t) (L : list Z) :
  mListIndices self = [] -> L <> [] -> prefix_sums self ->
  resolve self <$> L = seqZ 0 (batchSize self) ->
  exists ret,
    indexInternal self (vec L) (Z.of_nat (length L)) = Ok ret /\
    mHostGridMetadata ret = mHostGridMetadata self /\
    totalVoxels ret = totalVoxels self /\
    totalLeaves ret = totalLeaves self /\
    mGridHdl ret = mGridHdl self.
Proof.
  intros Hflat Hne Hsums Hall.
  assert (forall i b, L !! i = Some b -> resolve self b = Z.of_nat i /\
                                         (i < length (mHostGridMetadata self))%nat) as Hpos.
  { intros i b Hb.
    assert ((resolve self <$> L) !! i = Some (resolve self b)) as Hr
      by (by rewrite list_lookup_fmap, Hb).
    rewrite Hall in Hr. apply lookup_seqZ in Hr as [Hr Hlt].
    unfold batchSize in Hlt. lia. }
  assert (Forall (in_range self) L) as Hvalid.
  { apply Forall_lookup_2. intros i b Hb. destruct (Hpos i b Hb) as [Hr Hlt].
    unfold in_range, batchSize. rewrite Hr. lia. }
  assert (selected self L = mHostGridMetadata self) as Hsel.
  { assert (length L = length (mHostGridMetadata self)) as Hlen.
    { rewrite <- (length_fmap (resolve self) L), Hall, length_seqZ.
      unfold batchSize. lia. }
    apply list_eq. intros i. unfold selected. rewrite list_lookup_fmap.
    destruct (L !! i) as [b|] eqn:Hb; simpl.
    - destruct (Hpos i b Hb) as [Hr Hlt]. rewrite Hr.
      destruct (lookup_lt_is_Some_2 (mHostGridMetadata self) i Hlt) as [m Hm].
      by rewrite (hostMeta_lookup self i m Hm).
    - apply lookup_ge_None in Hb. symmetry. apply lookup_ge_None. lia. }
  destruct (indexInternal_closed_form self L Hflat Hne Hvalid)
    as (ret & Hret & Hform & Hh & _ & _ & Hv & Hl).
  rewrite Hsel, (reindex_prefix_sums self Hsums) in Hform.
  exists ret. split; [done|]. split; [done|].
  destruct Hsums as (_ & Htv & Htl).
  unfold voxelCounts, leafCounts in *. rewrite Hform in Hv, Hl.
  by rewrite Hv, Hl, Htv, Htl.
Qed.

Lemma index_by_every_position_witness :
  exists ret,
    indexInternal Sample.batch (vec [0; -2; 2]) 3 = Ok ret /\
    mHostGridMetadata ret = mHostGridMetadata Sample.batch.
Proof.
  destruct (index_by_every_position Sample.batch [0; -2; 2] eq_refl)
    as (ret & Hret & Hmeta & _).
  - discriminate.
  - apply prefix_sums_construct.
  - reflexivity.
  - exists ret. split; [exact Hret | exact Hmeta].
Defined.

(** X19.  Indexing twice is indexing once by the composed list: when
    indexing a batch by [L1] returns [ret1], indexing [ret1] by a list [L2]
    of indices in its range returns an instance with the metadata array, the
    totals, the maxima, the total box, the leaf batch indices, the storage
    handle and the mutability of the instance that indexing the batch itself
    returns for the list of the indices of [L1] that [L2] selects.  The
    contiguity flag is apart: it is inherited from [ret1]. *)
Theorem index_of_index (self ret1 : GridBatchImpl.t) (L1 L2 : list Z) :
  L1 <> [] -> L2 <> [] ->
  indexInternal self (vec L1) (Z.of_nat (length L1)) = Ok ret1 ->
  Forall (in_range ret1) L2 ->
  exists ret2 ret3,
    indexInternal ret1 (vec L2) (Z.of_nat (length L2)) = Ok ret2 /\
    indexInternal self (vec ((fun b => vec L1 (resolve ret1 b)) <$> L2))
      (Z.of_nat (length L2)) = Ok ret3 /\
    mHostGridMetadata ret2 = mHostGridMetadata ret3 /\
    totalVoxels ret2 = totalVoxels ret3 /\
    totalLeaves ret2 = totalLeaves ret3 /\
    maxVoxelsPerGrid ret2 = maxVoxelsPerGrid ret3 /\
    maxLeavesPerGrid ret2 = maxLeavesPerGrid ret3 /\
    totalBBox ret2 = totalBBox ret3 /\
    mLeafBatchIndices ret2 = mLeafBatchIndices ret3 /\
    mGridHdl ret2 = mGridHdl ret3 /\
    isMutable ret2 = isMutable ret3.
Proof.
  intros Hne1 Hne2 Hret1 Hvalid2.
  assert (Z.of_nat (length L1) <> 0) as Hnz1 by (destruct L1; [done | simpl; lia]).
  assert (Z.of_nat (length L2) <> 0) as Hnz2 by (destruct L2; [done | simpl; lia]).
  destruct (indexInternal_Ok_frame self _ _ ret1 Hnz1 Hret1) as (_ & _ & Hflat & _).
  pose proof (indexInternal_Ok_in_range self L1 ret1 Hne1 Hret1) as Hvalid1.
  destruct (indexInternal_closed_form self L1 Hflat Hne1 Hvalid1)
    as (r & Hr & Hform1 & Hh1 & Hm1 & Hflat1 & _).
  rewrite Hret1 in Hr. inversion Hr; subst r; clear Hr.
  assert (batchSize ret1 = Z.of_nat (length L1)) as Hsize1
    by (unfold batchSize; by rewrite Hform1, length_reindex, length_selected).
  set (L3 := (fun b => vec L1 (resolve ret1 b)) <$> L2).
  assert (L3 <> []) as Hne3 by (unfold L3; by destruct L2).
  assert (length L3 = length L2) as Hlen3 by (unfold L3; by rewrite length_fmap).
  assert (Forall (in_range self) L3) as Hvalid3.
  { unfold L3. apply Forall_fmap. eapply Forall_impl; [|exact Hvalid2].
    intros b Hb. simpl. apply (vec_in_range self L1 Hvalid1).
    unfold in_range in Hb. lia. }
  destruct (indexInternal_closed_form ret1 L2 Hflat1 Hne2 Hvalid2)
    as (ret2 & Hret2 & Hform2 & Hh2 & Hm2 & _ & Hv2 & Hl2).
  destruct (indexInternal_closed_form self L3 Hflat Hne3 Hvalid3)
    as (ret3 & Hret3 & Hform3 & Hh3 & Hm3 & _ & Hv3 & Hl3).
  rewrite Hlen3 in Hret3.
  assert (mHostGridMetadata ret2 = mHostGridMetadata ret3) as Hmeta.
  { rewrite Hform2, Hform3. apply reindex_same_grid.
    unfold selected, L3. rewrite <- list_fmap_compose.
    apply Forall2_fmap, Forall_Forall2_diag.
    eapply Forall_impl; [|exact Hvalid2]. intros b Hb. simpl.
    unfold in_range in Hb. rewrite Hsize1 in Hb.
    destruct (lookup_lt_is_Some_2 L1 (Z.to_nat (resolve ret1 b))) as [b1 Hb1]; [lia|].
    assert (vec L1 (resolve ret1 b) = b1) as ->
      by (unfold vec; by apply list_lookup_total_correct).
    assert (hostMeta ret1 (resolve ret1 b) =
              with_offsets (selected self L1) (Z.to_nat (resolve ret1 b))
                (hostMeta self (resolve self b1))) as ->.
    { unfold hostMeta at 1. apply list_lookup_total_correct.
      rewrite Hform1. apply reindex_lookup. by apply selected_lookup. }
    apply with_offsets_counts. }
  destruct (indexInternal_summary ret1 _ _ ret2 Hnz2 Hret2) as (Sv2 & Sl2 & Sb2 & Sr2).
  destruct (indexInternal_summary self _ _ ret3 Hnz2 Hret3) as (Sv3 & Sl3 & Sb3 & Sr3).
  exists ret2, ret3. split; [done|]. split; [done|]. split; [done|].
  unfold voxelCounts, leafCounts in *.
  rewrite Hv2, Hl2, Hv3, Hl3, Sv2, Sl2, Sb2, Sr2, Sv3, Sl3, Sb3, Sr3, Hmeta, Hh2, Hh3, Hh1,
    Hm2, Hm3, Hm1.
  done.
Qed.

Lemma index_of_index_witness :
  exists ret1 ret2 ret3,
    indexInternal Sample.batch (vec [2; 1; 0]) 3 = Ok ret1 /\
    indexInternal ret1 (vec [-1; 0]) 2 = Ok ret2 /\
    indexInternal Sample.batch (vec [0; 2]) 2 = Ok ret3 /\
    mHostGridMetadata ret2 = mHostGridMetadata ret3.
Proof.
  assert (exists ret1, indexInternal Sample.batch (vec [2; 1; 0]) 3 = Ok ret1 /\
                       batchSize ret1 = 3) as (ret1 & Hret1 & Hsize)
    by (eexists; split; vm_compute; reflexivity).
  destruct (index_of_index Sample.batch ret1 [2; 1; 0] [-1; 0])
    as (ret2 & ret3 & Hret2 & Hret3 & Hmeta & _).
  - discriminate.
  - discriminate.
  - exact Hret1.
  - apply Forall_cons; [|apply Forall_cons; [|apply Forall_nil]];
      (unfold in_range, resolve; rewrite Hsize; simpl; lia).
  - exists ret1, ret2, ret3. split; [exact Hret1|]. split; [exact Hret2|].
    split; [|exact Hmeta].
    unfold resolve in Hret3. rewrite Hsize in Hret3. exact Hret3.
Defined.

(** The contiguity flags of the two instances can differ: reversing the
    sample batch twice gives a batch that is not contiguous, indexing it by
    the composed list one that is. *)
Example contiguity_after_indexing_twice_differs :
  exists ret1 ret2 ret3,
    indexInternal Sample.batch (vec [2; 1; 0]) 3 = Ok ret1 /\
    indexInternal ret1 (vec [2; 1; 0]) 3 = Ok ret2 /\
    indexInternal Sample.batch (vec [0; 1; 2]) 3 = Ok ret3 /\
    isContiguous ret2 = false /\ isContiguous ret3 = true.
Proof.
  eexists _, _, _. split; [vm_compute; reflexivity|].
  split; [vm_compute; reflexivity|]. split; [vm_compute; reflexivity|].
  split; reflexivity.
Qed.

End IndexAgain.

(** ** The public wrapper *)

Section FillLoops.

(** A loop that stores [f i] at position [i] of an array of [n] entries
    returns the values in order when [f] returns on [0 .. n-1]. *)
Lemma for_loop_fill {A : Type} (f : Z -> result A) (g : Z -> A) (n : nat) (init : list A) :
  length init = n ->
  (forall i, 0 <= i < Z.of_nat n -> f i = Ok (g i)) ->
  for_loop n 0 (fun i acc => v ← f i; Ok (<[Z.to_nat i := v]> acc)) init
    = Ok (g <$> seqZ 0 (Z.of_nat n)).
Proof.
  intros Hlen Hf.
  destruct (for_loop_total
              (fun k acc => 0 <= k <= Z.of_nat n /\
                            acc = (g <$> seqZ 0 k) ++ drop (Z.to_nat k) init)
              (fun i acc => v ← f i; Ok (<[Z.to_nat i := v]> acc)) n 0 init)
    as (s & Hrun & _ & Hs).
  - intros j acc Hj [_ ->]. rewrite (Hf j) by lia. simpl. eexists. split; [done|].
    split; [lia|].
    destruct (lookup_lt_is_Some_2 init (Z.to_nat j)) as [y Hy]; [lia|].
    rewrite (drop_S _ _ _ Hy).
    rewrite insert_app_r_alt by (rewrite length_fmap, length_seqZ; lia).
    rewrite length_fmap, length_seqZ, Nat.sub_diag. simpl.
    rewrite (seqZ_app 0 j 1) by lia. rewrite fmap_app. simpl.
    rewrite <- app_assoc. simpl.
    replace (Z.of_nat 0 + (0 + j)) with j by lia.
    by replace (Z.to_nat (j + 1)) with (S (Z.to_nat j)) by lia.
  - split; [lia|]. by rewrite drop_0.
  - replace (0 + Z.of_nat n) with (Z.of_nat n) in Hs by lia.
    rewrite Nat2Z.id, drop_ge, app_nil_r in Hs by lia.
    by rewrite Hrun, Hs.
Qed.

(** It stops at the first index at which [f] throws. *)
Lemma for_loop_fill_fails {A : Type} (f : Z -> result A) (e : exn) (n : nat) (init : list A) :
  (0 < n)%nat -> f 0 = Throw e ->
  for_loop n 0 (fun i acc => v ← f i; Ok (<[Z.to_nat i := v]> acc)) init = Throw e.
Proof. intros Hn Hf. destruct n; [lia|]. simpl. by rewrite Hf. Qed.

Lemma fmap_hostMeta_seqZ {A : Type} (h : GridBatchImpl.GridMetadata -> A)
    (g : GridBatchImpl.t) :
  (fun i => h (GridBatchImpl.hostMeta g i)) <$> seqZ 0 (GridBatchImpl.batchSize g)
    = h <$> GridBatchImpl.mHostGridMetadata g.
Proof.
  unfold GridBatchImpl.batchSize. apply list_eq. intros i. rewrite !list_lookup_fmap.
  destruct (GridBatchImpl.mHostGridMetadata g !! i) as [m|] eqn:Hm; simpl.
  - rewrite (lookup_seqZ_lt 0) by (apply lookup_lt_Some in Hm; lia). simpl.
    by rewrite Z.add_0_l, (hostMeta_lookup g i m Hm).
  - rewrite (lookup_seqZ_ge 0); [done|]. apply lookup_ge_None in Hm. lia.
Qed.

End FillLoops.

Section WrapperCounts.
Import GridBatchImpl GridBatch.

Variable is_mutable : GridBatch.t -> bool.
Variable grid_count : GridBatch.t -> Z.
Variable device : GridBatch.t -> Device.
Variable num_voxels_at cum_voxels_at : GridBatch.t -> Z -> result Z.
Variable dispatchCountEnabledVoxels : Device -> GridBatchImpl.t -> Z -> result Z.
Variable self : GridBatch.t.

Lemma fill_in_range (f : Z -> result Z) (h : GridMetadata -> Z) :
  grid_count self = batchSize (impl self) ->
  (forall bi, in_range (impl self) bi ->
     f bi = Ok (h (hostMeta (impl self) (resolve (impl self) bi)))) ->
  fill grid_count self f = Ok (mkTensor (h <$> mHostGridMetadata (impl self)) cpu).
Proof.
  intros Hn Hf. unfold fill.
  pose proof (batchSize_nonneg (impl self)) as Hnn.
  rewrite (for_loop_fill f (fun i => h (hostMeta (impl self) i))
             (Z.to_nat (grid_count self))).
  - simpl. rewrite Z2Nat.id by lia. by rewrite Hn, fmap_hostMeta_seqZ.
  - apply length_replicate.
  - intros i Hi. assert (0 <= i < batchSize (impl self)) as Hi' by lia.
    destruct (in_range_nonneg (impl self) i Hi') as [Hin Hres].
    by rewrite (Hf i Hin), Hres.
Qed.

(** X22.  On a wrapper whose members forward to the engine, the counting
    tensors never fail and list the metadata in batch order on the device of
    the batch: [num_voxels], [cum_voxels] and [num_leaf_nodes] hold the voxel
    count, the cumulative voxel count and the leaf count of each element, and
    [num_bytes] the byte size of each element as an [int64_t]. *)
Theorem counting_tensors_list_the_metadata :
  grid_count self = batchSize (impl self) ->
  (forall bi, num_voxels_at self bi = numVoxels (impl self) bi) ->
  (forall bi, cum_voxels_at self bi = cumVoxels (impl self) bi) ->
  num_voxels grid_count device num_voxels_at self
    = Ok (mkTensor (mNumVoxels <$> mHostGridMetadata (impl self)) (device self)) /\
  cum_voxels grid_count device cum_voxels_at self
    = Ok (mkTensor (mCumVoxels <$> mHostGridMetadata (impl self)) (device self)) /\
  num_leaf_nodes grid_count device self
    = Ok (mkTensor (mNumLeaves <$> mHostGridMetadata (impl self)) (device self)) /\
  num_bytes grid_count device self
    = Ok (mkTensor ((fun m => wrap_signed 64 (mNumBytes m)) <$> mHostGridMetadata (impl self))
            (device self)).
Proof.
  intros Hn Hnum Hcum.
  unfold num_voxels, cum_voxels, num_leaf_nodes, num_bytes.
  rewrite (fill_in_range (num_voxels_at self) mNumVoxels Hn).
  2:{ intros bi Hin. rewrite Hnum. apply (queries_in_range (impl self) bi Hin). }
  rewrite (fill_in_range (cum_voxels_at self) mCumVoxels Hn).
  2:{ intros bi Hin. rewrite Hcum. apply (queries_in_range (impl self) bi Hin). }
  rewrite (fill_in_range (numLeaves (impl self)) mNumLeaves Hn).
  2:{ intros bi Hin. apply (queries_in_range (impl self) bi Hin). }
  rewrite (fill_in_range _ (fun m => wrap_signed 64 (mNumBytes m)) Hn).
  2:{ intros bi Hin.
      destruct (queries_in_range (impl self) bi Hin) as (_ & _ & _ & _ & Hb & _).
      by rewrite Hb. }
  done.
Qed.

(** The running sum of the enabled-voxel counts of an immutable batch. *)
Lemma cum_enabled_voxels_at_sum (bi : Z) :
  is_mutable self = false ->
  (forall b, num_voxels_at self b = numVoxels (impl self) b) ->
  bi <= batchSize (impl self) ->
  cum_enabled_voxels_at is_mutable device num_voxels_at dispatchCountEnabledVoxels self bi
    = Ok (sum_i64 (take (Z.to_nat bi) (voxelCounts (impl self)))).
Proof.
  intros Himm Hnum Hbi. unfold cum_enabled_voxels_at.
  destruct (for_loop_total
              (fun k acc => acc = sum_i64 (take (Z.to_nat k) (voxelCounts (impl self))))
              (fun b nCum =>
                 v ← num_enabled_voxels_at is_mutable device num_voxels_at
                       dispatchCountEnabledVoxels self b;
                 Ok (add_i64 nCum v))
              (Z.to_nat bi) 0 0) as (s & Hrun & Hs).
  - intros j acc Hj ->. unfold num_enabled_voxels_at. rewrite Himm. simpl. rewrite Hnum.
    assert (0 <= j < batchSize (impl self)) as Hj' by lia.
    destruct (in_range_nonneg (impl self) j Hj') as [Hin Hres].
    destruct (queries_in_range (impl self) j Hin) as (_ & _ & Hv & _).
    rewrite Hv, Hres. simpl. eexists. split; [done|].
    destruct (lookup_lt_is_Some_2 (mHostGridMetadata (impl self)) (Z.to_nat j)) as [m Hm].
    { unfold batchSize in Hj'. lia. }
    replace (Z.to_nat (j + 1)) with (S (Z.to_nat j)) by lia.
    rewrite (take_S_r _ _ (mNumVoxels m)).
    2:{ unfold voxelCounts. by rewrite list_lookup_fmap, Hm. }
    rewrite sum_i64_snoc. do 2 f_equal. unfold hostMeta.
    by apply list_lookup_total_correct.
  - done.
  - rewrite Hrun, Hs. do 3 f_equal. lia.
Qed.

(** X23.  On an immutable batch whose members forward to the engine and
    whose cumulative counts are the running sums of its counts,
    [cum_enabled_voxels_at] returns what [cum_voxels_at] returns exactly for
    the indices [0 .. n-1].  It has no range check: at the batch size it
    returns the total number of voxels where [cum_voxels_at] raises the index
    error, and for every negative index it returns 0 where [cum_voxels_at]
    counts from the end of the batch. *)
Theorem cum_enabled_voxels_at_against_cum_voxels_at (bi : Z) :
  is_mutable self = false ->
  (forall b, num_voxels_at self b = numVoxels (impl self) b) ->
  (forall b, cum_voxels_at self b = cumVoxels (impl self) b) ->
  prefix_sums (impl self) ->
  let cum_enabled :=
    cum_enabled_voxels_at is_mutable device num_voxels_at dispatchCountEnabledVoxels self in
  (0 <= bi < batchSize (impl self) -> cum_enabled bi = cum_voxels_at self bi) /\
  (bi = batchSize (impl self) ->
     cum_enabled bi = Ok (totalVoxels (impl self)) /\ cum_voxels_at self bi = index_error) /\
  (bi < 0 ->
     cum_enabled bi = Ok 0 /\
     (in_range (impl self) bi ->
        cum_voxels_at self bi = cum_enabled (bi + batchSize (impl self)))).
Proof.
  intros Himm Hnum Hcum (Hel & Htv & _) cum_enabled.
  assert (forall k, 0 <= k < batchSize (impl self) ->
            cum_enabled k = cum_voxels_at self k) as Hsame.
  { intros k Hk. unfold cum_enabled.
    rewrite (cum_enabled_voxels_at_sum k Himm Hnum) by lia. rewrite Hcum.
    destruct (in_range_nonneg (impl self) k Hk) as [Hin Hres].
    destruct (queries_in_range (impl self) k Hin) as (_ & _ & _ & Hc & _).
    rewrite Hc, Hres. f_equal.
    destruct (lookup_lt_is_Some_2 (mHostGridMetadata (impl self)) (Z.to_nat k)) as [m Hm].
    { unfold batchSize in Hk. lia. }
    destruct (Hel _ m Hm) as [Hv _]. rewrite <- Hv. unfold hostMeta.
    f_equal. symmetry. by apply list_lookup_total_correct. }
  split; [apply Hsame|]. split.
  - intros ->. unfold cum_enabled.
    rewrite (cum_enabled_voxels_at_sum _ Himm Hnum) by lia. split.
    + rewrite Htv. do 2 f_equal. apply take_ge. unfold voxelCounts, batchSize.
      rewrite length_fmap. lia.
    + rewrite Hcum. apply queries_out_of_range. unfold in_range, resolve.
      pose proof (batchSize_nonneg (impl self)).
      rewrite (proj2 (Z.ltb_ge _ 0)) by lia. lia.
  - intros Hneg. unfold cum_enabled at 1.
    rewrite (cum_enabled_voxels_at_sum bi Himm Hnum)
      by (pose proof (batchSize_nonneg (impl self)); lia).
    replace (Z.to_nat bi) with 0%nat by lia. split; [done|].
    intros Hin. rewrite Hsame.
    + rewrite !Hcum. unfold cumVoxels.
      rewrite (rangecheck_in_range _ _ Hin).
      destruct (in_range_resolve _ _ Hin) as [Hin' Hres'].
      unfold in_range, resolve in Hin. rewrite (proj2 (Z.ltb_lt bi 0)) in Hin by lia.
      assert (resolve (impl self) bi = bi + batchSize (impl self)) as Hr
        by (unfold resolve; by rewrite (proj2 (Z.ltb_lt bi 0)) by lia).
      rewrite Hr in *. by rewrite (rangecheck_in_range _ _ Hin'), Hres'.
    + unfold in_range, resolve in Hin. rewrite (proj2 (Z.ltb_lt bi 0)) in Hin by lia. lia.
Qed.

End WrapperCounts.

Lemma counting_tensors_list_the_metadata_witness :
  GridBatch.num_bytes Sample.grid_count Sample.device_of Sample.wrapper
    = Ok (GridBatch.mkTensor [64; 32; 96] cpu) /\
  GridBatch.num_leaf_nodes Sample.grid_count Sample.device_of Sample.wrapper
    = Ok (GridBatch.mkTensor [2; 1; 3] cpu).
Proof.
  destruct (counting_tensors_list_the_metadata Sample.grid_count Sample.device_of
              Sample.num_voxels_at Sample.cum_voxels_at Sample.wrapper)
    as (_ & _ & Hl & Hb).
  - reflexivity.
  - reflexivity.
  - reflexivity.
  - split; [rewrite Hb | rewrite Hl]; reflexivity.
Defined.

Lemma cum_enabled_voxels_at_against_cum_voxels_at_witness :
  GridBatch.cum_enabled_voxels_at Sample.is_mutable Sample.device_of Sample.num_voxels_at
    Sample.count_none Sample.wrapper 2 = Ok 15 /\
  GridBatch.cum_enabled_voxels_at Sample.is_mutable Sample.device_of Sample.num_voxels_at
    Sample.count_none Sample.wrapper (-1) = Ok 0 /\
  Sample.cum_voxels_at Sample.wrapper (-1) = Ok 15.
Proof.
  split; [|split].
  - destruct (cum_enabled_voxels_at_against_cum_voxels_at Sample.is_mutable
                Sample.device_of Sample.num_voxels_at Sample.cum_voxels_at Sample.count_none
                Sample.wrapper 2) as (Hin & _).
    + reflexivity.
    + reflexivity.
    + reflexivity.
    + apply prefix_sums_construct.
    + rewrite Hin; [reflexivity|]. vm_compute. split; [discriminate | reflexivity].
  - destruct (cum_enabled_voxels_at_against_cum_voxels_at Sample.is_mutable
                Sample.device_of Sample.num_voxels_at Sample.cum_voxels_at Sample.count_none
                Sample.wrapper (-1)) as (_ & _ & Hneg).
    + reflexivity.
    + reflexivity.
    + reflexivity.
    + apply prefix_sums_construct.
    + apply Hneg. reflexivity.
  - reflexivity.
Defined.

Section WrapperDerived.
Import GridBatchImpl GridBatch.

Variable is_mutable : GridBatch.t -> bool.
Variable grid_count : GridBatch.t -> Z.
Variable device : GridBatch.t -> Device.
Variable JaggedTensor : Type.
Variable ldim : JaggedTensor -> Z.
Variable buildCoarseFromFineGrid : GridBatch.t -> GridBatch.t -> Coord -> result GridBatch.t.
Variable buildFineFromCoarseGrid :
  GridBatch.t -> GridBatch.t -> option JaggedTensor -> Coord -> result GridBatch.t.
Variable buildDualFromPrimalGrid : GridBatch.t -> GridBatch.t -> bool -> result GridBatch.t.
Variable self : GridBatch.t.

Lemma check_strictly_positive_spec (c : Coord) (msg : string) :
  check_strictly_positive c msg =
    if factor_positive c then Ok tt else Throw (c10_ValueError msg).
Proof.
  unfold check_strictly_positive, factor_positive, TORCH_CHECK_VALUE.
  destruct (0 <? cx c), (0 <? cy c), (0 <? cz c); done.
Qed.

(** X24.  The derived grids validate before they build.  A factor with a
    component that is not positive is refused with a value error by
    [coarsened_grid] and [subdivided_grid], whatever the batch, the empty one
    included, and no builder runs; [subdivided_grid] refuses a mask whose
    list dimension is not 1 before it looks at the factor.  With arguments
    that pass, an empty batch yields the empty batch of its device and
    mutability without a builder being called, and any other batch is handed
    to the builder together with such an empty batch.  [dual_grid] validates
    nothing. *)
Theorem derived_grids_validate_first (factor : Coord) (mask : option JaggedTensor)
    (exclude_border : bool) :
  match mask with Some m => ldim m = 1 | None => True end ->
  let fresh := GridBatch.new (device self) (is_mutable self) in
  let coarsened :=
    coarsened_grid is_mutable grid_count device buildCoarseFromFineGrid self in
  let subdivided :=
    subdivided_grid is_mutable grid_count device JaggedTensor ldim buildFineFromCoarseGrid
      self in
  let dual := dual_grid is_mutable grid_count device buildDualFromPrimalGrid self in
  (forall m, ldim m <> 1 ->
     subdivided factor (Some m)
       = Throw (c10_ValueError "Expected mask to have 1 list dimension")) /\
  (factor_positive factor = false ->
     coarsened factor = Throw (c10_ValueError "branch_factor must be strictly positive") /\
     subdivided factor mask
       = Throw (c10_ValueError "subdiv_factor must be strictly positive")) /\
  (factor_positive factor = true ->
     coarsened factor =
       (if grid_count self =? 0 then Ok fresh
        else buildCoarseFromFineGrid fresh self factor) /\
     subdivided factor mask =
       (if grid_count self =? 0 then Ok fresh
        else buildFineFromCoarseGrid fresh self mask factor)) /\
  dual exclude_border =
    (if grid_count self =? 0 then Ok fresh
     else buildDualFromPrimalGrid fresh self exclude_border).
Proof.
  intros Hmask fresh coarsened subdivided dual.
  unfold coarsened, subdivided, dual, coarsened_grid, subdivided_grid, dual_grid.
  rewrite !check_strictly_positive_spec.
  split; [|split; [|split]].
  - intros m Hm. unfold TORCH_CHECK_VALUE.
    by rewrite (proj2 (Z.eqb_neq (ldim m) 1)).
  - intros ->. split; [done|].
    destruct mask as [m|]; [|done]. unfold TORCH_CHECK_VALUE.
    by rewrite (proj2 (Z.eqb_eq (ldim m) 1)).
  - intros ->. split; [done|].
    destruct mask as [m|]; [|done]. unfold TORCH_CHECK_VALUE.
    by rewrite (proj2 (Z.eqb_eq (ldim m) 1)).
  - done.
Qed.

(** The rows of the box tensors, when the engine returns on [0 .. n-1]. *)
Lemma fill_boxes_in_range (f : Z -> result CoordBBox) (h : GridMetadata -> CoordBBox) :
  grid_count self = batchSize (impl self) ->
  (forall bi, in_range (impl self) bi ->
     f bi = Ok (h (hostMeta (impl self) (resolve (impl self) bi)))) ->
  fill_boxes grid_count device self f
    = Ok (mkBoxTensor (h <$> mHostGridMetadata (impl self)) (device self)).
Proof.
  intros Hn Hf. unfold fill_boxes.
  pose proof (batchSize_nonneg (impl self)) as Hnn.
  rewrite (for_loop_fill f (fun i => h (hostMeta (impl self) i))
             (Z.to_nat (grid_count self))).
  - simpl. rewrite Z2Nat.id by lia. by rewrite Hn, fmap_hostMeta_seqZ.
  - apply length_replicate.
  - intros i Hi. assert (0 <= i < batchSize (impl self)) as Hi' by lia.
    destruct (in_range_nonneg (impl self) i Hi') as [Hin Hres].
    by rewrite (Hf i Hin), Hres.
Qed.

(** X25.  The box tensors of a wrapper whose batch size is the engine's.
    On storage that is not empty [bbox] and [dual_bbox] never fail: they hold
    the box of each element in batch order, respectively that box with its
    maximum corner moved by [(1, 1, 1)], which are the boxes [bbox_at] and
    [dual_bbox_at] return.  On a batch without elements they return a tensor
    without rows, although [bbox_at] and [dual_bbox_at] fail at every index;
    and on empty storage with elements they fail with the error of the
    empty-grid check. *)
Theorem box_tensors_list_the_boxes :
  grid_count self = batchSize (impl self) ->
  let meta := mHostGridMetadata (impl self) in
  (isEmpty (impl self) = false ->
     GridBatch.bbox grid_count device self
       = Ok (mkBoxTensor (mBBox <$> meta) (device self)) /\
     GridBatch.dual_bbox grid_count device self
       = Ok (mkBoxTensor ((fun m => dual_wrapping (mBBox m)) <$> meta) (device self)) /\
     forall (i : nat) (m : GridMetadata),
       meta !! i = Some m ->
       bbox_at device self (Z.of_nat i) = Ok (mBBox m, device self) /\
       dual_bbox_at device self (Z.of_nat i) = Ok (dual_wrapping (mBBox m), device self)) /\
  (batchSize (impl self) = 0 ->
     GridBatch.bbox grid_count device self = Ok (mkBoxTensor [] (device self)) /\
     GridBatch.dual_bbox grid_count device self = Ok (mkBoxTensor [] (device self)) /\
     forall bi, is_Ok (bbox_at device self bi) = false /\
                is_Ok (dual_bbox_at device self bi) = false) /\
  (isEmpty (impl self) = true -> 0 < batchSize (impl self) ->
     GridBatch.bbox grid_count device self = Throw (c10_Error "Empty grid") /\
     GridBatch.dual_bbox grid_count device self = Throw (c10_Error "Empty grid")).
Proof.
  intros Hn meta. split; [|split].
  - intros Hfull.
    assert (forall bi, in_range (impl self) bi ->
              GridBatchImpl.bbox (impl self) bi
                = Ok (mBBox (hostMeta (impl self) (resolve (impl self) bi)))) as Hb.
    { intros bi Hin.
      destruct (queries_in_range (impl self) bi Hin)
        as (_ & _ & _ & _ & _ & _ & _ & _ & _ & _ & Hb).
      by apply Hb. }
    assert (forall bi, in_range (impl self) bi ->
              GridBatchImpl.dualBbox (impl self) bi
                = Ok (dual_wrapping (mBBox (hostMeta (impl self) (resolve (impl self) bi)))))
      as Hd.
    { intros bi Hin. rewrite (dualBbox_bbox (impl self) bi Hin), (Hb bi Hin). done. }
    split; [|split].
    + by apply (fill_boxes_in_range _ mBBox).
    + by apply (fill_boxes_in_range _ (fun m => dual_wrapping (mBBox m))).
    + intros i m Hm. destruct (lookup_in_range (impl self) i m Hm) as [Hin Hres].
      unfold bbox_at, dual_bbox_at.
      rewrite (Hb _ Hin), (Hd _ Hin), Hres, (hostMeta_lookup (impl self) i m Hm). done.
  - intros Hzero. unfold GridBatch.bbox, GridBatch.dual_bbox, fill_boxes.
    rewrite Hn, Hzero. simpl. split; [done|]. split; [done|].
    intros bi.
    assert (~ in_range (impl self) bi) as Hout by (unfold in_range; lia).
    destruct (queries_out_of_range (impl self) bi Hout)
      as (_ & _ & _ & _ & _ & _ & _ & _ & _ & _ & Hd & Hb).
    unfold bbox_at, dual_bbox_at. rewrite Hd, Hb.
    split; [|done]. by destruct (isEmpty (impl self)).
  - intros Hempty Hpos. unfold GridBatch.bbox, GridBatch.dual_bbox, fill_boxes.
    assert (in_range (impl self) 0) as Hin by (by apply in_range_nonneg).
    rewrite !(for_loop_fill_fails _ (c10_Error "Empty grid")); try done; try lia.
    + unfold GridBatchImpl.dualBbox. rewrite (rangecheck_in_range _ _ Hin). simpl.
      unfold GridBatchImpl.bbox, checkNonEmptyGrid. by rewrite Hempty.
    + unfold GridBatchImpl.bbox, checkNonEmptyGrid. by rewrite Hempty.
Qed.

End WrapperDerived.

Lemma derived_grids_validate_first_witness :
  GridBatch.coarsened_grid Sample.is_mutable Sample.grid_count Sample.device_of
    Sample.build_same Sample.empty_wrapper (mkCoord 2 0 2)
    = Throw (c10_ValueError "branch_factor must be strictly positive") /\
  GridBatch.subdivided_grid Sample.is_mutable Sample.grid_count Sample.device_of unit
    Sample.ldim_one Sample.build_fine_same Sample.empty_wrapper (mkCoord 2 2 2) (Some tt)
    = Ok (GridBatch.new cpu false).
Proof.
  split.
  - refine (proj1 (proj1 (proj2 (derived_grids_validate_first Sample.is_mutable
              Sample.grid_count Sample.device_of unit Sample.ldim_one Sample.build_same
              Sample.build_fine_same Sample.build_dual_same Sample.empty_wrapper
              (mkCoord 2 0 2) (Some tt) false _)) _)); reflexivity.
  - refine (eq_trans (proj2 (proj1 (proj2 (proj2 (derived_grids_validate_first
              Sample.is_mutable Sample.grid_count Sample.device_of unit Sample.ldim_one
              Sample.build_same Sample.build_fine_same Sample.build_dual_same
              Sample.empty_wrapper (mkCoord 2 2 2) (Some tt) false _))) _)) _); reflexivity.
Defined.

Lemma box_tensors_list_the_boxes_witness :
  GridBatch.dual_bbox Sample.grid_count Sample.device_of Sample.wrapper
    = Ok (GridBatch.mkBoxTensor
            [mkBBox (mkCoord 0 0 0) (mkCoord 3 3 3);
             mkBBox (mkCoord 5 5 5) (mkCoord 7 7 7);
             mkBBox (mkCoord (-4) 0 1) (mkCoord 4 10 2)] cpu) /\
  GridBatch.bbox Sample.grid_count Sample.device_of Sample.empty_wrapper
    = Ok (GridBatch.mkBoxTensor [] cpu).
Proof.
  split.
  - destruct (box_tensors_list_the_boxes Sample.grid_count Sample.device_of Sample.wrapper
                eq_refl) as (Hfull & _).
    destruct (Hfull eq_refl) as (_ & Hd & _). rewrite Hd. reflexivity.
  - destruct (box_tensors_list_the_boxes Sample.grid_count Sample.device_of
                Sample.empty_wrapper eq_refl) as (_ & Hzero & _).
    destruct (Hzero eq_refl) as (Hb & _). exact Hb.
Defined.

(** ** Voxel sizes and origins of a view *)

Section IndexTransforms.
Import GridBatchImpl.

Lemma same_grid_transform (a b : GridMetadata) :
  same_grid a b ->
  mVoxelSize a = mVoxelSize b /\ GridMetadata_voxelOrigin a = GridMetadata_voxelOrigin b.
Proof.
  unfold same_grid, GridMetadata_voxelOrigin. destruct a, b. simpl.
  intros H. by inversion H.
Qed.

(** X26.  A view keeps the voxel sizes and origins: indexing a batch that is
    not a nested list by a non-empty list of indices in range returns an
    instance on which [voxelSize] and [voxelOrigin] at each position return
    what they return on the source at the index in that position, and whose
    [gridVoxelSizesAndOrigins] lists exactly these, in the order of the
    list. *)
Theorem index_keeps_voxel_sizes_and_origins (self : GridBatchImpl.t) (L : list Z) :
  mListIndices self = [] -> L <> [] -> Forall (in_range self) L ->
  exists ret,
    indexInternal self (vec L) (Z.of_nat (length L)) = Ok ret /\
    gridVoxelSizesAndOrigins ret =
      ((fun b => mVoxelSize (hostMeta self (resolve self b))) <$> L,
       (fun b => GridMetadata_voxelOrigin (hostMeta self (resolve self b))) <$> L) /\
    forall (i : nat) (b : Z),
      L !! i = Some b ->
      is_Ok (voxelSize self b) = true /\
      voxelSize ret (Z.of_nat i) = voxelSize self b /\
      voxelOrigin ret (Z.of_nat i) = voxelOrigin self b /\
      (gridVoxelSizesAndOrigins ret).1 !! i = Some (mVoxelSize (hostMeta self (resolve self b))).
Proof.
  intros Hflat Hne Hvalid.
  destruct (indexInternal_closed_form self L Hflat Hne Hvalid) as (ret & Hret & Hform & _).
  assert (forall i b, L !! i = Some b ->
            exists m, mHostGridMetadata ret !! i = Some m /\
                      same_grid m (hostMeta self (resolve self b))) as Hel.
  { intros i b Hb. eexists. split.
    - rewrite Hform. apply reindex_lookup. by apply selected_lookup.
    - apply with_offsets_counts. }
  assert (forall (A : Type) (h : GridMetadata -> A),
            (forall a b, same_grid a b -> h a = h b) ->
            h <$> mHostGridMetadata ret = (fun b => h (hostMeta self (resolve self b))) <$> L)
    as Hmap.
  { intros A h Hh. apply list_eq. intros i. rewrite !list_lookup_fmap.
    destruct (L !! i) as [b|] eqn:Hb; simpl.
    - destruct (Hel i b Hb) as (m & Hm & Hs). rewrite Hm. simpl. f_equal. by apply Hh.
    - rewrite (proj2 (lookup_ge_None (mHostGridMetadata ret) i)); [done|].
      apply lookup_ge_None in Hb. rewrite Hform, length_reindex, length_selected. lia. }
  exists ret. split; [done|]. split.
  - unfold gridVoxelSizesAndOrigins. f_equal; apply Hmap; intros a b Hs;
      by apply same_grid_transform.
  - intros i b Hb. destruct (Hel i b Hb) as (m & Hm & Hs).
    destruct (same_grid_transform _ _ Hs) as [Hsize Horigin].
    assert (in_range self b) as Hin by (by eapply Forall_lookup_1).
    destruct (lookup_in_range ret i m Hm) as [Hin' Hres].
    destruct (queries_in_range self b Hin) as (_ & _ & _ & _ & _ & _ & _ & _ & Hs1 & Ho1 & _).
    destruct (queries_in_range ret _ Hin') as (_ & _ & _ & _ & _ & _ & _ & _ & Hs2 & Ho2 & _).
    rewrite Hres, (hostMeta_lookup ret i m Hm) in Hs2, Ho2.
    rewrite Hs1, Ho1, Hs2, Ho2, Hsize, Horigin. split; [done|]. split; [done|].
    split; [done|].
    unfold gridVoxelSizesAndOrigins. simpl. by rewrite list_lookup_fmap, Hm, <- Hsize.
Qed.

Lemma index_keeps_voxel_sizes_and_origins_witness :
  exists ret,
    indexInternal Sample.batch (vec [2; -3]) 2 = Ok ret /\
    voxelSize ret 1 = voxelSize Sample.batch (-3) /\
    voxelOrigin ret 0 = voxelOrigin Sample.batch 2.
Proof.
  destruct (index_keeps_voxel_sizes_and_origins Sample.batch [2; -3] eq_refl)
    as (ret & Hret & _ & Hel).
  - discriminate.
  - apply Forall_cons; [|apply Forall_cons; [|apply Forall_nil]];
      (vm_compute; split; [discriminate | reflexivity]).
  - exists ret. split; [exact Hret|]. split.
    + exact (proj1 (proj2 (Hel 1%nat (-3) eq_refl))).
    + exact (proj1 (proj2 (proj2 (Hel 0%nat 2 eq_refl)))).
Defined.

End IndexTransforms.
